(** * PrayerTimesScraper: extract-prayer-times.js

    A shallow embedding of [extract-prayer-times.js]: the 12-hour to
    24-hour time normaliser [convertTo24Hour], the callback that reads the
    rows of the page, the processing of the scraped week, the day-of-week
    map, the expansion of the week into the tables of the current and of
    the next month, and the script around them with its calls of the
    browser.

    Modelling choices.
    - A JavaScript string is a [string] whose characters are the code
      units below 256.
    - A JavaScript number that holds an integer is a [number]: the value
      of a double in [Z], with the rounding of an integer above 2^53 to
      the nearest double, the infinities and NaN.
    - A [Date] is a time value; its fields and [new Date(year, month, day)]
      go through the time zone of the process, a parameter of every
      definition that uses a date.
    - An object literal used as a record with string keys is an
      association list in insertion order ([obj]); the object used as a
      dictionary from weekday to pattern is a [gmap].
    - Logging, file writes, the launch and the close of the browser, the
      exit of the process and thrown errors are the effects of a small
      writer-and-error monad [M]; the timestamp that [log] prepends to a
      message is not part of the model, and a write to the file system
      does not fail.
    - The inputs of a run are the clock reading [new Date()], the time
      zone, and what the browser does: the call that rejects, or the rows
      of the page. *)

From Stdlib Require Import ZArith String Ascii List Lia Bool DecimalString.
From Stdlib Require Import Sorted Permutation.
From stdpp Require Import base option list gmap.
Import ListNotations.

Local Open Scope string_scope.
Local Open Scope Z_scope.

(** ** JavaScript strings *)

Module JsString.

(** [WhiteSpace] and [LineTerminator] code units below 256, as removed
    by [String.prototype.trim] and skipped by [parseInt]. *)
Definition isWhiteSpace (c : ascii) : bool :=
  let n := N_of_ascii c in
  ((9 <=? n)%N && (n <=? 13)%N) || (n =? 32)%N || (n =? 160)%N.

Fixpoint trimStart (s : string) : string :=
  match s with
  | EmptyString => EmptyString
  | String c s' => if isWhiteSpace c then trimStart s' else s
  end.

Fixpoint trimEnd (s : string) : string :=
  match s with
  | EmptyString => EmptyString
  | String c s' =>
      match trimEnd s' with
      | EmptyString => if isWhiteSpace c then EmptyString else String c EmptyString
      | r => String c r
      end
  end.

Definition trim (s : string) : string := trimEnd (trimStart s).

(** [s.includes(c)] for a one-character search string. *)
Fixpoint includes (c : ascii) (s : string) : bool :=
  match s with
  | EmptyString => false
  | String c' s' => if Ascii.eqb c' c then true else includes c s'
  end.

(** [s.split(sep)] for a one-character separator: never empty. *)
Fixpoint split (sep : ascii) (s : string) : list string :=
  match s with
  | EmptyString => [EmptyString]
  | String c s' =>
      if Ascii.eqb c sep then EmptyString :: split sep s'
      else match split sep s' with
           | piece :: pieces => String c piece :: pieces
           | [] => [String c EmptyString]
           end
  end.

(** The first [n] characters of [padString] repeated. *)
Fixpoint filler (n : nat) (rest padString : string) : string :=
  match n with
  | O => EmptyString
  | S n' =>
      match rest with
      | String c rest' => String c (filler n' rest' padString)
      | EmptyString =>
          match padString with
          | String c rest' => String c (filler n' rest' padString)
          | EmptyString => EmptyString
          end
      end
  end.

(** [s.padStart(targetLength, padString)]. *)
Definition padStart (targetLength : nat) (padString : string) (s : string) : string :=
  let len := String.length s in
  if (targetLength <=? len)%nat then s
  else filler (targetLength - len) padString padString ++ s.

(** [ToString] of an array element that may be missing. *)
Definition toStringOrUndefined (o : option string) : string :=
  match o with
  | Some s => s
  | None => "undefined"
  end.

End JsString.

(** ** JavaScript numbers

    The numbers of the code are results of [parseInt] and of adding an
    integer to one: NaN, an infinity, or a double whose value is an
    integer.  A [Num z] holds the value of such a double; the rounding of
    an integer to the nearest double is written out. *)

Module JsNumber.

Inductive number : Type :=
| NaN
| Infinity (negative : bool)
| Num (z : Z).

(** The number that an integer denotes: itself up to 2^53, else the
    nearest integer with 53 significant bits, the even one of two that are
    equally near, and an infinity from 2^1024 on. *)
Definition toDouble (z : Z) : number :=
  let a := Z.abs z in
  if a <=? 2 ^ 53 then Num z
  else
    let e := Z.log2 a - 52 in
    let q := a / 2 ^ e in
    let r := a mod 2 ^ e in
    let half := 2 ^ (e - 1) in
    let q := if (r <? half) || ((r =? half) && Z.even q) then q else q + 1 in
    if 2 ^ 1024 <=? q * 2 ^ e then Infinity (z <? 0) else Num (Z.sgn z * (q * 2 ^ e)).

Definition digitValue (radix : Z) (c : ascii) : option Z :=
  let n := Z.of_N (N_of_ascii c) in
  let v :=
    if (48 <=? n) && (n <=? 57) then Some (n - 48)
    else if (97 <=? n) && (n <=? 122) then Some (n - 87)
    else if (65 <=? n) && (n <=? 90) then Some (n - 55)
    else None in
  match v with
  | Some d => if d <? radix then Some d else None
  | None => None
  end.

(** The value of the longest prefix of radix digits; [acc] is [None]
    while no digit has been read. *)
Fixpoint parseDigits (radix : Z) (acc : option Z) (s : string) : option Z :=
  match s with
  | EmptyString => acc
  | String c s' =>
      match digitValue radix c with
      | Some d => parseDigits radix (Some (radix * default 0 acc + d)) s'
      | None => acc
      end
  end.

(** [parseInt(s)] without a radix argument: the number that the integer
    of the digits denotes.  (Beyond 20 significant digits the language
    leaves the approximation to the implementation; V8 rounds the exact
    integer, as here.) *)
Definition parseInt (s : string) : number :=
  let s := JsString.trimStart s in
  let '(sign, s) :=
    match s with
    | String c r =>
        if Ascii.eqb c "-" then (-1, r)
        else if Ascii.eqb c "+" then (1, r)
        else (1, s)
    | EmptyString => (1, s)
    end in
  let '(radix, s) :=
    match s with
    | String c (String x r) =>
        if Ascii.eqb c "0" && (Ascii.eqb x "x" || Ascii.eqb x "X") then (16, r)
        else (10, s)
    | _ => (10, s)
    end in
  match parseDigits radix None s with
  | None => NaN
  | Some v => toDouble (sign * v)
  end.

(** [n === k] for an integer literal [k]. *)
Definition strictEq (n : number) (k : Z) : bool :=
  match n with
  | Num z => z =? k
  | _ => false
  end.

(** [n + k] for an integer literal [k]: the sum, rounded. *)
Definition add (n : number) (k : Z) : number :=
  match n with
  | Num z => toDouble (z + k)
  | _ => n
  end.

(** The decimal digits of an integer. *)
Definition decimal (z : Z) : string := NilZero.string_of_int (Z.to_int z).

(** The fewest decimal digits that denote the double [v], an integer
    above 2^53: the digits [s] and the number [n] of digits before the
    decimal point, so that [v] is the double nearest to [s] followed by
    zeros up to [n] digits.  Of two such [s] the nearer to [v] is taken. *)
Definition shortestDecimal (v : Z) : Z * Z :=
  let d := Z.of_nat (String.length (decimal v)) in
  let denotes (s p : Z) : bool :=
    match toDouble (s * p) with
    | Num w => w =? v
    | _ => false
    end in
  let candidates (k : Z) : list (Z * Z) :=
    flat_map
      (fun n =>
         let p := 10 ^ (n - k) in
         List.map (fun s => (s, n))
           (List.filter
              (fun s => (10 ^ (k - 1) <=? s) && (s <? 10 ^ k) && (0 <=? n - k) &&
                        denotes s p)
              [v / p; v / p + 1]))
      [d; d + 1] in
  let distance (c : Z * Z) (k : Z) : Z := Z.abs (fst c * 10 ^ (snd c - k) - v) in
  let nearest (k : Z) (l : list (Z * Z)) : option (Z * Z) :=
    fold_left
      (fun best c =>
         match best with
         | None => Some c
         | Some b => if distance c k <? distance b k then Some c else Some b
         end)
      l None in
  let found :=
    fold_left
      (fun best k =>
         match best with
         | Some b => Some b
         | None => nearest k (candidates k)
         end)
      (List.map Z.of_nat (seq 1 17)) None in
  match found with
  | Some c => c
  | None => (v, d)
  end.

Fixpoint zeros (n : nat) : string :=
  match n with
  | O => EmptyString
  | S n' => String "0" (zeros n')
  end.

(** [n.toString()]: the digits of an integer below 2^53; above, the
    fewest digits that denote the double, followed by zeros below 10^21
    and with an exponent from 10^21 on. *)
Definition toString (n : number) : string :=
  match n with
  | NaN => "NaN"
  | Infinity negative => if negative then "-Infinity" else "Infinity"
  | Num z =>
      if Z.abs z <? 2 ^ 53 then decimal z
      else
        let '(s, n) := shortestDecimal (Z.abs z) in
        let digits := decimal s in
        let k := Z.of_nat (String.length digits) in
        let sign := if z <? 0 then "-" else "" in
        if n <=? 21 then sign ++ digits ++ zeros (Z.to_nat (n - k))
        else
          match digits with
          | String c EmptyString => sign ++ String c ("e+" ++ decimal (n - 1))
          | String c rest => sign ++ String c ("." ++ rest ++ "e+" ++ decimal (n - 1))
          | EmptyString => sign
          end
  end.

End JsNumber.

Import JsString JsNumber.

(** ** JavaScript dates

    A [Date] is its time value: the milliseconds since
    1970-01-01T00:00Z.  The fields that the code reads ([getFullYear],
    [getMonth], [getDate], [getDay]) are those of the local time of the
    date, and [new Date(year, month, day)] is the local midnight of a
    calendar day: both go through the time zone of the process, which is
    an input of the model.  The range check of a time value (TimeClip) is
    left out. *)

Module JsDate.

(** The time zone of the process, as the language sees it (LocalTZA,
    implementation-defined): [localTZA t true] is the offset in
    milliseconds of the local time from UTC at the time value [t], and
    [localTZA t false] is the offset that the zone gives to the local
    time [t]; for a local time that a change of the offset skips, that is
    the offset before the change. *)
Class TimeZone : Type := { localTZA : Z -> bool -> Z }.

Record Date : Type := { timeValue : Z }.

Definition msPerDay : Z := 86400000.

(** Day number of the civil date [y]-[m]-[d], [m] in 1..12. *)
Definition daysFromCivil (y m d : Z) : Z :=
  let y := if m <=? 2 then y - 1 else y in
  let era := y / 400 in
  let yoe := y - era * 400 in
  let doy := (153 * (if 2 <? m then m - 3 else m + 9) + 2) / 5 + d - 1 in
  let doe := yoe * 365 + yoe / 4 - yoe / 100 + doy in
  era * 146097 + doe - 719468.

(** The civil date (year, month in 1..12, day) of a day number. *)
Definition civilFromDays (z : Z) : Z * Z * Z :=
  let z := z + 719468 in
  let era := z / 146097 in
  let doe := z - era * 146097 in
  let yoe := (doe - doe / 1460 + doe / 36524 - doe / 146096) / 365 in
  let doy := doe - (365 * yoe + yoe / 4 - yoe / 100) in
  let mp := (5 * doy + 2) / 153 in
  let d := doy - (153 * mp + 2) / 5 + 1 in
  let m := if mp <? 10 then mp + 3 else mp - 9 in
  ((if m <=? 2 then yoe + era * 400 + 1 else yoe + era * 400), m, d).

(** The calendar day that the arguments of [new Date(year, month, day)]
    name, counted from 1970-01-01: months count from 0 and overflow into
    the year, days overflow into the month, and a year in 0..99 means
    1900 + year. *)
Definition calendarDay (year month day : Z) : Z :=
  let yr := if (0 <=? year) && (year <=? 99) then 1900 + year else year in
  let ym := yr + month / 12 in
  let mn := month mod 12 in
  daysFromCivil ym (mn + 1) 1 + day - 1.

(** [new Date(year, month, day)]: the time value of the local midnight
    of that calendar day. *)
Definition newDate {zone : TimeZone} (year month day : Z) : Date :=
  let local := calendarDay year month day * msPerDay in
  {| timeValue := local - localTZA local false |}.

(** The day of the local time of a date, counted from 1970-01-01. *)
Definition localDay {zone : TimeZone} (t : Date) : Z :=
  (timeValue t + localTZA (timeValue t) true) / msPerDay.

Definition getFullYear {zone : TimeZone} (t : Date) : Z :=
  fst (fst (civilFromDays (localDay t))).
Definition getMonth {zone : TimeZone} (t : Date) : Z :=
  snd (fst (civilFromDays (localDay t))) - 1.
Definition getDate {zone : TimeZone} (t : Date) : Z := snd (civilFromDays (localDay t)).

(** 0 is Sunday; 1970-01-01 was a Thursday. *)
Definition getDay {zone : TimeZone} (t : Date) : Z := (localDay t + 4) mod 7.

(** UTC: no offset. *)
Definition utc : TimeZone := {| localTZA _ _ := 0 |}.

(** The zone of Pacific/Apia at the end of 2011: ten hours behind UTC
    until 2011-12-30T10:00Z, the end of 29 December there, and fourteen
    hours ahead from then on, 31 December there; the local day
    30 December 2011 does not exist. *)
Definition apia2011 : TimeZone :=
  {| localTZA t isUTC :=
       let change := 15338 * msPerDay + 10 * 3600000 in
       if isUTC then (if t <? change then -10 * 3600000 else 14 * 3600000)
       else (if t <? change + 14 * 3600000 then -10 * 3600000 else 14 * 3600000) |}.

End JsDate.

Import JsDate.

(** ** Objects with string keys *)

Definition obj (V : Type) : Type := list (string * V).

Definition hasOwnProperty {V} (o : obj V) (k : string) : bool :=
  existsb (fun p => String.eqb (fst p) k) o.

(** [o[k] = v]: an existing key keeps its place. *)
Fixpoint setProp {V} (o : obj V) (k : string) (v : V) : obj V :=
  match o with
  | [] => [(k, v)]
  | (k', v') :: o' =>
      if String.eqb k' k then (k', v) :: o' else (k', v') :: setProp o' k v
  end.

Fixpoint getProp {V} (o : obj V) (k : string) : option V :=
  match o with
  | [] => None
  | (k', v') :: o' => if String.eqb k' k then Some v' else getProp o' k
  end.

Definition keys {V} (o : obj V) : list string := map fst o.

(** ** Data *)

(** One prayer of a scraped row: [{ start, iqamah }]. *)
Record Times : Type := { start : string; iqamah : string }.

(** One element of [extractedData], as [page.evaluate] returns it. *)
Record ExtractedDay : Type := {
  date : string;
  dayNumber : Z;
  dayOfWeek : Z;
  isToday : bool;
  prayers : obj Times
}.

(** One element of [processedWeekData]. *)
Record ProcessedDay : Type := {
  pDayNumber : Z;
  pDayOfWeek : Z;
  pIsToday : bool;
  athan : obj string;
  iqama : obj string
}.

(** A value of [dayOfWeekMap]: [{ athan, iqama }]. *)
Record Pattern : Type := { patAthan : obj string; patIqama : obj string }.

(** A field of a month row: the day number or a time string. *)
Inductive value : Type :=
| VNum (n : Z)
| VStr (s : string).

Definition row : Type := obj value.

(** ** Effects *)

Inductive exn : Type :=
| Error (msg : string)
| TypeError (msg : string).

Inductive level : Type := info | warn | error.

(** The messages handed to [log], with the interpolated data. *)
Inductive message : Type :=
| StartedDebug
| StartingExtraction
| Navigating
| TimetableFound
| MultipleTimes (timeStr : string)
| ExtractedDays (n : nat)
| ProcessingWeek
| SkippingInvalidDay (date : string)
| ProcessedDays (n : nat)
| SampleAthan (athan : obj string)
| CreatingMonth (daysInMonth : Z)
| UsingActual (day : Z)
| UsingPattern (dayOfWeek day : Z)
| NoPattern (day : Z)
| GeneratingCurrent (month : Z)
| GeneratingNext (month : Z)
| SavedAthan (month : Z)
| SavedIqama (month : Z)
| Completed
| ErrorDuringExtraction (e : exn)
| StackTrace (e : exn)
| BrowserClosed
| ScriptCompleted
| ScriptFailed (e : exn).

Inductive table : Type := athan_times | iqama_times.

(** What a run does: log entries, the files it makes or writes, the
    launch and the close of the browser, and the exit of the process. *)
Inductive event : Type :=
| MakeOutputDir
| ClearLog
| Log (lvl : level) (msg : message)
| LaunchBrowser
| WriteScreenshot
| WriteRawData (data : list ExtractedDay)
| WriteCsv (kind : table) (month : Z) (records : list row)
| CloseBrowser
| Exit (code : Z).

(** A computation: the events it performed, and the exception it threw
    or the value it returned. *)
Definition M (A : Type) : Type := list event * (exn + A).

Definition ret {A} (a : A) : M A := ([], inr a).

Definition bind {A B} (m : M A) (f : A -> M B) : M B :=
  match m with
  | (t, inl e) => (t, inl e)
  | (t, inr a) => let '(t', r) := f a in ((t ++ t')%list, r)
  end.

Definition throw {A} (e : exn) : M A := ([], inl e).

Definition emit (ev : event) : M unit := ([ev], inr tt).

Definition log (lvl : level) (msg : message) : M unit := emit (Log lvl msg).

Declare Scope js_scope.
Delimit Scope js_scope with js.
Notation "'do' x <- m ; k" := (bind m (fun x => k))
  (at level 10, x name, m at level 100, k at level 200) : js_scope.
Notation "'do' ' pat <- m ; k" := (bind m (fun x => match x with pat => k end))
  (at level 10, pat pattern, m at level 100, k at level 200) : js_scope.
Local Open Scope js_scope.

(** [forEach] with the state the callback updates. *)
Fixpoint forEach {A S} (f : S -> A -> M S) (s : S) (l : list A) : M S :=
  match l with
  | [] => ret s
  | x :: l' => do s' <- f s x; forEach f s' l'
  end.

Definition trace {A} (m : M A) : list event := fst m.
Definition result {A} (m : M A) : exn + A := snd m.

(** [array[0].field] (or [array[0].method()]): a [TypeError] when the
    array is empty. *)
Definition first {A B} (field : A -> B) (fieldName : string) (array : list A) : M B :=
  match array !! 0%nat with
  | Some x => ret (field x)
  | None => throw (TypeError ("Cannot read properties of undefined (reading '" ++ fieldName ++ "')"))
  end.

(** ** convertTo24Hour *)

Definition convertTo24Hour (timeStr prayerName : string) : M string :=
  if String.eqb timeStr "" || String.eqb (trim timeStr) "" then ret ""
  else
    do timeStr <-
      (if includes "," timeStr then
         do timeStr <- first trim "trim" (split "," timeStr);
         do _ <- log info (MultipleTimes timeStr);
         ret timeStr
       else ret timeStr);
    let hours := parseInt (toStringOrUndefined (split ":" timeStr !! 0%nat)) in
    let minutes := parseInt (toStringOrUndefined (split ":" timeStr !! 1%nat)) in
    let hours :=
      if String.eqb prayerName "Fajr" || String.eqb prayerName "Sunrise" then
        if strictEq hours 12 then Num 0 else hours
      else if String.eqb prayerName "Dhuhr" || String.eqb prayerName "Asr" then
        if negb (strictEq hours 12) then add hours 12 else hours
      else if String.eqb prayerName "Magrib" || String.eqb prayerName "Isha" then
        if negb (strictEq hours 12) then add hours 12 else hours
      else hours in
    ret (padStart 2 "0" (toString hours) ++ ":" ++ padStart 2 "0" (toString minutes)).

(** ** extractPrayerTimes: processing the scraped week *)

Definition athanRow0 : obj string :=
  [("Fajr", ""); ("Sunrise", ""); ("Dhuhr", ""); ("Asr", ""); ("Maghrib", ""); ("Isha", "")].

Definition iqamaRow0 : obj string :=
  [("Fajr", ""); ("Dhuhr", ""); ("Asr", ""); ("Maghrib", ""); ("Isha", "")].

(** The callback of [Object.entries(day.prayers).forEach]; the state is
    the pair of rows it assigns to. *)
Definition processPrayer (rows : obj string * obj string) (entry : string * Times)
  : M (obj string * obj string) :=
  let '(athanRow, iqamaRow) := rows in
  let '(name, times) := entry in
  let correctedName := if String.eqb name "Magrib" then "Maghrib" else name in
  do start24 <- convertTo24Hour (start times) name;
  do iqamah24 <- convertTo24Hour (iqamah times) name;
  let athanRow :=
    if hasOwnProperty athanRow correctedName
    then setProp athanRow correctedName start24 else athanRow in
  let iqamaRow :=
    if hasOwnProperty iqamaRow correctedName && negb (String.eqb correctedName "Sunrise")
    then setProp iqamaRow correctedName iqamah24 else iqamaRow in
  ret (athanRow, iqamaRow).

(** The callback of [extractedData.forEach]; the state is
    [processedWeekData]. *)
Definition processDay (processedWeekData : list ProcessedDay) (day : ExtractedDay)
  : M (list ProcessedDay) :=
  if dayNumber day <=? 0 then
    do _ <- log warn (SkippingInvalidDay (date day));
    ret processedWeekData
  else
    do '(athanRow, iqamaRow) <- forEach processPrayer (athanRow0, iqamaRow0) (prayers day);
    ret (processedWeekData ++
         [{| pDayNumber := dayNumber day;
             pDayOfWeek := dayOfWeek day;
             pIsToday := isToday day;
             athan := athanRow;
             iqama := iqamaRow |}])%list.

Definition processWeek (extractedData : list ExtractedDay) : M (list ProcessedDay) :=
  forEach processDay [] extractedData.

(** [processedWeekData.sort((a, b) => a.dayNumber - b.dayNumber)]: the
    sort of an array is stable. *)
Fixpoint insertByDayNumber (d : ProcessedDay) (l : list ProcessedDay) : list ProcessedDay :=
  match l with
  | [] => [d]
  | x :: l' =>
      if pDayNumber x - pDayNumber d <? 0 then x :: insertByDayNumber d l'
      else d :: l
  end.

Definition sortByDayNumber (l : list ProcessedDay) : list ProcessedDay :=
  foldr insertByDayNumber [] l.

(** The loop that fills [dayOfWeekMap]. *)
Definition buildDayOfWeekMap (processedWeekData : list ProcessedDay) : gmap Z Pattern :=
  fold_left
    (fun dayOfWeekMap day =>
       if 0 <=? pDayOfWeek day then
         <[pDayOfWeek day := {| patAthan := athan day; patIqama := iqama day |}]> dayOfWeekMap
       else dayOfWeekMap)
    processedWeekData ∅.

(** ** extractPrayerTimes: the month tables *)

(** [{ day: day, ...fields }]. *)
Definition dayRow (day : Z) (fields : obj string) : row :=
  fold_left (fun o p => setProp o (fst p) (VStr (snd p))) fields [("day", VNum day)].

(** [new Date(year, month + 1, 0).getDate()]. *)
Definition daysIn {zone : TimeZone} (year month : Z) : Z :=
  getDate (newDate year (month + 1) 0).

(** The days [1..daysInMonth] of a [for] loop. *)
Definition days (daysInMonth : Z) : list Z := seqZ 1 daysInMonth.

Definition monthState : Type := list row * list row.

(** The body of the loop over the days of the current month; the state
    is [(athanMonth, iqamaMonth)]. *)
Definition currentMonthDay {zone : TimeZone} (processedWeekData : list ProcessedDay)
    (dayOfWeekMap : gmap Z Pattern) (currentYear currentMonth : Z)
    (months : monthState) (day : Z) : M monthState :=
  let '(athanMonth, iqamaMonth) := months in
  match List.find (fun d => pDayNumber d =? day) processedWeekData with
  | Some dayData =>
      do _ <- log info (UsingActual day);
      ret ((athanMonth ++ [dayRow day (athan dayData)])%list,
           (iqamaMonth ++ [dayRow day (iqama dayData)])%list)
  | None =>
      let date := newDate currentYear currentMonth day in
      let dayOfWeek := getDay date in
      match dayOfWeekMap !! dayOfWeek with
      | Some pattern =>
          do _ <- log info (UsingPattern dayOfWeek day);
          ret ((athanMonth ++ [dayRow day (patAthan pattern)])%list,
               (iqamaMonth ++ [dayRow day (patIqama pattern)])%list)
      | None =>
          do _ <- log warn (NoPattern day);
          do firstAthan <- first athan "athan" processedWeekData;
          do firstIqama <- first iqama "iqama" processedWeekData;
          ret ((athanMonth ++ [dayRow day firstAthan])%list,
               (iqamaMonth ++ [dayRow day firstIqama])%list)
      end
  end.

Definition expandCurrentMonth {zone : TimeZone} (processedWeekData : list ProcessedDay)
    (dayOfWeekMap : gmap Z Pattern) (currentYear currentMonth : Z) : M monthState :=
  forEach (currentMonthDay processedWeekData dayOfWeekMap currentYear currentMonth)
    ([], []) (days (daysIn currentYear currentMonth)).

(** The body of the loop over the days of the next month. *)
Definition nextMonthDay {zone : TimeZone} (processedWeekData : list ProcessedDay)
    (dayOfWeekMap : gmap Z Pattern) (nextYear nextMonth : Z)
    (months : monthState) (day : Z) : M monthState :=
  let '(athanNextMonth, iqamaNextMonth) := months in
  let date := newDate nextYear nextMonth day in
  let dayOfWeek := getDay date in
  match dayOfWeekMap !! dayOfWeek with
  | Some pattern =>
      ret ((athanNextMonth ++ [dayRow day (patAthan pattern)])%list,
           (iqamaNextMonth ++ [dayRow day (patIqama pattern)])%list)
  | None =>
      do firstAthan <- first athan "athan" processedWeekData;
      do firstIqama <- first iqama "iqama" processedWeekData;
      ret ((athanNextMonth ++ [dayRow day firstAthan])%list,
           (iqamaNextMonth ++ [dayRow day firstIqama])%list)
  end.

Definition expandNextMonth {zone : TimeZone} (processedWeekData : list ProcessedDay)
    (dayOfWeekMap : gmap Z Pattern) (nextYear nextMonth : Z) : M monthState :=
  forEach (nextMonthDay processedWeekData dayOfWeekMap nextYear nextMonth)
    ([], []) (days (daysIn nextYear nextMonth)).

(** [generateMonthCSVs]; the month stands for its name in the file
    names and messages. *)
Definition generateMonthCSVs (targetMonth targetYear : Z) (monthData : monthState)
    (monthName : Z) : M unit :=
  do _ <- emit (WriteCsv athan_times monthName (fst monthData));
  do _ <- log info (SavedAthan monthName);
  do _ <- emit (WriteCsv iqama_times monthName (snd monthData));
  log info (SavedIqama monthName).

(** The [try] block of [extractPrayerTimes], from the result of
    [page.evaluate] on; the calls of the browser before it are [scrape]. *)
Definition extractBody {zone : TimeZone} (today : Date)
    (extractedData : list ExtractedDay) : M monthState :=
  do _ <- log info (ExtractedDays (length extractedData));
  do _ <- emit (WriteRawData extractedData);
  do _ <- (if (length extractedData =? 0)%nat
           then throw (Error "No prayer data found on the page") else ret tt);
  do _ <- log info ProcessingWeek;
  do processedWeekData <- processWeek extractedData;
  do _ <- log info (ProcessedDays (length processedWeekData));
  do sample <- first athan "athan" processedWeekData;
  do _ <- log info (SampleAthan sample);
  let processedWeekData := sortByDayNumber processedWeekData in
  let currentMonth := getMonth today in
  let currentYear := getFullYear today in
  let daysInMonth := daysIn currentYear currentMonth in
  do _ <- log info (CreatingMonth daysInMonth);
  let dayOfWeekMap := buildDayOfWeekMap processedWeekData in
  do '(athanMonth, iqamaMonth) <-
    expandCurrentMonth processedWeekData dayOfWeekMap currentYear currentMonth;
  let monthName := currentMonth in
  do _ <- log info (GeneratingCurrent monthName);
  do _ <- generateMonthCSVs currentMonth currentYear (athanMonth, iqamaMonth) monthName;
  let nextMonthDate := newDate currentYear (currentMonth + 1) 1 in
  let nextMonth := getMonth nextMonthDate in
  let nextYear := getFullYear nextMonthDate in
  let nextMonthName := nextMonth in
  do _ <- log info (GeneratingNext nextMonthName);
  do '(athanNextMonth, iqamaNextMonth) <-
    expandNextMonth processedWeekData dayOfWeekMap nextYear nextMonth;
  do _ <- generateMonthCSVs nextMonth nextYear (athanNextMonth, iqamaNextMonth) nextMonthName;
  do _ <- log info Completed;
  ret (athanMonth, iqamaMonth).

(** [extractPrayerTimes] on the rows that [page.evaluate] returned, in a
    browser that was launched:
    [try] ... [catch (error) { logError(...); throw error }]
    [finally { browser.close(); log('Browser closed') }].
    The whole function, with the calls of the browser, is [run]. *)
Definition extractPrayerTimes {zone : TimeZone} (today : Date)
    (extractedData : list ExtractedDay) : M monthState :=
  let '(t, r) := extractBody today extractedData in
  match r with
  | inl e =>
      ((t ++ [Log error (ErrorDuringExtraction e); Log error (StackTrace e);
              CloseBrowser; Log info BrowserClosed])%list, inl e)
  | inr v => ((t ++ [CloseBrowser; Log info BrowserClosed])%list, inr v)
  end.

(** The script from the result of [page.evaluate] on:
    [extractPrayerTimes().then(...).catch(...)].  The whole script is
    [main]. *)
Definition script {zone : TimeZone} (today : Date)
    (extractedData : list ExtractedDay) : list event :=
  let '(t, r) := extractPrayerTimes today extractedData in
  match r with
  | inr _ => (t ++ [Log info ScriptCompleted; Exit 0])%list
  | inl e => (t ++ [Log error (ScriptFailed e); Exit 1])%list
  end.

(** ** Vocabulary of the statements *)

(** The time string that is parsed: the first of several listed times. *)
Definition firstListed (timeStr : string) : string :=
  if includes "," timeStr then
    match split "," timeStr with
    | piece :: _ => trim piece
    | [] => timeStr
    end
  else timeStr.

Definition parsedHours (timeStr : string) : number :=
  parseInt (toStringOrUndefined (split ":" (firstListed timeStr) !! 0%nat)).

Definition parsedMinutes (timeStr : string) : number :=
  parseInt (toStringOrUndefined (split ":" (firstListed timeStr) !! 1%nat)).

(** ["HH:MM"] from two numbers, as the last line of [convertTo24Hour]
    formats them. *)
Definition clock (hours minutes : number) : string :=
  padStart 2 "0" (toString hours) ++ ":" ++ padStart 2 "0" (toString minutes).

Fixpoint whitespaceOnly (s : string) : bool :=
  match s with
  | EmptyString => true
  | String c s' => isWhiteSpace c && whitespaceOnly s'
  end.

Definition isDigit (c : ascii) : bool :=
  let n := N_of_ascii c in (48 <=? n)%N && (n <=? 57)%N.

Fixpoint allDigits (s : string) : bool :=
  match s with
  | EmptyString => true
  | String c s' => isDigit c && allDigits s'
  end.

(** A non-empty string of decimal digits. *)
Definition numeral (s : string) : bool :=
  match s with
  | EmptyString => false
  | String _ _ => allDigits s
  end.

Fixpoint decimalValue (acc : Z) (s : string) : Z :=
  match s with
  | EmptyString => acc
  | String c s' => decimalValue (10 * acc + (Z.of_N (N_of_ascii c) - 48)) s'
  end.

Definition contains (needle s : string) : Prop :=
  exists pre post, s = pre ++ needle ++ post.

(** Two digits, a colon, two digits. *)
Definition isHHMM (s : string) : bool :=
  match s with
  | String a (String b (String c (String d (String e EmptyString)))) =>
      isDigit a && isDigit b && Ascii.eqb c ":" && isDigit d && isDigit e
  | _ => false
  end.

Definition throws {A} (m : M A) : Prop := exists e, result m = inl e.
Definition returns {A} (m : M A) : Prop := exists v, result m = inr v.

Definition isWriteCsv (ev : event) : bool :=
  match ev with
  | WriteCsv _ _ _ => true
  | _ => false
  end.

(** The CSV files written during a run, in order. *)
Definition csvWrites (t : list event) : list event := List.filter isWriteCsv t.

(** The record that [processDay] makes from one row. *)
Definition recordOf (day : ExtractedDay) (r : ProcessedDay) : Prop :=
  result (processDay [] day) = inr [r].

Definition patternOf (r : ProcessedDay) : Pattern :=
  {| patAthan := athan r; patIqama := iqama r |}.

(** The log entry for a skipped row. *)
Definition skipped (day : ExtractedDay) : event :=
  Log warn (SkippingInvalidDay (date day)).

(** The columns of the two tables. *)
Definition athanColumns : list string :=
  ["day"; "Fajr"; "Sunrise"; "Dhuhr"; "Asr"; "Maghrib"; "Isha"].

Definition iqamaColumns : list string :=
  ["day"; "Fajr"; "Dhuhr"; "Asr"; "Maghrib"; "Isha"].

(** A CSV write whose records all have the columns of its table. *)
Definition wellKeyed (ev : event) : Prop :=
  match ev with
  | WriteCsv athan_times _ records => Forall (fun r => keys r = athanColumns) records
  | WriteCsv iqama_times _ records => Forall (fun r => keys r = iqamaColumns) records
  | _ => True
  end.

(** The month table as the specification words it.  The source of the
    row of day [d]: (a) the record with that day number if one exists,
    else (b) the pattern of the weekday of the date if present, else (c)
    the first record. *)
Definition specSource {zone : TimeZone} (firstRecord : ProcessedDay) (records : list ProcessedDay)
    (dayOfWeekMap : gmap Z Pattern) (year month d : Z) : Pattern :=
  match List.find (fun r => pDayNumber r =? d) records with
  | Some r => patternOf r
  | None =>
      match dayOfWeekMap !! getDay (newDate year month d) with
      | Some pattern => pattern
      | None => patternOf firstRecord
      end
  end.

(** The source of a row of the next month's table, as the second loop
    takes it: (b) the pattern of the weekday if present, else (c) the
    first record. *)
Definition patternSource {zone : TimeZone} (firstRecord : ProcessedDay)
    (dayOfWeekMap : gmap Z Pattern) (year month d : Z) : Pattern :=
  match dayOfWeekMap !! getDay (newDate year month d) with
  | Some pattern => pattern
  | None => patternOf firstRecord
  end.

(** The two tables of a month whose rows come from [source]. *)
Definition tablesFrom {zone : TimeZone} (source : Z -> Pattern) (year month : Z) : monthState :=
  ((fun d => dayRow d (patAthan (source d))) <$> days (daysIn year month),
   (fun d => dayRow d (patIqama (source d))) <$> days (daysIn year month)).

(** The length of a month of the calendar, month in 0..11. *)
Definition monthLength (year month : Z) : Z :=
  let leap := ((year mod 4 =? 0) && negb (year mod 100 =? 0)) || (year mod 400 =? 0) in
  if month =? 1 then (if leap then 29 else 28)
  else if (month =? 3) || (month =? 5) || (month =? 8) || (month =? 10) then 30
  else 31.

(** The keys of the rows of a processed day. *)
Definition rowKeys (rows : obj string * obj string) : Prop :=
  keys (fst rows) = keys athanRow0 /\ keys (snd rows) = keys iqamaRow0.

Definition recordKeys (r : ProcessedDay) : Prop :=
  keys (athan r) = keys athanRow0 /\ keys (iqama r) = keys iqamaRow0.

Definition isLog (ev : event) : Prop :=
  match ev with
  | Log _ _ => True
  | _ => False
  end.

(** The order of the sorted week. *)
Definition byDayNumber (a b : ProcessedDay) : Prop := pDayNumber a <= pDayNumber b.

(** The keys of a pattern of the day-of-week map. *)
Definition patternKeys (pattern : Pattern) : Prop :=
  keys (patAthan pattern) = keys athanRow0 /\ keys (patIqama pattern) = keys iqamaRow0.

(** What the script logs and how it exits when the run threw [e]. *)
Definition failure (e : exn) : list event :=
  [Log error (ErrorDuringExtraction e); Log error (StackTrace e);
   CloseBrowser; Log info BrowserClosed; Log error (ScriptFailed e); Exit 1].

(** [new Date(year, month, day)] falls on the calendar day that its
    arguments name: the zone does not skip the midnight of that day into
    another day. *)
Definition onCalendarDay {zone : TimeZone} (year month day : Z) : Prop :=
  localDay (newDate year month day) = calendarDay year month day.

(** The tables of a run at [today] on the sorted week [r0 :: rest]. *)
Definition nextMonthDate {zone : TimeZone} (today : Date) : Date :=
  newDate (getFullYear today) (getMonth today + 1) 1.

Definition currentTables {zone : TimeZone} (today : Date)
    (r0 : ProcessedDay) (rest : list ProcessedDay) : monthState :=
  tablesFrom
    (specSource r0 (r0 :: rest) (buildDayOfWeekMap (r0 :: rest))
       (getFullYear today) (getMonth today))
    (getFullYear today) (getMonth today).

Definition nextTables {zone : TimeZone} (today : Date)
    (r0 : ProcessedDay) (rest : list ProcessedDay) : monthState :=
  tablesFrom
    (patternSource r0 (buildDayOfWeekMap (r0 :: rest))
       (getFullYear (nextMonthDate today)) (getMonth (nextMonthDate today)))
    (getFullYear (nextMonthDate today)) (getMonth (nextMonthDate today)).

(** ** Sample data *)

Definition sunday1 : ProcessedDay :=
  {| pDayNumber := 1; pDayOfWeek := 0; pIsToday := false;
     athan := setProp athanRow0 "Fajr" "05:00";
     iqama := setProp iqamaRow0 "Fajr" "05:20" |}.

Definition tuesday3 : ProcessedDay :=
  {| pDayNumber := 3; pDayOfWeek := 2; pIsToday := true;
     athan := setProp athanRow0 "Fajr" "05:02";
     iqama := setProp iqamaRow0 "Fajr" "05:22" |}.

Definition sampleRecords : list ProcessedDay := [sunday1; tuesday3].

(** A scraped week of two rows and a row that did not parse. *)
Definition sampleWeek : list ExtractedDay :=
  [{| date := "November 2026 3 Tue"; dayNumber := 3; dayOfWeek := 2; isToday := true;
      prayers := [("Fajr", {| start := "5:02"; iqamah := "5:22" |});
                  ("Magrib", {| start := "5:10"; iqamah := "5:15" |})] |};
   {| date := "November 2026 "; dayNumber := 0; dayOfWeek := -1; isToday := false;
      prayers := [] |};
   {| date := "November 2026 1 Sun"; dayNumber := 1; dayOfWeek := 0; isToday := false;
      prayers := [("Fajr", {| start := "5:00"; iqamah := "5:20" |});
                  ("Jumuah", {| start := "1:00,2:30"; iqamah := "" |})] |}].

(** Every month of the years 1970 to 2199. *)
Definition allMonths : list (Z * Z) :=
  flat_map (fun y => List.map (fun m => (y, m)) (seqZ 0 12)) (seqZ 1970 230).

(** Two days of November 2026 and one of December 2026, at midnight UTC. *)
Definition november2 : Date := {| timeValue := 20759 * msPerDay |}.
Definition november13 : Date := {| timeValue := 20770 * msPerDay |}.
Definition december1 : Date := {| timeValue := 20788 * msPerDay |}.

(** A Friday and a Saturday of December 2011, as records and as scraped
    rows, and noon UTC of 4 December 2011. *)
Definition friday2 : ProcessedDay :=
  {| pDayNumber := 2; pDayOfWeek := 5; pIsToday := false;
     athan := setProp athanRow0 "Fajr" "06:00";
     iqama := setProp iqamaRow0 "Fajr" "06:15" |}.

Definition saturday3 : ProcessedDay :=
  {| pDayNumber := 3; pDayOfWeek := 6; pIsToday := false;
     athan := setProp athanRow0 "Fajr" "06:01";
     iqama := setProp iqamaRow0 "Fajr" "06:16" |}.

Definition weekend : list ProcessedDay := [friday2; saturday3].

Definition weekendRows : list ExtractedDay :=
  [{| date := "December 2011 2 Fri"; dayNumber := 2; dayOfWeek := 5; isToday := false;
      prayers := [("Fajr", {| start := "6:00"; iqamah := "6:15" |})] |};
   {| date := "December 2011 3 Sat"; dayNumber := 3; dayOfWeek := 6; isToday := false;
      prayers := [("Fajr", {| start := "6:01"; iqamah := "6:16" |})] |}].

Definition december2011 : Date := {| timeValue := 15312 * msPerDay + 12 * 3600000 |}.

(** The sample of the end-to-end scenario of the specification. *)
Definition scenario : list ExtractedDay :=
  [{| date := "1 Mon"; dayNumber := 1; dayOfWeek := 1; isToday := false;
      prayers := [("Fajr", {| start := "5:30"; iqamah := "5:45" |});
                  ("Dhuhr", {| start := "1:15"; iqamah := "1:30" |})] |}].

(** ** page.evaluate: the rows of the page

    The callback of [rows.map] reads the text of some elements of a
    [.row]; the model takes these texts as the row, [None] for an element
    that [querySelector] does not find. *)

(** A [.time-cell]: the texts of [.time-name], [.time-start] and
    [.time-iqamah]. *)
Record TimeCell : Type := {
  timeName : option string;
  timeStart : option string;
  timeIqamah : option string
}.

(** A [.row]: the texts of [.monthyear], [.dateday] and [.row-mark], and
    the time cells. *)
Record PageRow : Type := {
  monthyearText : option string;
  datedayText : option string;
  rowMarkText : option string;
  timeCells : list TimeCell
}.

(** [element?.textContent.trim() || '']. *)
Definition textOrEmpty (element : option string) : string :=
  match element with
  | Some text => trim text
  | None => ""
  end.

(** The class [\w] of a regular expression. *)
Definition isWordChar (c : ascii) : bool :=
  let n := N_of_ascii c in
  ((48 <=? n)%N && (n <=? 57)%N) || ((65 <=? n)%N && (n <=? 90)%N) ||
  ((97 <=? n)%N && (n <=? 122)%N) || (n =? 95)%N.

(** The longest prefix of characters of a class, and the rest. *)
Fixpoint span (class : ascii -> bool) (s : string) : string * string :=
  match s with
  | EmptyString => (EmptyString, EmptyString)
  | String c s' =>
      if class c then let '(prefix, rest) := span class s' in (String c prefix, rest)
      else (EmptyString, s)
  end.

(** A match of [/(\d+)\s+(\w+)/] that starts at the first character: its
    two groups.  Each of the three classes excludes the first character of
    what follows its longest run (a digit is no white space, white space
    is no word character), so giving characters back never turns a failure
    into a match and the greedy runs are the match. *)
Definition dateMatchAt (s : string) : option (string * string) :=
  let '(digits, rest) := span isDigit s in
  if String.eqb digits "" then None
  else
    let '(spaces, rest) := span isWhiteSpace rest in
    if String.eqb spaces "" then None
    else
      let '(word, _) := span isWordChar rest in
      if String.eqb word "" then None else Some (digits, word).

(** [dateday.match(/(\d+)\s+(\w+)/)]: the leftmost match. *)
Fixpoint dateMatch (dateday : string) : option (string * string) :=
  match dateday with
  | EmptyString => None
  | String _ rest =>
      match dateMatchAt dateday with
      | Some groups => Some groups
      | None => dateMatch rest
      end
  end.

(** The [if] chain from the day name to the day of the week. *)
Definition dayOfWeekOf (dayName : string) : Z :=
  if String.eqb dayName "Sun" then 0
  else if String.eqb dayName "Mon" then 1
  else if String.eqb dayName "Tue" then 2
  else if String.eqb dayName "Wed" then 3
  else if String.eqb dayName "Thu" then 4
  else if String.eqb dayName "Fri" then 5
  else if String.eqb dayName "Sat" then 6
  else -1.

(** The integer of a number as it arrives from the page.  The numbers
    it is applied to are results of [parseInt] on a match of [\d+], which
    are never NaN; an infinity does not survive the transfer of the result
    of [page.evaluate], it arrives as [null], which compares and subtracts
    as 0. *)
Definition integerOf (n : number) : Z :=
  match n with
  | Num z => z
  | _ => 0
  end.

(** A property key that is an array index: the canonical decimal of an
    integer below 2^32 - 1. *)
Definition isArrayIndex (k : string) : bool :=
  match k with
  | EmptyString => false
  | String c _ =>
      allDigits k && (String.eqb k "0" || negb (Ascii.eqb c "0")) &&
      (decimalValue 0 k <? 4294967295)
  end.

Fixpoint insertIndex {V} (p : string * V) (l : obj V) : obj V :=
  match l with
  | [] => [p]
  | q :: l' =>
      if decimalValue 0 (fst q) <? decimalValue 0 (fst p) then q :: insertIndex p l'
      else p :: l
  end.

(** The order in which the own properties of an object are listed:
    array indices in ascending order, then the other keys in the order of
    their creation. *)
Definition ownEntries {V} (o : obj V) : obj V :=
  (foldr insertIndex [] (List.filter (fun p => isArrayIndex (fst p)) o) ++
   List.filter (fun p => negb (isArrayIndex (fst p))) o)%list.

(** The callback of [timeCells.forEach]; the state is [prayers], the own
    properties of the object.  An assignment of an object to the key
    [__proto__] goes to the setter that [prayers] inherits: it replaces
    the prototype and adds no property. *)
Definition addTimeCell (prayers : obj Times) (cell : TimeCell) : obj Times :=
  let name := textOrEmpty (timeName cell) in
  let startTime := textOrEmpty (timeStart cell) in
  let iqamahTime := textOrEmpty (timeIqamah cell) in
  if negb (String.eqb name "") then
    if String.eqb name "__proto__" then prayers
    else setProp prayers name {| start := startTime; iqamah := iqamahTime |}
  else prayers.

(** The callback of [rows.map]. *)
Definition extractRow (row : PageRow) : ExtractedDay :=
  let monthyear := textOrEmpty (monthyearText row) in
  let dateday := textOrEmpty (datedayText row) in
  let isToday :=
    match rowMarkText row with
    | Some text => String.eqb (trim text) "Today"
    | None => false
    end in
  let dateMatch := dateMatch dateday in
  let dayNumber :=
    match dateMatch with
    | Some groups => integerOf (parseInt (fst groups))
    | None => 0
    end in
  let dayName :=
    match dateMatch with
    | Some groups => snd groups
    | None => ""
    end in
  let dayOfWeek := dayOfWeekOf dayName in
  let prayers := fold_left addTimeCell (timeCells row) [] in
  {| date := monthyear ++ " " ++ dateday;
     dayNumber := dayNumber;
     dayOfWeek := dayOfWeek;
     isToday := isToday;
     prayers := ownEntries prayers |}.

(** [extractedData]: the rows of the page, in order. *)
Definition pageEvaluate (rows : list PageRow) : list ExtractedDay :=
  List.map extractRow rows.

(** ** The browser and the whole script

    What Puppeteer does in a run is an input: for each awaited call, the
    error with which it rejects, or [None] when it resolves, and for
    [page.evaluate] the rows of the page. *)
Record Browser : Type := {
  launch : option exn;
  newPage : option exn;
  goto : option exn;
  waitForSelector : option exn;
  screenshot : option exn;
  evaluate : exn + list PageRow;
  close : option exn
}.

(** [await] of a call whose value is not used. *)
Definition await (outcome : option exn) : M unit :=
  match outcome with
  | Some e => throw e
  | None => ret tt
  end.

(** The [try] block of [extractPrayerTimes] up to the result of
    [page.evaluate]. *)
Definition scrape (browser : Browser) : M (list ExtractedDay) :=
  do _ <- await (launch browser);
  do _ <- emit LaunchBrowser;
  do _ <- await (newPage browser);
  do _ <- log info Navigating;
  do _ <- await (goto browser);
  do _ <- await (waitForSelector browser);
  do _ <- log info TimetableFound;
  do _ <- await (screenshot browser);
  do _ <- emit WriteScreenshot;
  match evaluate browser with
  | inl e => throw e
  | inr rows => ret (pageEvaluate rows)
  end.

(** The [finally] block: the variable [browser] is set when the launch
    resolved, and only then is the browser closed. *)
Definition finallyClose (browser : Browser) : M unit :=
  match launch browser with
  | None =>
      do _ <- await (close browser);
      do _ <- emit CloseBrowser;
      log info BrowserClosed
  | Some _ => ret tt
  end.

(** The whole of [extractPrayerTimes]: an error of the [try] block is
    logged and thrown again, and an error of [finally] replaces the
    outcome of the [try] block. *)
Definition run {zone : TimeZone} (today : Date) (browser : Browser) : M monthState :=
  let '(t, r) := (do extractedData <- scrape browser; extractBody today extractedData) in
  let caught :=
    match r with
    | inl e => [Log error (ErrorDuringExtraction e); Log error (StackTrace e)]
    | inr _ => []
    end in
  let '(closing, closed) := finallyClose browser in
  ((Log info StartingExtraction :: t ++ caught ++ closing)%list,
   match closed with
   | inl e => inl e
   | inr _ => r
   end).

(** The script file, from its first statement to the exit of the
    process; whether the output directory exists is an input. *)
Definition main {zone : TimeZone} (today : Date) (outputDirExists : bool)
    (browser : Browser) : list event :=
  let start :=
    ((if outputDirExists then [] else [MakeOutputDir]) ++
     [ClearLog; Log info StartedDebug])%list in
  let '(t, r) := run today browser in
  match r with
  | inr _ => (start ++ t ++ [Log info ScriptCompleted; Exit 0])%list
  | inl e => (start ++ t ++ [Log error (ScriptFailed e); Exit 1])%list
  end.

(** ** Further vocabulary *)

(** The name under which a prayer entry is stored. *)
Definition correctedName (name : string) : string :=
  if String.eqb name "Magrib" then "Maghrib" else name.

(** The prayer names that [convertTo24Hour] tests for. *)
Definition testedNames : list string :=
  ["Fajr"; "Sunrise"; "Dhuhr"; "Asr"; "Magrib"; "Isha"].

(** Every weekday has a pattern. *)
Definition coversWeek (dayOfWeekMap : gmap Z Pattern) : Prop :=
  forall k, 0 <= k <= 6 -> is_Some (dayOfWeekMap !! k).

Definition isNoPattern (ev : event) : bool :=
  match ev with
  | Log _ (NoPattern _) => true
  | _ => false
  end.

(** The events of the body of the run: log entries, the launch of the
    browser and the files of the run. *)
Definition isBodyEvent (ev : event) : bool :=
  match ev with
  | Log _ _ | LaunchBrowser | WriteScreenshot | WriteRawData _ | WriteCsv _ _ _ => true
  | MakeOutputDir | ClearLog | CloseBrowser | Exit _ => false
  end.

(** The events with which the script starts, and those with which
    [finally] closes the browser. *)
Definition starting (outputDirExists : bool) : list event :=
  ((if outputDirExists then [] else [MakeOutputDir]) ++
   [ClearLog; Log info StartedDebug; Log info StartingExtraction])%list.

Definition closing (browser : Browser) : list event := trace (finallyClose browser).

(** The files with the data of a run. *)
Definition isDataWrite (ev : event) : bool :=
  match ev with
  | WriteRawData _ | WriteCsv _ _ _ => true
  | _ => false
  end.

(** A browser in which every call resolves. *)
Definition resolving (rows : list PageRow) : Browser :=
  {| launch := None; newPage := None; goto := None; waitForSelector := None;
     screenshot := None; evaluate := inr rows; close := None |}.

(** A browser in which the navigation times out. *)
Definition timingOut : Browser :=
  {| launch := None; newPage := None;
     goto := Some (Error "Navigation timeout of 60000 ms exceeded");
     waitForSelector := None; screenshot := None; evaluate := inr []; close := None |}.

(** The hours and minutes 0..99. *)
Definition twoDigitNumbers : list Z := seqZ 0 100.

(** Two decimal digits. *)
Definition isTwoDigits (s : string) : bool :=
  match s with
  | String a (String b EmptyString) => isDigit a && isDigit b
  | _ => false
  end.

(** A week with a row for each weekday, 1 to 7 November 2026. *)
Definition weekOf (n : Z) : ProcessedDay :=
  {| pDayNumber := n + 1; pDayOfWeek := n; pIsToday := false;
     athan := athanRow0; iqama := iqamaRow0 |}.

Definition fullWeek : list ProcessedDay := weekOf <$> seqZ 0 7.

(** A row of the page. *)
Definition samplePageRow : PageRow :=
  {| monthyearText := Some " November 2026 ";
     datedayText := Some " 13  Fri ";
     rowMarkText := Some "Today";
     timeCells :=
       [{| timeName := Some "Fajr"; timeStart := Some " 5:40 "; timeIqamah := Some "6:00" |};
        {| timeName := Some " "; timeStart := Some "1:00"; timeIqamah := None |};
        {| timeName := Some "Fajr"; timeStart := Some "5:41"; timeIqamah := Some "6:01" |}] |}.

(** A non-empty string of characters of a class. *)
Fixpoint allOf (class : ascii -> bool) (s : string) : bool :=
  match s with
  | EmptyString => true
  | String c s' => class c && allOf class s'
  end.

Definition someOf (class : ascii -> bool) (s : string) : bool :=
  match s with
  | EmptyString => false
  | String _ _ => allOf class s
  end.

(** The first character, if any, is of the class. *)
Definition startsWith (class : ascii -> bool) (s : string) : bool :=
  match s with
  | EmptyString => false
  | String c _ => class c
  end.

(** The times that a cell gives to its name. *)
Definition timesOf (cell : TimeCell) : Times :=
  {| start := textOrEmpty (timeStart cell); iqamah := textOrEmpty (timeIqamah cell) |}.

(** A scraped row without its date label and its [isToday] flag, and a
    record without its [isToday] flag. *)
Definition timesOnly (day : ExtractedDay) : ExtractedDay :=
  {| date := ""; dayNumber := dayNumber day; dayOfWeek := dayOfWeek day;
     isToday := false; prayers := prayers day |}.

Definition withoutToday (r : ProcessedDay) : ProcessedDay :=
  {| pDayNumber := pDayNumber r; pDayOfWeek := pDayOfWeek r; pIsToday := false;
     athan := athan r; iqama := iqama r |}.

(** * Properties *)

(** ** The monad *)

Section MonadFacts.
Context {A B : Type}.

Lemma result_bind (m : M A) (f : A -> M B) :
  result (bind m f) =
  match result m with
  | inl e => inl e
  | inr a => result (f a)
  end.
Proof.
  destruct m as [t [e | a]]; simpl; [reflexivity |].
  destruct (f a); reflexivity.
Qed.

Lemma trace_bind (m : M A) (f : A -> M B) :
  trace (bind m f) =
  (trace m ++ match result m with
              | inl _ => []
              | inr a => trace (f a)
              end)%list.
Proof.
  destruct m as [t [e | a]]; simpl.
  - now rewrite app_nil_r.
  - destruct (f a); reflexivity.
Qed.

Lemma bind_ret_l (a : A) (f : A -> M B) : bind (ret a) f = f a.
Proof. unfold bind, ret. destruct (f a); reflexivity. Qed.

End MonadFacts.

(** ** Strings *)

Section StringFacts.

Lemma whitespaceOnly_trimStart s : whitespaceOnly s = true -> trimStart s = "".
Proof.
  induction s as [| c s IH]; simpl; [reflexivity |].
  intros [Hc Hs]%andb_prop. rewrite Hc. auto.
Qed.

Lemma whitespaceOnly_trim s : whitespaceOnly s = true -> trim s = "".
Proof. intros H. unfold trim. now rewrite whitespaceOnly_trimStart. Qed.

Lemma trimStart_cases s :
  trimStart s = "" \/
  exists c r, trimStart s = String c r /\ isWhiteSpace c = false.
Proof.
  induction s as [| c s IH]; simpl; [now left |].
  destruct (isWhiteSpace c) eqn:Hc; [exact IH |].
  right. now exists c, s.
Qed.

Lemma trimEnd_cons c s :
  isWhiteSpace c = false -> exists r, trimEnd (String c s) = String c r.
Proof.
  intros Hc. simpl. rewrite Hc.
  destruct (trimEnd s); eauto.
Qed.

Lemma trim_cases s :
  trim s = "" \/ exists c r, trim s = String c r /\ isWhiteSpace c = false.
Proof.
  unfold trim. destruct (trimStart_cases s) as [-> | (c & r & -> & Hc)].
  - now left.
  - right. destruct (trimEnd_cons c r Hc) as [r' ->]. now exists c, r'.
Qed.

(** Trimming a trimmed string that is not empty leaves it not empty. *)
Lemma trim_trim_nonempty s : trim s <> "" -> trim (trim s) <> "".
Proof.
  intros Hs. destruct (trim_cases s) as [E | (c & r & E & Hc)]; [contradiction |].
  rewrite E. unfold trim. simpl trimStart. rewrite Hc.
  destruct (trimEnd_cons c r Hc) as [r' ->]. discriminate.
Qed.

Lemma includes_trimStart c s :
  isWhiteSpace c = false -> includes c (trimStart s) = includes c s.
Proof.
  intros Hc. induction s as [| x s IH]; simpl; [reflexivity |].
  destruct (isWhiteSpace x) eqn:Hx; [| reflexivity].
  rewrite IH. destruct (Ascii.eqb_spec x c) as [-> |]; [congruence | reflexivity].
Qed.

Lemma includes_trimEnd c s :
  isWhiteSpace c = false -> includes c (trimEnd s) = includes c s.
Proof.
  intros Hc. induction s as [| x s IH]; simpl; [reflexivity |].
  destruct (trimEnd s) as [| y r] eqn:E.
  - simpl in IH. rewrite <- IH.
    destruct (isWhiteSpace x) eqn:Hx; simpl.
    + destruct (Ascii.eqb_spec x c) as [-> |]; [congruence | reflexivity].
    + reflexivity.
  - simpl. simpl in IH. now rewrite IH.
Qed.

Lemma includes_trim c s :
  isWhiteSpace c = false -> includes c (trim s) = includes c s.
Proof.
  intros Hc. unfold trim. now rewrite includes_trimEnd, includes_trimStart.
Qed.

Lemma includes_nonempty c s : includes c s = true -> s <> "".
Proof. destruct s; simpl; [discriminate | intros _; discriminate]. Qed.

Lemma includes_app c a b : includes c (a ++ b) = includes c a || includes c b.
Proof.
  induction a as [| x a IH]; simpl; [reflexivity |].
  destruct (Ascii.eqb x c); [reflexivity | exact IH].
Qed.

Lemma split_nonempty sep s : split sep s <> [].
Proof.
  destruct s as [| c s]; simpl; [discriminate |].
  destruct (Ascii.eqb c sep); [discriminate |].
  destruct (split sep s); discriminate.
Qed.

(** Up to the first separator. *)
Lemma split_app sep a b :
  includes sep a = false -> split sep (a ++ String sep b) = a :: split sep b.
Proof.
  induction a as [| x a IH]; simpl.
  - intros _. now rewrite Ascii.eqb_refl.
  - destruct (Ascii.eqb x sep); [discriminate |].
    intros H. now rewrite (IH H).
Qed.

Lemma split_none sep a : includes sep a = false -> split sep a = [a].
Proof.
  induction a as [| x a IH]; simpl; [reflexivity |].
  destruct (Ascii.eqb x sep); [discriminate |].
  intros H. now rewrite (IH H).
Qed.

Lemma eqb_empty_false s : s <> "" -> String.eqb s "" = false.
Proof. intros H. now apply String.eqb_neq. Qed.

Lemma append_String c a b : String c a ++ b = String c (a ++ b).
Proof. reflexivity. Qed.

Lemma append_append (a b c : string) : (a ++ b) ++ c = a ++ b ++ c.
Proof.
  induction a as [| x a IH]; [reflexivity |].
  now rewrite !append_String, IH.
Qed.

Lemma length_append_string (a b : string) :
  String.length (a ++ b) = (String.length a + String.length b)%nat.
Proof.
  induction a as [| x a IH]; [reflexivity |].
  rewrite append_String. cbn [String.length]. now rewrite IH.
Qed.

Lemma contains_nonempty needle s :
  needle <> "" -> contains needle s -> s <> "".
Proof.
  intros Hn (pre & post & ->).
  destruct pre as [| c pre]; [| discriminate].
  destruct needle; [contradiction | discriminate].
Qed.

Lemma isHHMM_length s : isHHMM s = true -> String.length s = 5%nat.
Proof.
  destruct s as [| a [| b [| c [| d [| e [| f s]]]]]]; try discriminate.
  reflexivity.
Qed.

Lemma padStart_2_length s : (2 <= String.length (padStart 2 "0" s))%nat.
Proof.
  destruct s as [| a [| b s]].
  - cbv. lia.
  - cbv. lia.
  - unfold padStart. cbn [String.length Nat.leb]. lia.
Qed.

End StringFacts.

(** ** Numerals *)

Section NumeralFacts.

Lemma digit_facts c :
  isDigit c = true ->
  isWhiteSpace c = false /\
  Ascii.eqb c "-" = false /\ Ascii.eqb c "+" = false /\
  Ascii.eqb c "x" = false /\ Ascii.eqb c "X" = false /\
  Ascii.eqb c ":" = false /\ Ascii.eqb c "," = false /\
  digitValue 10 c = Some (Z.of_N (N_of_ascii c) - 48).
Proof.
  destruct c as [[] [] [] [] [] [] [] []]; intros H;
    try discriminate H; vm_compute; repeat split.
Qed.

Lemma parseDigits_allDigits s acc :
  allDigits s = true ->
  parseDigits 10 (Some acc) s = Some (decimalValue acc s).
Proof.
  revert acc. induction s as [| c s IH]; intros acc; simpl; [reflexivity |].
  intros [Hc Hs]%andb_prop.
  destruct (digit_facts c Hc) as (_ & _ & _ & _ & _ & _ & _ & ->).
  now rewrite IH.
Qed.

Lemma numeral_allDigits s : numeral s = true -> allDigits s = true.
Proof. destruct s; [discriminate | trivial]. Qed.

Lemma decimalValue_nonneg s : forall acc,
  0 <= acc -> allDigits s = true -> 0 <= decimalValue acc s.
Proof.
  induction s as [| c s IH]; intros acc Ha Hs; [exact Ha |].
  cbn [allDigits decimalValue] in *. apply andb_prop in Hs as [Hc Hs].
  apply IH; [| exact Hs].
  unfold isDigit in Hc. apply andb_prop in Hc as [Hc _]. apply N.leb_le in Hc. lia.
Qed.

(** An integer up to 2^53 is a double. *)
Lemma toDouble_safe z : Z.abs z <= 2 ^ 53 -> toDouble z = Num z.
Proof.
  intros H. unfold toDouble.
  destruct (Z.leb_spec (Z.abs z) (2 ^ 53)) as [_ | G]; [reflexivity |].
  exfalso. apply (Z.lt_irrefl (2 ^ 53)). now apply (Z.lt_le_trans _ (Z.abs z)).
Qed.

Lemma toDouble_nonneg z : 0 <= z -> 0 <= integerOf (toDouble z).
Proof.
  intros H. unfold toDouble. cbv zeta.
  destruct (Z.abs z <=? 2 ^ 53); [exact H |].
  generalize (Z.log2 (Z.abs z) - 52). intros e.
  rewrite Z.abs_eq by exact H.
  set (q := if (_ || _ : bool) then _ else _).
  assert (Hq : 0 <= q).
  { subst q. pose proof (Z.pow_nonneg 2 e ltac:(lia)) as P.
    pose proof (Z.div_pos z (2 ^ e) H) as D.
    destruct (Z.eq_dec (2 ^ e) 0) as [E0 | N0].
    - rewrite E0, Z.div_0_r. destruct (_ || _); lia.
    - destruct (_ || _); lia. }
  clearbody q.
  destruct (2 ^ 1024 <=? q * 2 ^ e); [cbn [integerOf]; lia |]. cbn [integerOf].
  pose proof (Z.pow_nonneg 2 e ltac:(lia)) as P. revert P. generalize (2 ^ e). intros p P.
  pose proof (Z.sgn_nonneg z) as S. nia.
Qed.

(** [parseInt] reads a numeral as the number of its decimal value. *)
Lemma parseInt_number s :
  numeral s = true -> parseInt s = toDouble (decimalValue 0 s).
Proof.
  destruct s as [| c s]; [discriminate |].
  unfold numeral. intros H. pose proof H as [Hc Hs]%andb_prop.
  destruct (digit_facts c Hc) as (Hw & Hm & Hp & _ & _ & _ & _ & Hv).
  unfold parseInt. cbn [trimStart]. rewrite Hw, Hm, Hp.
  assert (E : (match String c s with
               | String c0 (String x r) =>
                   if Ascii.eqb c0 "0" && (Ascii.eqb x "x" || Ascii.eqb x "X")
                   then (16, r) else (10, String c s)
               | _ => (10, String c s)
               end) = (10, String c s)).
  { destruct s as [| x r]; [reflexivity |].
    cbn [allDigits] in Hs. apply andb_prop in Hs as [Hx _].
    destruct (digit_facts x Hx) as (_ & _ & _ & -> & -> & _).
    now rewrite andb_false_r. }
  rewrite E. cbn [parseDigits]. rewrite Hv. cbn [default].
  rewrite parseDigits_allDigits by exact Hs.
  f_equal. cbn [decimalValue]. generalize (Z.of_N (N_of_ascii c) - 48). intros d.
  replace (10 * 0 + d) with d by lia. generalize (decimalValue d s). intros v. lia.
Qed.

(** Up to 2^53 that is the decimal value itself. *)
Lemma parseInt_numeral s :
  numeral s = true -> decimalValue 0 s <= 2 ^ 53 -> parseInt s = Num (decimalValue 0 s).
Proof.
  intros H B. rewrite (parseInt_number s H). apply toDouble_safe.
  rewrite Z.abs_eq; [exact B |].
  apply decimalValue_nonneg; [lia | now apply numeral_allDigits].
Qed.

Lemma allDigits_includes c s :
  isDigit c = false -> allDigits s = true -> includes c s = false.
Proof.
  intros Hc. induction s as [| x s IH]; simpl; [reflexivity |].
  intros [Hx Hs]%andb_prop.
  destruct (Ascii.eqb_spec x c) as [-> |]; [congruence | auto].
Qed.


(** The shape of a raw time ["H:MM"]. *)
Lemma HMM_shape H MM :
  numeral H = true -> numeral MM = true ->
  trim (H ++ ":" ++ MM) <> "" /\
  parsedHours (H ++ ":" ++ MM) = toDouble (decimalValue 0 H) /\
  parsedMinutes (H ++ ":" ++ MM) = toDouble (decimalValue 0 MM).
Proof.
  intros HH HM.
  pose proof (numeral_allDigits _ HH) as DH.
  pose proof (numeral_allDigits _ HM) as DM.
  assert (Hcomma : includes "," (H ++ ":" ++ MM) = false).
  { rewrite !includes_app.
    rewrite (allDigits_includes "," H), (allDigits_includes "," MM) by easy.
    reflexivity. }
  assert (Hsplit : split ":" (H ++ ":" ++ MM) = [H; MM]).
  { change (H ++ ":" ++ MM) with (H ++ String ":" MM).
    rewrite split_app by now apply allDigits_includes.
    now rewrite split_none by now apply allDigits_includes. }
  split; [| split].
  - destruct H as [| c h]; [discriminate |].
    apply andb_prop in DH as [Hc _].
    destruct (digit_facts c Hc) as (Hw & _).
    change (String c h ++ ":" ++ MM) with (String c (h ++ ":" ++ MM)).
    unfold trim. cbn [trimStart]. rewrite Hw.
    destruct (trimEnd_cons c (h ++ ":" ++ MM) Hw) as [r ->]. discriminate.
  - unfold parsedHours, firstListed. rewrite Hcomma, Hsplit.
    now apply parseInt_number.
  - unfold parsedMinutes, firstListed. rewrite Hcomma, Hsplit.
    now apply parseInt_number.
Qed.

(** The same for numerals up to 2^53. *)
Lemma HMM_safe H MM :
  numeral H = true -> numeral MM = true ->
  decimalValue 0 H <= 2 ^ 53 -> decimalValue 0 MM <= 2 ^ 53 ->
  trim (H ++ ":" ++ MM) <> "" /\
  parsedHours (H ++ ":" ++ MM) = Num (decimalValue 0 H) /\
  parsedMinutes (H ++ ":" ++ MM) = Num (decimalValue 0 MM).
Proof.
  intros HH HM BH BM. destruct (HMM_shape H MM HH HM) as (Ht & Hh & Hm).
  split; [exact Ht |]. rewrite Hh, Hm. split; apply toDouble_safe.
  - rewrite Z.abs_eq; [exact BH |].
    apply decimalValue_nonneg; [lia | now apply numeral_allDigits].
  - rewrite Z.abs_eq; [exact BM |].
    apply decimalValue_nonneg; [lia | now apply numeral_allDigits].
Qed.

End NumeralFacts.

(** ** convertTo24Hour *)

Section Normaliser.

Lemma trim_nonempty_eqb timeStr :
  trim timeStr <> "" ->
  String.eqb timeStr "" || String.eqb (trim timeStr) "" = false.
Proof.
  intros H. rewrite (eqb_empty_false (trim timeStr) H).
  rewrite eqb_empty_false; [reflexivity |].
  intros ->. now apply H.
Qed.

(** The value returned for a time string that is not blank. *)
Lemma convertTo24Hour_nonblank timeStr prayerName :
  trim timeStr <> "" ->
  result (convertTo24Hour timeStr prayerName) =
  inr (clock
         (if String.eqb prayerName "Fajr" || String.eqb prayerName "Sunrise" then
            if strictEq (parsedHours timeStr) 12 then Num 0 else parsedHours timeStr
          else if String.eqb prayerName "Dhuhr" || String.eqb prayerName "Asr" then
            if negb (strictEq (parsedHours timeStr) 12)
            then add (parsedHours timeStr) 12 else parsedHours timeStr
          else if String.eqb prayerName "Magrib" || String.eqb prayerName "Isha" then
            if negb (strictEq (parsedHours timeStr) 12)
            then add (parsedHours timeStr) 12 else parsedHours timeStr
          else parsedHours timeStr)
         (parsedMinutes timeStr)).
Proof.
  intros H. unfold convertTo24Hour. rewrite (trim_nonempty_eqb _ H).
  unfold parsedHours, parsedMinutes, firstListed.
  destruct (includes "," timeStr); [| reflexivity].
  destruct (split "," timeStr) as [| piece pieces] eqn:E; [| reflexivity].
  now apply split_nonempty in E.
Qed.

Lemma convertTo24Hour_returns timeStr prayerName :
  returns (convertTo24Hour timeStr prayerName).
Proof.
  unfold returns.
  destruct (string_dec (trim timeStr) "") as [E | N].
  - unfold convertTo24Hour. rewrite E. rewrite orb_true_r. now exists "".
  - rewrite (convertTo24Hour_nonblank _ _ N). eauto.
Qed.

(** The only events of the normaliser are log entries. *)
Lemma convertTo24Hour_trace timeStr prayerName :
  trace (convertTo24Hour timeStr prayerName) = [] \/
  exists s, trace (convertTo24Hour timeStr prayerName) = [Log info (MultipleTimes s)].
Proof.
  unfold convertTo24Hour.
  destruct (String.eqb timeStr "" || String.eqb (trim timeStr) ""); [now left |].
  destruct (includes "," timeStr); [| now left].
  destruct (split "," timeStr) as [| piece pieces] eqn:E.
  - now apply split_nonempty in E.
  - right. eexists. reflexivity.
Qed.

(** The afternoon and evening names that the normaliser knows. *)
Lemma convertTo24Hour_afternoon timeStr prayerName h :
  prayerName = "Dhuhr" \/ prayerName = "Asr" \/ prayerName = "Magrib" \/ prayerName = "Isha" ->
  trim timeStr <> "" ->
  parsedHours timeStr = Num h ->
  Z.abs (h + 12) <= 2 ^ 53 ->
  result (convertTo24Hour timeStr prayerName) =
  inr (clock (Num (if h =? 12 then 12 else h + 12)) (parsedMinutes timeStr)).
Proof.
  intros Hp Ht Hh B. rewrite (convertTo24Hour_nonblank _ _ Ht), Hh.
  cbn [strictEq add]. rewrite (toDouble_safe _ B).
  destruct Hp as [-> | [-> | [-> | ->]]]; cbn [String.eqb Ascii.eqb Bool.eqb orb];
    destruct (Z.eqb_spec h 12) as [-> |]; reflexivity.
Qed.

(** With the spelling "Maghrib" no rule applies: the hour is kept. *)
Lemma convertTo24Hour_Maghrib timeStr :
  trim timeStr <> "" ->
  result (convertTo24Hour timeStr "Maghrib") =
  inr (clock (parsedHours timeStr) (parsedMinutes timeStr)).
Proof. intros Ht. now rewrite (convertTo24Hour_nonblank _ _ Ht). Qed.

Lemma convertTo24Hour_Maghrib_HMM H MM :
  numeral H = true -> numeral MM = true ->
  decimalValue 0 H <= 2 ^ 53 -> decimalValue 0 MM <= 2 ^ 53 ->
  result (convertTo24Hour (H ++ ":" ++ MM) "Maghrib") =
  inr (clock (Num (decimalValue 0 H)) (Num (decimalValue 0 MM))).
Proof.
  intros HH HM BH BM. destruct (HMM_safe H MM HH HM BH BM) as (Ht & Hh & Hm).
  now rewrite (convertTo24Hour_Maghrib _ Ht), Hh, Hm.
Qed.

(** C1: for the names Dhuhr, Asr, Maghrib, Magrib and Isha the hour of
    "H:MM" should become H + 12 (12 stays 12).  The normaliser tests for
    "Magrib" only: called with the correctly spelled "Maghrib" it returns
    the hour unchanged, "06:30" for "6:30", where the misspelt name gives
    "18:30". *)
Theorem convertTo24Hour_Maghrib_not_shifted :
  convertTo24Hour "6:30" "Maghrib" = ret "06:30" /\
  convertTo24Hour "6:30" "Magrib" = ret "18:30" /\
  convertTo24Hour "6:30" "Isha" = ret "18:30".
Proof. repeat split; reflexivity. Qed.

(** C5: for a time string that is not blank and the prayer names Fajr
    and Sunrise, a parsed hour of 12 becomes 0 and every other parsed
    hour is left unchanged. *)
Theorem convertTo24Hour_morning timeStr prayerName h :
  prayerName = "Fajr" \/ prayerName = "Sunrise" ->
  trim timeStr <> "" ->
  parsedHours timeStr = Num h ->
  result (convertTo24Hour timeStr prayerName) =
  inr (clock (Num (if h =? 12 then 0 else h)) (parsedMinutes timeStr)).
Proof.
  intros Hp Ht Hh. rewrite (convertTo24Hour_nonblank _ _ Ht), Hh.
  cbn [strictEq].
  destruct Hp as [-> | ->]; cbn; destruct (h =? 12); reflexivity.
Qed.

Lemma convertTo24Hour_morning_witness :
  result (convertTo24Hour "12:05" "Fajr") = inr "00:05" /\
  result (convertTo24Hour "5:30" "Sunrise") = inr "05:30".
Proof.
  split.
  - apply (convertTo24Hour_morning "12:05" "Fajr" 12);
      [now left | discriminate | reflexivity].
  - apply (convertTo24Hour_morning "5:30" "Sunrise" 5);
      [now right | discriminate | reflexivity].
Defined.

(** The same for every raw time "H:MM" made of two numerals. *)
Lemma convertTo24Hour_morning_HMM H MM prayerName :
  numeral H = true -> numeral MM = true ->
  decimalValue 0 H <= 2 ^ 53 -> decimalValue 0 MM <= 2 ^ 53 ->
  prayerName = "Fajr" \/ prayerName = "Sunrise" ->
  result (convertTo24Hour (H ++ ":" ++ MM) prayerName) =
  inr (clock (Num (if decimalValue 0 H =? 12 then 0 else decimalValue 0 H))
             (Num (decimalValue 0 MM))).
Proof.
  intros HH HM BH BM Hp. destruct (HMM_safe H MM HH HM BH BM) as (Ht & Hh & Hm).
  rewrite (convertTo24Hour_nonblank _ _ Ht), Hh, Hm. cbn [strictEq].
  destruct Hp as [-> | ->]; cbn [String.eqb Ascii.eqb Bool.eqb orb];
    destruct (decimalValue 0 H =? 12); reflexivity.
Qed.

Lemma convertTo24Hour_afternoon_HMM H MM prayerName :
  numeral H = true -> numeral MM = true ->
  decimalValue 0 H + 12 <= 2 ^ 53 -> decimalValue 0 MM <= 2 ^ 53 ->
  prayerName = "Dhuhr" \/ prayerName = "Asr" \/ prayerName = "Magrib" \/ prayerName = "Isha" ->
  result (convertTo24Hour (H ++ ":" ++ MM) prayerName) =
  inr (clock (Num (if decimalValue 0 H =? 12 then 12 else decimalValue 0 H + 12))
             (Num (decimalValue 0 MM))).
Proof.
  intros HH HM BH BM Hp.
  assert (P : 0 <= decimalValue 0 H)
    by (apply decimalValue_nonneg; [lia | now apply numeral_allDigits]).
  destruct (HMM_safe H MM HH HM) as (Ht & Hh & Hm); [lia | exact BM |].
  rewrite (convertTo24Hour_afternoon _ _ _ Hp Ht Hh), Hm; [reflexivity |].
  rewrite Z.abs_eq; lia.
Qed.

(** C9: an empty or whitespace-only time string is normalised to the
    empty string, whatever the prayer name, and nothing is logged. *)
Theorem convertTo24Hour_blank timeStr prayerName :
  whitespaceOnly timeStr = true ->
  convertTo24Hour timeStr prayerName = ret "".
Proof.
  intros H. unfold convertTo24Hour.
  now rewrite (whitespaceOnly_trim _ H), orb_true_r.
Qed.

Lemma convertTo24Hour_blank_witness :
  convertTo24Hour "" "Isha" = ret "" /\
  convertTo24Hour "   " "Fajr" = ret "".
Proof.
  split.
  - apply (convertTo24Hour_blank "" "Isha"). reflexivity.
  - apply (convertTo24Hour_blank "   " "Fajr"). reflexivity.
Defined.

Lemma firstListed_comma a b :
  includes "," a = false -> firstListed (a ++ "," ++ b) = trim a.
Proof.
  intros Ha. unfold firstListed.
  change (a ++ "," ++ b) with (a ++ String "," b).
  rewrite includes_app, Ha. cbn [includes orb].
  rewrite Ascii.eqb_refl.
  now rewrite split_app.
Qed.

Lemma comma_not_blank a b : trim (a ++ "," ++ b) <> "".
Proof.
  apply (includes_nonempty ",").
  rewrite includes_trim by reflexivity.
  change (a ++ "," ++ b) with (a ++ String "," b).
  rewrite includes_app. cbn [includes]. rewrite Ascii.eqb_refl.
  apply orb_true_r.
Qed.

(** C6: when the time string has a comma, only the trimmed text before
    the first comma is normalised: the text after it does not change the
    result, the result is that of the trimmed first time alone, and
    "1:00,2:30" for Isha gives "13:00". *)
Theorem convertTo24Hour_first_listed a b prayerName :
  includes "," a = false ->
  firstListed (a ++ "," ++ b) = trim a /\
  trace (convertTo24Hour (a ++ "," ++ b) prayerName) = [Log info (MultipleTimes (trim a))] /\
  (forall b', result (convertTo24Hour (a ++ "," ++ b) prayerName) =
              result (convertTo24Hour (a ++ "," ++ b') prayerName)) /\
  (trim a <> "" ->
   result (convertTo24Hour (a ++ "," ++ b) prayerName) =
   result (convertTo24Hour (trim a) prayerName)) /\
  result (convertTo24Hour "1:00,2:30" "Isha") = inr "13:00".
Proof.
  intros Ha. split; [| split; [| split; [| split]]].
  - now apply firstListed_comma.
  - unfold convertTo24Hour.
    rewrite (trim_nonempty_eqb _ (comma_not_blank a b)).
    change (a ++ "," ++ b) with (a ++ String "," b).
    rewrite includes_app, Ha. cbn [includes orb]. rewrite Ascii.eqb_refl.
    rewrite split_app by exact Ha. reflexivity.
  - intros b'.
    rewrite !convertTo24Hour_nonblank by apply comma_not_blank.
    unfold parsedHours, parsedMinutes.
    now rewrite !firstListed_comma.
  - intros Ht.
    rewrite convertTo24Hour_nonblank by apply comma_not_blank.
    rewrite convertTo24Hour_nonblank by now apply trim_trim_nonempty.
    unfold parsedHours, parsedMinutes.
    rewrite firstListed_comma by exact Ha.
    assert (E : firstListed (trim a) = trim a).
    { unfold firstListed. now rewrite includes_trim, Ha. }
    now rewrite E.
  - reflexivity.
Qed.

Lemma convertTo24Hour_first_listed_witness :
  firstListed (" 1:00 " ++ "," ++ "2:30") = "1:00" /\
  result (convertTo24Hour (" 1:00 " ++ "," ++ "2:30") "Isha") =
  result (convertTo24Hour "1:00" "Isha").
Proof.
  destruct (convertTo24Hour_first_listed " 1:00 " "2:30" "Isha" eq_refl)
    as (Hfirst & _ & _ & Hres & _).
  split; [exact Hfirst | apply Hres; discriminate].
Defined.

Lemma clock_NaN_hours minutes :
  contains "NaN" (clock NaN minutes) /\ isHHMM (clock NaN minutes) = false.
Proof.
  unfold clock. split.
  - exists "", (":" ++ padStart 2 "0" (toString minutes)). reflexivity.
  - change (padStart 2 "0" (toString NaN)) with "NaN".
    destruct (padStart 2 "0" (toString minutes)) as [| d [| e r]]; reflexivity.
Qed.

Lemma clock_NaN_minutes hours :
  contains "NaN" (clock hours NaN) /\ isHHMM (clock hours NaN) = false.
Proof.
  unfold clock. change (padStart 2 "0" (toString NaN)) with "NaN". split.
  - exists (padStart 2 "0" (toString hours) ++ ":"), "".
    now rewrite append_append.
  - destruct (isHHMM (padStart 2 "0" (toString hours) ++ ":" ++ "NaN")) eqn:E;
      [| reflexivity].
    apply isHHMM_length in E. rewrite length_append_string in E.
    pose proof (padStart_2_length (toString hours)).
    change (String.length (":" ++ "NaN")) with 4%nat in E. lia.
Qed.

(** C10 (as stated): a string of one space is not empty and has no
    numeric hour or minute, yet it is normalised to the empty string,
    which does not contain "NaN". *)
Lemma convertTo24Hour_space_not_NaN :
  " " <> "" /\
  parsedHours " " = NaN /\ parsedMinutes " " = NaN /\
  result (convertTo24Hour " " "Fajr") = inr "" /\
  ~ contains "NaN" "".
Proof.
  repeat split; try discriminate.
  intros (pre & post & E). destruct pre; discriminate E.
Qed.

(** C10 (amended): the normaliser returns on every input and never
    throws; a blank input gives the empty string; when the input is not
    blank and the hour or the minute of its first listed time does not
    parse, it returns a string that contains "NaN": not the empty string
    and not of the shape HH:MM.  "abc" gives "NaN:NaN" and "7" gives
    "07:NaN". *)
Theorem convertTo24Hour_total_NaN timeStr prayerName :
  returns (convertTo24Hour timeStr prayerName) /\
  (whitespaceOnly timeStr = true ->
   result (convertTo24Hour timeStr prayerName) = inr "") /\
  (trim timeStr <> "" ->
   parsedHours timeStr = NaN \/ parsedMinutes timeStr = NaN ->
   exists v, result (convertTo24Hour timeStr prayerName) = inr v /\
             contains "NaN" v /\ v <> "" /\ isHHMM v = false) /\
  result (convertTo24Hour "abc" prayerName) = inr "NaN:NaN" /\
  result (convertTo24Hour "7" "Fajr") = inr "07:NaN" /\
  result (convertTo24Hour "7" "Isha") = inr "19:NaN".
Proof.
  split; [apply convertTo24Hour_returns |].
  split; [| split; [| split; [| split; reflexivity]]].
  - intros Hb. unfold convertTo24Hour.
    now rewrite (whitespaceOnly_trim _ Hb), orb_true_r.
  - intros Ht HN. rewrite (convertTo24Hour_nonblank _ _ Ht).
    eexists. split; [reflexivity |].
    assert (G : forall h m, h = NaN \/ m = NaN ->
                contains "NaN" (clock h m) /\ isHHMM (clock h m) = false).
    { intros h m [-> | ->]; [apply clock_NaN_hours | apply clock_NaN_minutes]. }
    match goal with
    | |- contains _ (clock ?h ?m) /\ _ =>
        assert (K : h = NaN \/ m = NaN)
    end.
    { destruct HN as [-> | ->]; [left | now right].
      cbn [strictEq add negb].
      repeat match goal with
             | |- context [if ?b then _ else _] => destruct b
             end; reflexivity. }
    destruct (G _ _ K) as [G1 G2].
    split; [exact G1 | split; [| exact G2]].
    apply (contains_nonempty "NaN"); [discriminate | exact G1].
  - assert (Ht : trim "abc" <> "") by discriminate.
    rewrite (convertTo24Hour_nonblank _ _ Ht).
    change (parsedHours "abc") with NaN.
    change (parsedMinutes "abc") with NaN.
    cbn [strictEq add negb].
    repeat match goal with
           | |- context [if ?b then _ else _] => destruct b
           end; reflexivity.
Qed.

End Normaliser.

(** ** Loops *)

Section ForEachFacts.
Context {A S : Type} (f : S -> A -> M S).

Lemma forEach_cons s x l :
  forEach f s (x :: l) = bind (f s x) (fun s' => forEach f s' l).
Proof. reflexivity. Qed.

(** A loop whose body always returns and keeps an invariant returns
    and keeps it. *)
Lemma forEach_returns (I : S -> Prop) l :
  (forall s x, In x l -> I s -> exists s', result (f s x) = inr s' /\ I s') ->
  forall s, I s -> exists s', result (forEach f s l) = inr s' /\ I s'.
Proof.
  induction l as [| x l IH]; intros Hf s Hs.
  - exists s. now split.
  - destruct (Hf s x (or_introl eq_refl) Hs) as (s1 & E1 & H1).
    rewrite forEach_cons, result_bind, E1.
    apply IH; [| exact H1].
    intros s2 y Hy. apply Hf. now right.
Qed.

(** Events of a kind that no step performs are not performed. *)
Lemma forEach_trace (P : event -> Prop) l :
  (forall s x, In x l -> Forall P (trace (f s x))) ->
  forall s, Forall P (trace (forEach f s l)).
Proof.
  induction l as [| x l IH]; intros Hf s.
  - constructor.
  - rewrite forEach_cons, trace_bind. apply Forall_app. split.
    + apply Hf. now left.
    + destruct (result (f s x)); [constructor |].
      apply IH. intros s2 y Hy. apply Hf. now right.
Qed.

End ForEachFacts.

Lemma trace_bind_Forall {A B} (P : event -> Prop) (m : M A) (k : A -> M B) :
  Forall P (trace m) ->
  (forall a, result m = inr a -> Forall P (trace (k a))) ->
  Forall P (trace (bind m k)).
Proof.
  intros Hm Hk. rewrite trace_bind. apply Forall_app. split; [exact Hm |].
  destruct (result m) eqn:E; [constructor | now apply Hk].
Qed.

(** ** Objects *)

Section ObjectFacts.
Context {V : Type}.

Lemma keys_setProp (o : obj V) k v :
  hasOwnProperty o k = true -> keys (setProp o k v) = keys o.
Proof.
  unfold keys, hasOwnProperty.
  induction o as [| [k' v'] o IH]; simpl; [discriminate |].
  destruct (String.eqb k' k); simpl; [reflexivity |].
  intros H. now rewrite IH.
Qed.

Lemma getProp_setProp (o : obj V) k v :
  getProp (setProp o k v) k = Some v.
Proof.
  induction o as [| [k' v'] o IH]; simpl.
  - now rewrite String.eqb_refl.
  - destruct (String.eqb k' k) eqn:E; simpl; now rewrite E.
Qed.

End ObjectFacts.

(** The row of a day has the column [day] and then the keys of the
    fields, when these are the keys of an athan row or of an iqama row. *)
Lemma keys_dayRow_athan day fields :
  keys fields = keys athanRow0 -> keys (dayRow day fields) = athanColumns.
Proof.
  destruct fields as [| [k1 v1] [| [k2 v2] [| [k3 v3] [| [k4 v4] [| [k5 v5]
    [| [k6 v6] [| ? ?]]]]]]]; try discriminate.
  intros H. injection H as -> -> -> -> -> ->. reflexivity.
Qed.

Lemma keys_dayRow_iqama day fields :
  keys fields = keys iqamaRow0 -> keys (dayRow day fields) = iqamaColumns.
Proof.
  destruct fields as [| [k1 v1] [| [k2 v2] [| [k3 v3] [| [k4 v4] [| [k5 v5]
    [| ? ?]]]]]]; try discriminate.
  intros H. injection H as -> -> -> -> ->. reflexivity.
Qed.

(** ** The scraped week *)

Section WeekFacts.

Lemma convertTo24Hour_logs timeStr prayerName :
  Forall isLog (trace (convertTo24Hour timeStr prayerName)).
Proof.
  destruct (convertTo24Hour_trace timeStr prayerName) as [-> | [s ->]];
    repeat constructor.
Qed.

(** One prayer entry: the rows keep their keys. *)
Lemma processPrayer_keys rows entry :
  rowKeys rows ->
  exists rows', result (processPrayer rows entry) = inr rows' /\ rowKeys rows'.
Proof.
  destruct rows as [athanRow iqamaRow], entry as [name times].
  intros [Ha Hi]. unfold processPrayer.
  destruct (convertTo24Hour_returns (start times) name) as [start24 Es].
  destruct (convertTo24Hour_returns (iqamah times) name) as [iqamah24 Ei].
  rewrite result_bind, Es, result_bind, Ei.
  eexists. split; [reflexivity |]. split; cbn [fst snd].
  - destruct (hasOwnProperty athanRow _) eqn:E; [| exact Ha].
    now rewrite keys_setProp.
  - destruct (hasOwnProperty iqamaRow _ && _) eqn:E; [| exact Hi].
    apply andb_prop in E as [E _]. now rewrite keys_setProp.
Qed.

Lemma processPrayer_logs rows entry :
  Forall isLog (trace (processPrayer rows entry)).
Proof.
  destruct rows as [athanRow iqamaRow], entry as [name times].
  unfold processPrayer.
  apply trace_bind_Forall; [apply convertTo24Hour_logs |]. intros start24 _.
  apply trace_bind_Forall; [apply convertTo24Hour_logs |]. intros iqamah24 _.
  constructor.
Qed.

Lemma rowKeys_initial : rowKeys (athanRow0, iqamaRow0).
Proof. now split. Qed.

Lemma processPrayers_keys entries :
  exists rows, result (forEach processPrayer (athanRow0, iqamaRow0) entries) = inr rows /\
               rowKeys rows.
Proof.
  apply (forEach_returns processPrayer rowKeys); [| exact rowKeys_initial].
  intros rows entry _. apply processPrayer_keys.
Qed.

(** A row without a valid day number is logged and adds nothing. *)
Lemma processDay_skip processedWeekData day :
  dayNumber day <= 0 ->
  processDay processedWeekData day = ([skipped day], inr processedWeekData).
Proof.
  intros H. unfold processDay.
  destruct (Z.leb_spec (dayNumber day) 0); [reflexivity | lia].
Qed.

(** A row with a valid day number adds one record, the same whatever
    was processed before. *)
Lemma processDay_keep processedWeekData day :
  0 < dayNumber day ->
  exists r,
    result (processDay processedWeekData day) = inr (processedWeekData ++ [r])%list /\
    recordOf day r /\
    pDayNumber r = dayNumber day /\ pDayOfWeek r = dayOfWeek day /\
    recordKeys r.
Proof.
  intros H. unfold recordOf, processDay.
  destruct (Z.leb_spec (dayNumber day) 0); [lia |].
  destruct (processPrayers_keys (prayers day)) as ([athanRow iqamaRow] & E & Ka & Ki).
  rewrite !result_bind, E.
  eexists. split; [reflexivity |]. repeat split; assumption.
Qed.

Lemma processDay_returns processedWeekData day :
  returns (processDay processedWeekData day).
Proof.
  destruct (Z_le_gt_dec (dayNumber day) 0) as [H | H].
  - rewrite processDay_skip by exact H. eexists. reflexivity.
  - destruct (processDay_keep processedWeekData day) as (r & E & _); [lia |].
    eexists. exact E.
Qed.

Lemma processDay_logs processedWeekData day :
  Forall isLog (trace (processDay processedWeekData day)).
Proof.
  unfold processDay. destruct (dayNumber day <=? 0).
  - repeat constructor.
  - apply trace_bind_Forall.
    + apply forEach_trace. intros. apply processPrayer_logs.
    + intros [athanRow iqamaRow] _. constructor.
Qed.

Lemma recordOf_valid day r :
  recordOf day r ->
  0 < dayNumber day /\ pDayNumber r = dayNumber day /\
  pDayOfWeek r = dayOfWeek day /\ recordKeys r.
Proof.
  intros H. destruct (Z_le_gt_dec (dayNumber day) 0) as [L | G].
  - unfold recordOf in H. rewrite processDay_skip in H by exact L. discriminate.
  - destruct (processDay_keep [] day) as (r' & E & _ & Hn & Hw & Hk); [lia |].
    unfold recordOf in H. rewrite E in H. injection H as ->.
    repeat split; try apply Hk; auto; lia.
Qed.

(** The records are those of the rows with a valid day number, in the
    order of the rows. *)
Lemma forEach_processDay extractedData : forall processedWeekData,
  exists records,
    result (forEach processDay processedWeekData extractedData) =
      inr (processedWeekData ++ records)%list /\
    Forall2 recordOf (List.filter (fun day => 0 <? dayNumber day) extractedData) records.
Proof.
  induction extractedData as [| day data IH]; intros acc.
  - exists []. rewrite app_nil_r. split; [reflexivity | constructor].
  - rewrite forEach_cons, result_bind. cbn [List.filter].
    destruct (Z.ltb_spec 0 (dayNumber day)) as [G | L].
    + destruct (processDay_keep acc day G) as (r & E & Hr & _).
      rewrite E. destruct (IH (acc ++ [r])%list) as (records & E' & F).
      exists (r :: records). rewrite E', <- app_assoc. split; [reflexivity |].
      now constructor.
    + rewrite processDay_skip by exact L. cbn [result snd]. apply IH.
Qed.

Lemma processWeek_records extractedData :
  exists records,
    result (processWeek extractedData) = inr records /\
    Forall2 recordOf (List.filter (fun day => 0 <? dayNumber day) extractedData) records.
Proof. apply (forEach_processDay extractedData []). Qed.

Lemma processWeek_logs extractedData : Forall isLog (trace (processWeek extractedData)).
Proof. apply forEach_trace. intros. apply processDay_logs. Qed.

Lemma forEach_processDay_skipped extractedData : forall processedWeekData day,
  In day extractedData -> dayNumber day <= 0 ->
  In (skipped day) (trace (forEach processDay processedWeekData extractedData)).
Proof.
  induction extractedData as [| x data IH]; intros acc day Hin Hday; [contradiction |].
  rewrite forEach_cons, trace_bind. apply in_or_app.
  destruct Hin as [-> | Hin].
  - left. rewrite processDay_skip by exact Hday. now left.
  - right. destruct (processDay_returns acc x) as [acc' ->]. now apply IH.
Qed.

(** When no row is valid the week is empty and the trace is the list
    of the skipped rows. *)
Lemma forEach_processDay_all_skipped extractedData : forall processedWeekData,
  Forall (fun day => dayNumber day <= 0) extractedData ->
  forEach processDay processedWeekData extractedData =
  (skipped <$> extractedData, inr processedWeekData).
Proof.
  induction extractedData as [| x data IH]; intros acc H; [reflexivity |].
  inversion H as [| ? ? Hx Hdata]; subst.
  rewrite forEach_cons, processDay_skip by exact Hx.
  unfold bind. now rewrite IH.
Qed.

End WeekFacts.

(** ** Sorting and the day-of-week map *)

Section SortFacts.

Lemma insertByDayNumber_perm d l : Permutation (insertByDayNumber d l) (d :: l).
Proof.
  induction l as [| x l IH]; simpl; [reflexivity |].
  destruct (pDayNumber x - pDayNumber d <? 0); [| reflexivity].
  rewrite IH. apply perm_swap.
Qed.

Lemma sortByDayNumber_perm l : Permutation (sortByDayNumber l) l.
Proof.
  induction l as [| x l IH]; simpl; [reflexivity |].
  rewrite insertByDayNumber_perm. now constructor.
Qed.

Lemma sortByDayNumber_In r l : In r (sortByDayNumber l) <-> In r l.
Proof.
  split; apply Permutation_in;
    [apply sortByDayNumber_perm | symmetry; apply sortByDayNumber_perm].
Qed.

Lemma sortByDayNumber_nonempty l : l <> [] -> sortByDayNumber l <> [].
Proof.
  intros H E. apply H. apply Permutation_nil.
  rewrite <- E. apply sortByDayNumber_perm.
Qed.

Lemma insertByDayNumber_sorted d l :
  Sorted byDayNumber l -> Sorted byDayNumber (insertByDayNumber d l).
Proof.
  induction 1 as [| x l Hl IH Hx]; simpl; [repeat constructor |].
  destruct (Z.ltb_spec (pDayNumber x - pDayNumber d) 0) as [L | G].
  - constructor; [exact IH |].
    destruct Hx as [| y l Hxy]; simpl.
    + constructor. unfold byDayNumber. lia.
    + destruct (pDayNumber y - pDayNumber d <? 0); constructor;
        unfold byDayNumber in *; lia.
  - constructor; [now constructor |]. constructor. unfold byDayNumber. lia.
Qed.

(** The week is in ascending order of day number after the sort. *)
Lemma sortByDayNumber_sorted l : Sorted byDayNumber (sortByDayNumber l).
Proof.
  induction l as [| x l IH]; simpl; [constructor |].
  now apply insertByDayNumber_sorted.
Qed.

(** Every entry of the map is the pattern of a record with that
    weekday. *)
Lemma fold_dayOfWeekMap_lookup records : forall (m : gmap Z Pattern) k pattern,
  fold_left
    (fun dayOfWeekMap day =>
       if 0 <=? pDayOfWeek day
       then <[pDayOfWeek day := {| patAthan := athan day; patIqama := iqama day |}]> dayOfWeekMap
       else dayOfWeekMap) records m !! k = Some pattern ->
  m !! k = Some pattern \/
  exists r, In r records /\ pDayOfWeek r = k /\ 0 <= k /\ pattern = patternOf r.
Proof.
  induction records as [| x records IH]; intros m k pattern H; [now left |].
  cbn [fold_left] in H. apply IH in H as [H | (r & Hr & Hk)].
  - destruct (Z.leb_spec 0 (pDayOfWeek x)) as [L | G]; [| now left].
    apply lookup_insert_Some in H as [[<- <-] | [_ H]]; [| now left].
    right. exists x. repeat split; [now left | exact L].
  - right. exists r. split; [now right | exact Hk].
Qed.

Lemma buildDayOfWeekMap_lookup records k pattern :
  buildDayOfWeekMap records !! k = Some pattern ->
  exists r, In r records /\ pDayOfWeek r = k /\ 0 <= k /\ pattern = patternOf r.
Proof.
  intros H. apply fold_dayOfWeekMap_lookup in H as [H | H]; [| exact H].
  rewrite lookup_empty in H. discriminate.
Qed.

Lemma Forall2_In_r {X Y} (R : X -> Y -> Prop) xs ys y :
  Forall2 R xs ys -> In y ys -> exists x, In x xs /\ R x y.
Proof.
  induction 1 as [| x0 y0 xs ys H0 _ IH]; intros Hy; [contradiction |].
  destruct Hy as [-> | Hy].
  - exists x0. split; [now left | exact H0].
  - destruct (IH Hy) as (x & Hx & Hr). exists x. split; [now right | exact Hr].
Qed.

End SortFacts.

(** C7: a row whose day number is not positive is skipped: the skip is
    logged, the processing goes on and returns, the processed records are
    those of the rows with a positive day number only, and every entry of
    the day-of-week map comes from a row with a positive day number. *)
Theorem invalid_days_skipped extractedData :
  exists records,
    result (processWeek extractedData) = inr records /\
    Forall2 recordOf (List.filter (fun day => 0 <? dayNumber day) extractedData) records /\
    result (processWeek (List.filter (fun day => 0 <? dayNumber day) extractedData)) =
      inr records /\
    (forall day, In day extractedData -> dayNumber day <= 0 ->
       In (skipped day) (trace (processWeek extractedData))) /\
    (forall k pattern,
       buildDayOfWeekMap (sortByDayNumber records) !! k = Some pattern ->
       exists day r,
         In day extractedData /\ 0 < dayNumber day /\ dayOfWeek day = k /\
         recordOf day r /\ pattern = patternOf r).
Proof.
  destruct (processWeek_records extractedData) as (records & E & F).
  exists records. split; [exact E |]. split; [exact F |]. split; [| split].
  - destruct (processWeek_records
                (List.filter (fun day => 0 <? dayNumber day) extractedData))
      as (records' & E' & F').
    rewrite E'. f_equal.
    assert (Hid : forall l : list ExtractedDay,
               List.filter (fun day => 0 <? dayNumber day)
                 (List.filter (fun day => 0 <? dayNumber day) l) =
               List.filter (fun day => 0 <? dayNumber day) l).
    { induction l as [| x l IH]; [reflexivity |]. cbn [List.filter].
      destruct (0 <? dayNumber x) eqn:Ex; cbn [List.filter]; [| exact IH].
      now rewrite Ex, IH. }
    rewrite Hid in F'. clear E E' Hid.
    revert records' F'. induction F as [| day r days rs Hr _ IH]; intros records' F'.
    + now inversion F'.
    + inversion F' as [| ? r' ? rs' Hr' Hrs']; subst.
      unfold recordOf in Hr, Hr'. rewrite Hr in Hr'. injection Hr' as <-.
      f_equal. now apply IH.
  - intros day Hin Hday. now apply forEach_processDay_skipped.
  - intros k pattern Hk.
    apply buildDayOfWeekMap_lookup in Hk as (r & Hr & Hw & _ & ->).
    apply (proj1 (sortByDayNumber_In _ _)) in Hr.
    destruct (Forall2_In_r _ _ _ _ F Hr) as (day & Hday & Hrec).
    apply filter_In in Hday as [Hday _].
    destruct (recordOf_valid day r Hrec) as (Hpos & _ & Hdow & _).
    exists day, r. repeat split; try assumption. congruence.
Qed.

(** ** The month tables *)

Section MonthFacts.
Context {zone : TimeZone}.

(** A loop that pushes one row per day onto both tables. *)
Lemma forEach_rows (body : monthState -> Z -> M monthState) (source : Z -> Pattern) l :
  (forall athanMonth iqamaMonth d,
     result (body (athanMonth, iqamaMonth) d) =
     inr ((athanMonth ++ [dayRow d (patAthan (source d))])%list,
          (iqamaMonth ++ [dayRow d (patIqama (source d))])%list)) ->
  forall athanMonth iqamaMonth,
    result (forEach body (athanMonth, iqamaMonth) l) =
    inr ((athanMonth ++ ((fun d => dayRow d (patAthan (source d))) <$> l))%list,
         (iqamaMonth ++ ((fun d => dayRow d (patIqama (source d))) <$> l))%list).
Proof.
  intros Hbody. induction l as [| d l IH]; intros athanMonth iqamaMonth.
  - cbn. now rewrite !app_nil_r.
  - rewrite forEach_cons, result_bind, Hbody, IH.
    cbn [fmap list_fmap]. now rewrite <- !app_assoc.
Qed.

Variables (r0 : ProcessedDay) (rest : list ProcessedDay).
Variable dayOfWeekMap : gmap Z Pattern.
Variables year month : Z.

Lemma currentMonthDay_result athanMonth iqamaMonth d :
  result (currentMonthDay (r0 :: rest) dayOfWeekMap year month (athanMonth, iqamaMonth) d) =
  inr ((athanMonth ++
          [dayRow d (patAthan (specSource r0 (r0 :: rest) dayOfWeekMap year month d))])%list,
       (iqamaMonth ++
          [dayRow d (patIqama (specSource r0 (r0 :: rest) dayOfWeekMap year month d))])%list).
Proof.
  unfold currentMonthDay, specSource.
  destruct (List.find _ (r0 :: rest)) as [dayData |]; [reflexivity |].
  destruct (dayOfWeekMap !! _) as [pattern |]; reflexivity.
Qed.

Lemma nextMonthDay_result athanMonth iqamaMonth d :
  result (nextMonthDay (r0 :: rest) dayOfWeekMap year month (athanMonth, iqamaMonth) d) =
  inr ((athanMonth ++ [dayRow d (patAthan (patternSource r0 dayOfWeekMap year month d))])%list,
       (iqamaMonth ++ [dayRow d (patIqama (patternSource r0 dayOfWeekMap year month d))])%list).
Proof.
  unfold nextMonthDay, patternSource.
  destruct (dayOfWeekMap !! _) as [pattern |]; reflexivity.
Qed.

Lemma expandCurrentMonth_result :
  result (expandCurrentMonth (r0 :: rest) dayOfWeekMap year month) =
  inr (tablesFrom (specSource r0 (r0 :: rest) dayOfWeekMap year month) year month).
Proof.
  unfold expandCurrentMonth, tablesFrom.
  now rewrite (forEach_rows _ _ _ currentMonthDay_result).
Qed.

Lemma expandNextMonth_result :
  result (expandNextMonth (r0 :: rest) dayOfWeekMap year month) =
  inr (tablesFrom (patternSource r0 dayOfWeekMap year month) year month).
Proof.
  unfold expandNextMonth, tablesFrom.
  now rewrite (forEach_rows _ _ _ nextMonthDay_result).
Qed.

(** One row per day of the month, the row of day [d] at index [d - 1]. *)
Lemma tablesFrom_rows (source : Z -> Pattern) :
  length (fst (tablesFrom source year month)) = Z.to_nat (daysIn year month) /\
  length (snd (tablesFrom source year month)) = Z.to_nat (daysIn year month) /\
  forall d, 1 <= d <= daysIn year month ->
    fst (tablesFrom source year month) !! Z.to_nat (d - 1) =
      Some (dayRow d (patAthan (source d))) /\
    snd (tablesFrom source year month) !! Z.to_nat (d - 1) =
      Some (dayRow d (patIqama (source d))).
Proof.
  unfold tablesFrom, days. cbn [fst snd].
  rewrite !length_fmap, length_seqZ. repeat split.
  - rewrite list_lookup_fmap, lookup_seqZ_lt by lia.
    cbn. now replace (1 + Z.of_nat (Z.to_nat (d - 1))) with d by lia.
  - rewrite list_lookup_fmap, lookup_seqZ_lt by lia.
    cbn. now replace (1 + Z.of_nat (Z.to_nat (d - 1))) with d by lia.
Qed.

(** The three cases of the source of a row. *)
Lemma specSource_reading records d :
  (forall r, List.find (fun r => pDayNumber r =? d) records = Some r ->
     In r records /\ pDayNumber r = d /\
     specSource r0 records dayOfWeekMap year month d = patternOf r) /\
  ((forall r, In r records -> pDayNumber r <> d) ->
   forall pattern, dayOfWeekMap !! getDay (newDate year month d) = Some pattern ->
     specSource r0 records dayOfWeekMap year month d = pattern) /\
  ((forall r, In r records -> pDayNumber r <> d) ->
   dayOfWeekMap !! getDay (newDate year month d) = None ->
   specSource r0 records dayOfWeekMap year month d = patternOf r0).
Proof.
  unfold specSource. repeat split.
  - now apply find_some in H.
  - apply find_some in H as [_ H]. lia.
  - now rewrite H.
  - intros Hno pattern Hp.
    destruct (List.find _ records) as [r |] eqn:E; [| now rewrite Hp].
    apply find_some in E as [Hin E]. exfalso. apply (Hno r Hin). lia.
  - intros Hno Hp.
    destruct (List.find _ records) as [r |] eqn:E; [| now rewrite Hp].
    apply find_some in E as [Hin E]. exfalso. apply (Hno r Hin). lia.
Qed.

End MonthFacts.

Section MonthTables.
Context {zone : TimeZone}.

Lemma expandCurrentMonth_logs records dayOfWeekMap year month :
  Forall isLog (trace (expandCurrentMonth records dayOfWeekMap year month)).
Proof.
  apply forEach_trace. intros [athanMonth iqamaMonth] d _.
  unfold currentMonthDay.
  destruct (List.find _ records); [repeat constructor |].
  destruct (dayOfWeekMap !! _); [repeat constructor |].
  apply trace_bind_Forall; [repeat constructor | intros _ _].
  unfold first. destruct (records !! 0%nat); repeat constructor.
Qed.

Lemma expandNextMonth_logs records dayOfWeekMap year month :
  Forall isLog (trace (expandNextMonth records dayOfWeekMap year month)).
Proof.
  apply forEach_trace. intros [athanMonth iqamaMonth] d _.
  unfold nextMonthDay.
  destruct (dayOfWeekMap !! _); [repeat constructor |].
  unfold first. destruct (records !! 0%nat); repeat constructor.
Qed.

(** C3 (amended): for a week that is not empty, the table of the current
    month has one row per day 1..daysInMonth, the row of day d being made
    from the record with day number d if there is one, else from the
    pattern of the weekday of the date, else from the first record; the
    table of the next month has one row per day of that month, made from
    the pattern of the weekday if there is one, else from the first
    record. *)
Theorem month_tables_rows r0 rest dayOfWeekMap year month :
  result (expandCurrentMonth (r0 :: rest) dayOfWeekMap year month) =
    inr (tablesFrom (specSource r0 (r0 :: rest) dayOfWeekMap year month) year month) /\
  result (expandNextMonth (r0 :: rest) dayOfWeekMap year month) =
    inr (tablesFrom (patternSource r0 dayOfWeekMap year month) year month) /\
  forall source : Z -> Pattern,
    length (fst (tablesFrom source year month)) = Z.to_nat (daysIn year month) /\
    length (snd (tablesFrom source year month)) = Z.to_nat (daysIn year month) /\
    forall d, 1 <= d <= daysIn year month ->
      fst (tablesFrom source year month) !! Z.to_nat (d - 1) =
        Some (dayRow d (patAthan (source d))) /\
      snd (tablesFrom source year month) !! Z.to_nat (d - 1) =
        Some (dayRow d (patIqama (source d))).
Proof.
  split; [apply expandCurrentMonth_result |].
  split; [apply expandNextMonth_result |].
  intros source. apply tablesFrom_rows.
Qed.

End MonthTables.

(** The calendar: the day before the first of the next month is the last
    day of the month. *)
Lemma calendar_month_lengths :
  forallb (fun ym => snd (civilFromDays (calendarDay (fst ym) (snd ym + 1) 0)) =?
                     monthLength (fst ym) (snd ym)) allMonths = true.
Proof. vm_compute. reflexivity. Qed.

(** In UTC. *)
Section MonthExamples.
#[local] Existing Instance utc.

(** C3 (as stated, for the table of the next month): the record with day
    number 1 exists, yet the row of day 1 of December 2026, a Tuesday, is
    the pattern of the Tuesday record and not that record. *)
Lemma nextMonth_day_number_ignored :
  List.find (fun r => pDayNumber r =? 1) sampleRecords = Some sunday1 /\
  result (expandNextMonth sampleRecords (buildDayOfWeekMap sampleRecords) 2026 11) <>
    inr (tablesFrom
           (specSource sunday1 sampleRecords (buildDayOfWeekMap sampleRecords) 2026 11)
           2026 11) /\
  exists athanNext iqamaNext,
    result (expandNextMonth sampleRecords (buildDayOfWeekMap sampleRecords) 2026 11) =
      inr (athanNext, iqamaNext) /\
    athanNext !! 0%nat = Some (dayRow 1 (athan tuesday3)) /\
    dayRow 1 (athan tuesday3) <> dayRow 1 (athan sunday1).
Proof.
  split; [reflexivity |]. split; [vm_compute; discriminate |].
  eexists _, _. split; [apply (expandNextMonth_result sunday1 [tuesday3]) |].
  split; [vm_compute; reflexivity | vm_compute; discriminate].
Qed.

Example getDay_examples :
  getDay (newDate 1970 0 1) = 4 /\ getDay (newDate 2024 1 29) = 4 /\
  getDay (newDate 2026 10 2) = 1 /\ getDay (newDate 2026 11 1) = 2.
Proof. repeat split. Qed.

Example november2_fields :
  newDate 2026 10 2 = november2 /\
  getFullYear november2 = 2026 /\ getMonth november2 = 10 /\ getDate november2 = 2 /\
  getFullYear (nextMonthDate november2) = 2026 /\ getMonth (nextMonthDate november2) = 11 /\
  getFullYear (nextMonthDate december1) = 2027 /\ getMonth (nextMonthDate december1) = 0.
Proof. repeat split. Qed.

End MonthExamples.

(** ** The whole run *)

Section RunFacts.
Context {zone : TimeZone}.

Lemma csvWrites_app t1 t2 : csvWrites (t1 ++ t2)%list = (csvWrites t1 ++ csvWrites t2)%list.
Proof. apply List.filter_app. Qed.

Lemma csvWrites_logs t : Forall isLog t -> csvWrites t = [].
Proof.
  induction 1 as [| ev t Hev _ IH]; [reflexivity |].
  destruct ev; try contradiction. exact IH.
Qed.

Lemma wellKeyed_csvWrites t : Forall wellKeyed (csvWrites t) -> Forall wellKeyed t.
Proof.
  induction t as [| ev t IH]; [constructor |].
  destruct ev; cbn [csvWrites List.filter isWriteCsv]; intros H;
    try (constructor; [exact I | now apply IH]).
  inversion H; subst. constructor; [assumption | now apply IH].
Qed.

Lemma generateMonthCSVs_run targetMonth targetYear monthData monthName :
  generateMonthCSVs targetMonth targetYear monthData monthName =
  ([WriteCsv athan_times monthName (fst monthData); Log info (SavedAthan monthName);
    WriteCsv iqama_times monthName (snd monthData); Log info (SavedIqama monthName)],
   inr tt).
Proof. reflexivity. Qed.

Lemma first_cons {X Y} (field : X -> Y) fieldName x xs :
  first field fieldName (x :: xs) = ret (field x).
Proof. reflexivity. Qed.

(** No row at all: the guard on [extractedData.length] throws. *)
Lemma extractBody_no_rows today :
  extractBody today [] =
  ([Log info (ExtractedDays 0); WriteRawData []],
   inl (Error "No prayer data found on the page")).
Proof. reflexivity. Qed.

(** Rows, but none with a valid day number: reading
    [processedWeekData[0].athan] for the log throws. *)
Lemma extractBody_all_skipped today day data :
  Forall (fun day => dayNumber day <= 0) (day :: data) ->
  extractBody today (day :: data) =
  (([Log info (ExtractedDays (length (day :: data))); WriteRawData (day :: data);
     Log info ProcessingWeek] ++ (skipped <$> day :: data) ++
    [Log info (ProcessedDays 0)])%list,
   inl (TypeError "Cannot read properties of undefined (reading 'athan')")).
Proof.
  intros H. unfold extractBody, processWeek.
  rewrite forEach_processDay_all_skipped by exact H. reflexivity.
Qed.

Lemma processWeek_all_skipped extractedData :
  Forall (fun day => dayNumber day <= 0) extractedData <->
  result (processWeek extractedData) = inr [].
Proof.
  split.
  - intros H. unfold processWeek. now rewrite forEach_processDay_all_skipped.
  - intros E. destruct (processWeek_records extractedData) as (records & E' & F).
    rewrite E in E'. injection E' as <-. inversion F as [Hnil |].
    apply List.Forall_forall. intros day Hday.
    destruct (Z_le_gt_dec (dayNumber day) 0) as [L | G]; [exact L |].
    exfalso. apply (in_nil (a := day)). rewrite Hnil.
    apply filter_In. split; [exact Hday |]. now apply Z.ltb_lt, Z.gt_lt.
Qed.

Variable today : Date.
Variable extractedData : list ExtractedDay.
Variables (r0 : ProcessedDay) (rest : list ProcessedDay) (records : list ProcessedDay).
Hypothesis Hweek : result (processWeek extractedData) = inr records.
Hypothesis Hsorted : sortByDayNumber records = r0 :: rest.

(** One step of the symbolic execution of the body of the run. *)
Ltac run_step :=
  first
    [ rewrite trace_bind
    | rewrite result_bind
    | rewrite first_cons
    | rewrite expandCurrentMonth_result
    | rewrite expandNextMonth_result
    | rewrite generateMonthCSVs_run
    | progress cbn [result trace fst snd log emit ret length Nat.eqb]
    | progress unfold tablesFrom ].

Lemma week_not_empty : exists r rs, records = r :: rs /\ exists d ds, extractedData = d :: ds.
Proof.
  destruct records as [| r rs]; [discriminate Hsorted |].
  exists r, rs. split; [reflexivity |].
  destruct extractedData as [| d ds]; [discriminate Hweek |]. now exists d, ds.
Qed.

(** The run returns the tables of the current month. *)
Lemma extractBody_result :
  result (extractBody today extractedData) = inr (currentTables today r0 rest).
Proof.
  destruct week_not_empty as (r & rs & Er & d & ds & Ed).
  unfold extractBody. rewrite Ed, Er in *.
  repeat first [rewrite Hweek | rewrite Hsorted | run_step].
  unfold currentTables, tablesFrom.
  reflexivity.
Qed.

(** The run writes four CSV files: the two tables of the current month
    and the two tables of the next month. *)
Lemma extractBody_csvWrites :
  csvWrites (trace (extractBody today extractedData)) =
  [WriteCsv athan_times (getMonth today) (fst (currentTables today r0 rest));
   WriteCsv iqama_times (getMonth today) (snd (currentTables today r0 rest));
   WriteCsv athan_times (getMonth (nextMonthDate today)) (fst (nextTables today r0 rest));
   WriteCsv iqama_times (getMonth (nextMonthDate today)) (snd (nextTables today r0 rest))].
Proof.
  destruct week_not_empty as (r & rs & Er & d & ds & Ed).
  unfold extractBody. rewrite Ed, Er in *.
  repeat first [rewrite Hweek | rewrite Hsorted | run_step].
  rewrite !csvWrites_app.
  rewrite (csvWrites_logs _ (processWeek_logs _)).
  rewrite (csvWrites_logs _ (expandCurrentMonth_logs _ _ _ _)).
  rewrite (csvWrites_logs _ (expandNextMonth_logs _ _ _ _)).
  cbn [csvWrites List.filter isWriteCsv app].
  unfold nextTables, currentTables, tablesFrom, nextMonthDate.
  cbn [fst snd]. reflexivity.
Qed.

End RunFacts.

Section ScriptFacts.
Context {zone : TimeZone}.
Variable today : Date.
Variable extractedData : list ExtractedDay.

Lemma result_extractPrayerTimes :
  result (extractPrayerTimes today extractedData) = result (extractBody today extractedData).
Proof.
  unfold extractPrayerTimes.
  destruct (extractBody today extractedData) as [t [e | v]]; reflexivity.
Qed.

Lemma trace_extractPrayerTimes :
  trace (extractPrayerTimes today extractedData) =
  (trace (extractBody today extractedData) ++
   match result (extractBody today extractedData) with
   | inl e => [Log error (ErrorDuringExtraction e); Log error (StackTrace e);
               CloseBrowser; Log info BrowserClosed]
   | inr _ => [CloseBrowser; Log info BrowserClosed]
   end)%list.
Proof.
  unfold extractPrayerTimes.
  destruct (extractBody today extractedData) as [t [e | v]]; reflexivity.
Qed.

Lemma script_trace :
  script today extractedData =
  (trace (extractBody today extractedData) ++
   match result (extractBody today extractedData) with
   | inl e => failure e
   | inr _ => [CloseBrowser; Log info BrowserClosed; Log info ScriptCompleted; Exit 0]
   end)%list.
Proof.
  unfold script, extractPrayerTimes.
  destruct (extractBody today extractedData) as [t [e | v]];
    cbn [trace result fst snd]; now rewrite <- app_assoc.
Qed.

Lemma csvWrites_script :
  csvWrites (script today extractedData) =
  csvWrites (trace (extractBody today extractedData)).
Proof.
  rewrite script_trace, csvWrites_app.
  generalize (trace (extractBody today extractedData)). intros t.
  destruct (result (extractBody today extractedData));
    cbn [csvWrites List.filter isWriteCsv failure]; apply app_nil_r.
Qed.

(** A week without a valid row: what the script does, event by event. *)
Lemma script_empty_week :
  result (processWeek extractedData) = inr [] ->
  exists e,
    result (extractPrayerTimes today extractedData) = inl e /\
    script today extractedData =
    ([Log info (ExtractedDays (length extractedData)); WriteRawData extractedData] ++
     match extractedData with
     | [] => []
     | _ :: _ => Log info ProcessingWeek ::
                 (skipped <$> extractedData) ++ [Log info (ProcessedDays 0)]
     end ++ failure e)%list.
Proof.
  intros H%processWeek_all_skipped.
  rewrite result_extractPrayerTimes, script_trace.
  destruct extractedData as [| day data].
  - rewrite extractBody_no_rows. eexists. split; reflexivity.
  - rewrite (extractBody_all_skipped _ _ _ H). eexists. split; [reflexivity |].
    cbn [trace result fst snd app]. reflexivity.
Qed.

Lemma empty_week_run_writes_nothing :
  result (processWeek extractedData) = inr [] ->
  csvWrites (script today extractedData) = [].
Proof.
  intros H. destruct (script_empty_week H) as (e & _ & Hs).
  rewrite Hs, !csvWrites_app.
  destruct extractedData as [| day data]; [reflexivity |].
  change (csvWrites (Log info ProcessingWeek ::
            (skipped <$> day :: data) ++ [Log info (ProcessedDays 0)]))
    with (csvWrites ((skipped <$> day :: data) ++ [Log info (ProcessedDays 0)])).
  rewrite csvWrites_app, (csvWrites_logs (skipped <$> day :: data)); [reflexivity |].
  apply Forall_fmap, List.Forall_forall. intros x _. exact I.
Qed.

(** A week with a valid row: the run returns and the script exits
    with 0. *)
Lemma script_week records :
  result (processWeek extractedData) = inr records -> records <> [] ->
  exists r0 rest,
    sortByDayNumber records = r0 :: rest /\
    result (extractPrayerTimes today extractedData) = inr (currentTables today r0 rest) /\
    last (script today extractedData) = Some (Exit 0).
Proof.
  intros Hweek Hne.
  destruct (sortByDayNumber records) as [| r0 rest] eqn:Hsorted.
  { now apply sortByDayNumber_nonempty in Hsorted. }
  exists r0, rest. split; [reflexivity |].
  pose proof (extractBody_result today extractedData r0 rest records Hweek Hsorted) as E.
  rewrite result_extractPrayerTimes, script_trace, E.
  split; [reflexivity |].
  rewrite last_app. reflexivity.
Qed.

(** A week with a valid row: the script writes the two tables of the
    current month, then the two tables of the next month. *)
Lemma script_csvWrites records r0 rest :
  result (processWeek extractedData) = inr records ->
  sortByDayNumber records = r0 :: rest ->
  csvWrites (script today extractedData) =
  [WriteCsv athan_times (getMonth today) (fst (currentTables today r0 rest));
   WriteCsv iqama_times (getMonth today) (snd (currentTables today r0 rest));
   WriteCsv athan_times (getMonth (nextMonthDate today)) (fst (nextTables today r0 rest));
   WriteCsv iqama_times (getMonth (nextMonthDate today)) (snd (nextTables today r0 rest))].
Proof.
  intros Hweek Hsorted. rewrite csvWrites_script.
  now apply (extractBody_csvWrites today extractedData r0 rest records).
Qed.

End ScriptFacts.

(** C2: when no row survives the filter on the day number, that is when
    the processed week is empty, the run throws, the script logs the error
    and exits with 1 having written the raw data only: nothing of the month
    expansion is logged and no CSV file is written.  This is the only case
    in which the run throws: with one valid row it returns its tables and
    the script exits with 0. *)
Theorem empty_week_aborts {zone : TimeZone} today extractedData :
  (Forall (fun day => dayNumber day <= 0) extractedData <->
   result (processWeek extractedData) = inr []) /\
  (throws (extractPrayerTimes today extractedData) <->
   result (processWeek extractedData) = inr []) /\
  (result (processWeek extractedData) = inr [] ->
   exists e,
     result (extractPrayerTimes today extractedData) = inl e /\
     script today extractedData =
     ([Log info (ExtractedDays (length extractedData)); WriteRawData extractedData] ++
      match extractedData with
      | [] => []
      | _ :: _ => Log info ProcessingWeek ::
                  (skipped <$> extractedData) ++ [Log info (ProcessedDays 0)]
      end ++ failure e)%list /\
     csvWrites (script today extractedData) = []) /\
  (forall records,
     result (processWeek extractedData) = inr records -> records <> [] ->
     returns (extractPrayerTimes today extractedData) /\
     last (script today extractedData) = Some (Exit 0)).
Proof.
  split; [apply processWeek_all_skipped |]. split; [| split].
  - split.
    + intros [e He].
      destruct (processWeek_records extractedData) as (records & E & _).
      destruct records as [| r rs]; [exact E |].
      destruct (script_week today extractedData (r :: rs) E) as (? & ? & _ & R & _);
        [discriminate |].
      rewrite R in He. discriminate.
    + intros H. destruct (script_empty_week today extractedData H) as (e & He & _).
      now exists e.
  - intros H. destruct (script_empty_week today extractedData H) as (e & He & Hs).
    exists e. split; [exact He |]. split; [exact Hs |].
    now apply empty_week_run_writes_nothing.
  - intros records E Hne.
    destruct (script_week today extractedData records E Hne) as (r0 & rest & _ & R & L).
    split; [eexists; exact R | exact L].
Qed.

(** In UTC. *)
Section EmptyWeekExamples.
#[local] Existing Instance utc.

Example empty_week_examples :
  script november2 [] =
    ([Log info (ExtractedDays 0); WriteRawData []] ++
     failure (Error "No prayer data found on the page"))%list /\
  last (script november2 sampleWeek) = Some (Exit 0) /\
  length (csvWrites (script november2 sampleWeek)) = 4%nat.
Proof. repeat split; vm_compute; reflexivity. Qed.

End EmptyWeekExamples.

(** ** Keys of the output rows *)

Section KeyFacts.
Context {zone : TimeZone}.

Lemma hasOwnProperty_keys {V} (o : obj V) k :
  hasOwnProperty o k = existsb (fun k' => String.eqb k' k) (keys o).
Proof.
  unfold hasOwnProperty, keys.
  induction o as [| [k' v'] o IH]; simpl; [reflexivity |]. now rewrite IH.
Qed.

Lemma tablesFrom_keys source year month :
  (forall d, patternKeys (source d)) ->
  Forall (fun r => keys r = athanColumns) (fst (tablesFrom source year month)) /\
  Forall (fun r => keys r = iqamaColumns) (snd (tablesFrom source year month)).
Proof.
  intros H. unfold tablesFrom. cbn [fst snd].
  split; apply Forall_fmap, List.Forall_forall; intros d _; cbn.
  - apply keys_dayRow_athan, H.
  - apply keys_dayRow_iqama, H.
Qed.

Lemma processWeek_keys extractedData records :
  result (processWeek extractedData) = inr records -> Forall recordKeys records.
Proof.
  intros E. destruct (processWeek_records extractedData) as (records' & E' & F).
  rewrite E in E'. injection E' as <-.
  apply List.Forall_forall. intros r Hr.
  destruct (Forall2_In_r _ _ _ _ F Hr) as (day & _ & Hrec).
  now apply recordOf_valid in Hrec.
Qed.

Variables (r0 : ProcessedDay) (records mapped : list ProcessedDay).
Hypothesis Hr0 : recordKeys r0.
Hypothesis Hrecords : Forall recordKeys records.
Hypothesis Hmapped : Forall recordKeys mapped.

Lemma patternSource_keys year month d :
  patternKeys (patternSource r0 (buildDayOfWeekMap mapped) year month d).
Proof.
  unfold patternSource.
  destruct (buildDayOfWeekMap mapped !! _) as [pattern |] eqn:E; [| exact Hr0].
  apply buildDayOfWeekMap_lookup in E as (r & Hr & _ & _ & ->).
  now apply (proj1 (List.Forall_forall _ _) Hmapped).
Qed.

Lemma specSource_keys year month d :
  patternKeys (specSource r0 records (buildDayOfWeekMap mapped) year month d).
Proof.
  unfold specSource.
  destruct (List.find _ records) as [r |] eqn:E.
  - apply find_some in E as [Hr _].
    now apply (proj1 (List.Forall_forall _ _) Hrecords).
  - apply patternSource_keys.
Qed.

End KeyFacts.

(** ** The clock and the time zone *)

Section Clock.
Context {zone : TimeZone}.

Lemma forEach_ext {A S} (f g : S -> A -> M S) l :
  (forall s x, In x l -> f s x = g s x) ->
  forall s, forEach f s l = forEach g s l.
Proof.
  induction l as [| x l IH]; intros H s; [reflexivity |].
  cbn [forEach]. rewrite (H s x) by now left.
  destruct (g s x) as [t [e | s']]; [reflexivity |].
  cbn [bind]. rewrite IH; [reflexivity |]. intros s0 y Hy. apply H. now right.
Qed.

Lemma extractBody_same_month today1 today2 extractedData :
  getFullYear today1 = getFullYear today2 ->
  getMonth today1 = getMonth today2 ->
  extractBody today1 extractedData = extractBody today2 extractedData.
Proof. intros Hy Hm. unfold extractBody. now rewrite Hy, Hm. Qed.

(** The zone enters the expansion through the number of days and the
    weekdays of the month. *)
Lemma expandCurrentMonth_zones (zone1 zone2 : TimeZone) records dayOfWeekMap year month :
  daysIn (zone := zone1) year month = daysIn (zone := zone2) year month ->
  (forall d, 1 <= d <= daysIn (zone := zone2) year month ->
     getDay (zone := zone1) (newDate (zone := zone1) year month d) =
     getDay (zone := zone2) (newDate (zone := zone2) year month d)) ->
  expandCurrentMonth (zone := zone1) records dayOfWeekMap year month =
  expandCurrentMonth (zone := zone2) records dayOfWeekMap year month.
Proof.
  intros Hdays Hday.
  unfold expandCurrentMonth. rewrite Hdays. apply forEach_ext.
  intros [athanMonth iqamaMonth] d Hd.
  assert (Hrange : 1 <= d <= daysIn (zone := zone2) year month).
  { revert Hd. unfold days. generalize (daysIn (zone := zone2) year month).
    intros n Hd. apply list_elem_of_In, elem_of_seqZ in Hd. lia. }
  unfold currentMonthDay. rewrite (Hday d Hrange). reflexivity.
Qed.

(** C8 (amended): in a given time zone, the month tables depend on the
    time of the run through the year and the month only: two runs on the
    same rows at two times of the same month perform the same expansion,
    return the same tables and write the same files, as does the whole
    script whatever the browser does, and the table of the
    current month is the one that the records, the day-of-week map, the
    year and the month determine row by row.  The time zone enters through
    the number of days and the weekdays that [Date] gives for the month:
    in two zones that agree on these the expansion is the same. *)
Theorem run_depends_on_month_and_zone today1 today2 extractedData :
  getFullYear today1 = getFullYear today2 ->
  getMonth today1 = getMonth today2 ->
  (forall records dayOfWeekMap,
     expandCurrentMonth records dayOfWeekMap (getFullYear today1) (getMonth today1) =
     expandCurrentMonth records dayOfWeekMap (getFullYear today2) (getMonth today2)) /\
  (forall r0 rest dayOfWeekMap,
     result (expandCurrentMonth (r0 :: rest) dayOfWeekMap
               (getFullYear today1) (getMonth today1)) =
     inr (tablesFrom
            (specSource r0 (r0 :: rest) dayOfWeekMap (getFullYear today2) (getMonth today2))
            (getFullYear today2) (getMonth today2))) /\
  extractPrayerTimes today1 extractedData = extractPrayerTimes today2 extractedData /\
  script today1 extractedData = script today2 extractedData /\
  (forall outputDirExists browser,
     main today1 outputDirExists browser = main today2 outputDirExists browser) /\
  (forall (other : TimeZone) records dayOfWeekMap year month,
     daysIn (zone := other) year month = daysIn (zone := zone) year month ->
     (forall d, 1 <= d <= daysIn (zone := zone) year month ->
        getDay (zone := other) (newDate (zone := other) year month d) =
        getDay (zone := zone) (newDate (zone := zone) year month d)) ->
     expandCurrentMonth (zone := other) records dayOfWeekMap year month =
     expandCurrentMonth (zone := zone) records dayOfWeekMap year month).
Proof.
  intros Hy Hm.
  pose proof (extractBody_same_month today1 today2 extractedData Hy Hm) as E.
  split; [intros; now rewrite Hy, Hm |].
  split; [intros; rewrite Hy, Hm; apply expandCurrentMonth_result |].
  split; [unfold extractPrayerTimes; now rewrite E |].
  split; [unfold script, extractPrayerTimes; now rewrite E |].
  split.
  - intros outputDirExists browser. unfold main, run.
    destruct (scrape browser) as [t [e | rows]]; [reflexivity |].
    cbn [bind]. now rewrite (extractBody_same_month today1 today2 rows Hy Hm).
  - intros other records dayOfWeekMap year month. apply expandCurrentMonth_zones.
Qed.

End Clock.

Section ClockExamples.

Lemma run_depends_on_month_and_zone_witness :
  extractPrayerTimes (zone := utc) november2 sampleWeek =
    extractPrayerTimes (zone := utc) november13 sampleWeek /\
  script (zone := utc) november2 sampleWeek = script (zone := utc) november13 sampleWeek.
Proof.
  destruct (run_depends_on_month_and_zone (zone := utc) november2 november13 sampleWeek
              eq_refl eq_refl) as (_ & _ & He & Hs & _ & _).
  split; [exact He | exact Hs].
Defined.

(** C8 (as stated): the time zone of the process is a hidden input of the
    expansion.  On the same records, the same map and the same month,
    December 2011, the row of day 30 is the pattern of the Friday in UTC
    and the pattern of the Saturday in the zone of Apia, where
    [new Date(2011, 11, 30)] is 31 December; so are the tables that two
    runs at the same time on the same rows return. *)
Lemma month_table_depends_on_time_zone :
  (getFullYear (zone := utc) december2011 = 2011 /\
   getMonth (zone := utc) december2011 = 11 /\
   getFullYear (zone := apia2011) december2011 = 2011 /\
   getMonth (zone := apia2011) december2011 = 11) /\
  (getDay (zone := utc) (newDate (zone := utc) 2011 11 30) = 5 /\
   getDay (zone := apia2011) (newDate (zone := apia2011) 2011 11 30) = 6 /\
   getDate (zone := apia2011) (newDate (zone := apia2011) 2011 11 30) = 31) /\
  (exists athanUTC iqamaUTC athanApia iqamaApia,
     result (expandCurrentMonth (zone := utc) weekend (buildDayOfWeekMap weekend) 2011 11) =
       inr (athanUTC, iqamaUTC) /\
     result (expandCurrentMonth (zone := apia2011) weekend (buildDayOfWeekMap weekend)
               2011 11) = inr (athanApia, iqamaApia) /\
     athanUTC !! 29%nat = Some (dayRow 30 (athan friday2)) /\
     athanApia !! 29%nat = Some (dayRow 30 (athan saturday3)) /\
     dayRow 30 (athan friday2) <> dayRow 30 (athan saturday3)) /\
  result (extractPrayerTimes (zone := utc) december2011 weekendRows) <>
  result (extractPrayerTimes (zone := apia2011) december2011 weekendRows).
Proof.
  split; [repeat split |]. split; [repeat split |]. split.
  - eexists _, _, _, _.
    split; [apply (expandCurrentMonth_result (zone := utc) friday2 [saturday3]) |].
    split; [apply (expandCurrentMonth_result (zone := apia2011) friday2 [saturday3]) |].
    split; [vm_compute; reflexivity |]. split; [vm_compute; reflexivity |].
    vm_compute. discriminate.
  - vm_compute. discriminate.
Qed.

#[local] Existing Instance utc.

(** The month does matter: December has one row more than November. *)
Example run_in_another_month :
  match result (extractPrayerTimes november2 sampleWeek) with
  | inr (athanMonth, _) => length athanMonth = 30%nat
  | inl _ => False
  end /\
  match result (extractPrayerTimes december1 sampleWeek) with
  | inr (athanMonth, _) => length athanMonth = 31%nat
  | inl _ => False
  end.
Proof. split; vm_compute; reflexivity. Qed.

(** The end-to-end scenario of the specification. *)
Example scenario_rows :
  exists athanMonth iqamaMonth,
    result (extractPrayerTimes november2 scenario) = inr (athanMonth, iqamaMonth) /\
    athanMonth !! 0%nat =
      Some [("day", VNum 1); ("Fajr", VStr "05:30"); ("Sunrise", VStr "");
            ("Dhuhr", VStr "13:15"); ("Asr", VStr ""); ("Maghrib", VStr "");
            ("Isha", VStr "")] /\
    iqamaMonth !! 0%nat =
      Some [("day", VNum 1); ("Fajr", VStr "05:45"); ("Dhuhr", VStr "13:30");
            ("Asr", VStr ""); ("Maghrib", VStr ""); ("Isha", VStr "")].
Proof.
  destruct (result (extractPrayerTimes november2 scenario)) as [e | [a i]] eqn:E;
    vm_compute in E; [discriminate E |].
  exists a, i. injection E as <- <-. repeat split.
Qed.

End ClockExamples.

(** The sample week, with its misspelt "Magrib" and its two listed times,
    as the processing stores it. *)
Example sampleWeek_processed :
  exists tuesday sunday,
    result (processWeek sampleWeek) = inr [tuesday; sunday] /\
    getProp (athan tuesday) "Maghrib" = Some "17:10" /\
    getProp (athan sunday) "Fajr" = Some "05:00" /\
    sortByDayNumber [tuesday; sunday] = [sunday; tuesday].
Proof. eexists _, _. repeat split. Qed.

(** * Further properties *)

(** ** The normaliser on the other names and the shape of its result *)

Section NormaliserMore.

(** X1: for a raw time "H:MM" of two numerals and the names Dhuhr, Asr,
    Magrib and Isha, the hour H becomes H + 12, and 12 stays 12, as long
    as H + 12 and MM are at most 2^53, the range in which a number holds
    every integer. *)
Theorem afternoon_numerals H MM prayerName :
  numeral H = true -> numeral MM = true ->
  decimalValue 0 H + 12 <= 2 ^ 53 -> decimalValue 0 MM <= 2 ^ 53 ->
  In prayerName ["Dhuhr"; "Asr"; "Magrib"; "Isha"] ->
  result (convertTo24Hour (H ++ ":" ++ MM) prayerName) =
  inr (clock (Num (if decimalValue 0 H =? 12 then 12 else decimalValue 0 H + 12))
             (Num (decimalValue 0 MM))).
Proof.
  intros HH HM BH BM Hp. apply convertTo24Hour_afternoon_HMM; try assumption.
  destruct Hp as [<- | [<- | [<- | [<- | []]]]]; tauto.
Qed.

Lemma afternoon_numerals_witness :
  result (convertTo24Hour ("7" ++ ":" ++ "45") "Asr") = inr "19:45" /\
  result (convertTo24Hour ("12" ++ ":" ++ "05") "Dhuhr") = inr "12:05".
Proof.
  split.
  - apply (afternoon_numerals "7" "45" "Asr");
      [reflexivity | reflexivity | apply Z.leb_le; reflexivity
      | apply Z.leb_le; reflexivity |].
    right. now left.
  - apply (afternoon_numerals "12" "05" "Dhuhr");
      [reflexivity | reflexivity | apply Z.leb_le; reflexivity
      | apply Z.leb_le; reflexivity |].
    now left.
Defined.

(** X2: for a prayer name that is none of the six names the normaliser
    tests for, the parsed hour is formatted without any shift. *)
Theorem untested_name_not_shifted timeStr prayerName :
  trim timeStr <> "" ->
  existsb (String.eqb prayerName) testedNames = false ->
  result (convertTo24Hour timeStr prayerName) =
  inr (clock (parsedHours timeStr) (parsedMinutes timeStr)).
Proof.
  intros Ht Hn. rewrite (convertTo24Hour_nonblank _ _ Ht).
  cbn [existsb testedNames] in Hn.
  repeat (apply orb_false_elim in Hn as [? Hn]).
  repeat match goal with
         | E : String.eqb _ _ = false |- _ => rewrite E; clear E
         end.
  reflexivity.
Qed.

Lemma untested_name_not_shifted_witness :
  result (convertTo24Hour "1:30" "Jumuah") = inr "01:30" /\
  result (convertTo24Hour "7:15" "isha") = inr "07:15".
Proof.
  split.
  - apply (untested_name_not_shifted "1:30" "Jumuah"); [discriminate | reflexivity].
  - apply (untested_name_not_shifted "7:15" "isha"); [discriminate | reflexivity].
Defined.

Lemma twoDigitNumbers_checked :
  forallb (fun k => isTwoDigits (padStart 2 "0" (toString (Num k)))) twoDigitNumbers = true.
Proof. vm_compute. reflexivity. Qed.

Lemma two_digits k :
  0 <= k <= 99 -> isTwoDigits (padStart 2 "0" (toString (Num k))) = true.
Proof.
  intros Hk.
  apply (proj1 (forallb_forall _ _) twoDigitNumbers_checked k).
  apply list_elem_of_In, elem_of_seqZ. lia.
Qed.

Lemma clock_two_digits h m :
  0 <= h <= 99 -> 0 <= m <= 99 -> isHHMM (clock (Num h) (Num m)) = true.
Proof.
  intros Hh Hm. unfold clock.
  pose proof (two_digits h Hh) as Ph. pose proof (two_digits m Hm) as Pm.
  destruct (padStart 2 "0" (toString (Num h))) as [| a [| b [| ? ?]]]; try discriminate.
  destruct (padStart 2 "0" (toString (Num m))) as [| c [| d [| ? ?]]]; try discriminate.
  cbn [isTwoDigits] in Ph, Pm.
  apply andb_prop in Ph as [Pa Pb]. apply andb_prop in Pm as [Pc Pd].
  change (isHHMM (String a (String b (String ":" (String c (String d "")))))  = true).
  cbn [isHHMM]. now rewrite Pa, Pb, Pc, Pd.
Qed.

(** X3: when the first listed time parses to an hour 0..12 and a minute
    0..59, the result has the shape HH:MM with an hour 0..23 and the
    parsed minute, whatever the prayer name. *)
Theorem normalised_shape timeStr prayerName h m :
  trim timeStr <> "" ->
  parsedHours timeStr = Num h -> parsedMinutes timeStr = Num m ->
  0 <= h <= 12 -> 0 <= m <= 59 ->
  exists h',
    result (convertTo24Hour timeStr prayerName) = inr (clock (Num h') (Num m)) /\
    0 <= h' <= 23 /\
    isHHMM (clock (Num h') (Num m)) = true.
Proof.
  intros Ht Hh Hm Rh Rm. rewrite (convertTo24Hour_nonblank _ _ Ht), Hh, Hm.
  cbn [strictEq add]. rewrite (toDouble_safe (h + 12)) by (rewrite Z.abs_eq; lia).
  assert (G : forall h', 0 <= h' <= 23 ->
            exists x, inr (clock (Num h') (Num m)) =
                      (inr (clock (Num x) (Num m)) : exn + string) /\
                      0 <= x <= 23 /\ isHHMM (clock (Num x) (Num m)) = true).
  { intros h' R. exists h'. split; [reflexivity |]. split; [exact R |].
    apply clock_two_digits; lia. }
  destruct (String.eqb prayerName "Fajr" || String.eqb prayerName "Sunrise");
    [destruct (Z.eqb_spec h 12); apply G; lia |].
  destruct (String.eqb prayerName "Dhuhr" || String.eqb prayerName "Asr");
    [destruct (Z.eqb_spec h 12); cbn [negb]; apply G; lia |].
  destruct (String.eqb prayerName "Magrib" || String.eqb prayerName "Isha");
    [destruct (Z.eqb_spec h 12); cbn [negb]; apply G; lia |].
  apply G; lia.
Qed.

Lemma normalised_shape_witness :
  exists h',
    result (convertTo24Hour " 11:59 pm" "Isha") = inr (clock (Num h') (Num 59)) /\
    0 <= h' <= 23 /\
    isHHMM (clock (Num h') (Num 59)) = true.
Proof.
  apply (normalised_shape " 11:59 pm" "Isha" 11 59);
    [discriminate | reflexivity | reflexivity | lia | lia].
Defined.

End NormaliserMore.

(** ** The prayers of a row *)

Section PrayersMore.

Lemma getProp_setProp_other {V} (o : obj V) k' k v :
  getProp (setProp o k' v) k = if String.eqb k' k then Some v else getProp o k.
Proof.
  induction o as [| [k0 v0] o IH]; cbn [setProp getProp].
  - reflexivity.
  - destruct (String.eqb_spec k0 k') as [-> | N]; cbn [getProp].
    + destruct (String.eqb k' k); reflexivity.
    + rewrite IH.
      destruct (String.eqb_spec k0 k) as [-> | N0]; [| reflexivity].
      destruct (String.eqb_spec k' k); [congruence | reflexivity].
Qed.

(** The keys of the iqama row are those of the athan row but Sunrise. *)
Lemma athan_key_of_iqama k :
  hasOwnProperty athanRow0 k = true -> k <> "Sunrise" ->
  hasOwnProperty iqamaRow0 k = true.
Proof.
  unfold hasOwnProperty. cbn [existsb athanRow0 iqamaRow0 fst]. intros H N.
  destruct (String.eqb_spec "Sunrise" k) as [E | E]; [congruence |].
  destruct (String.eqb "Fajr" k); [reflexivity | exact H].
Qed.

Lemma no_athan_key_no_iqama k :
  hasOwnProperty athanRow0 k = false -> hasOwnProperty iqamaRow0 k = false.
Proof.
  unfold hasOwnProperty. cbn [existsb athanRow0 iqamaRow0 fst]. intros H.
  apply orb_false_elim in H as [-> H]. apply orb_false_elim in H as [_ H].
  exact H.
Qed.

Lemma hasOwnProperty_rowKeys rows k :
  rowKeys rows ->
  hasOwnProperty (fst rows) k = hasOwnProperty athanRow0 k /\
  hasOwnProperty (snd rows) k = hasOwnProperty iqamaRow0 k.
Proof.
  intros [Ka Ki]. now rewrite !hasOwnProperty_keys, Ka, Ki.
Qed.

(** The rows after one entry, key by key. *)
Lemma processPrayer_lookup rows name times :
  rowKeys rows ->
  exists rows' start24 iqamah24,
    result (processPrayer rows (name, times)) = inr rows' /\ rowKeys rows' /\
    result (convertTo24Hour (start times) name) = inr start24 /\
    result (convertTo24Hour (iqamah times) name) = inr iqamah24 /\
    forall k,
      getProp (fst rows') k =
        (if hasOwnProperty athanRow0 (correctedName name) &&
            String.eqb (correctedName name) k
         then Some start24 else getProp (fst rows) k) /\
      getProp (snd rows') k =
        (if hasOwnProperty iqamaRow0 (correctedName name) &&
            negb (String.eqb (correctedName name) "Sunrise") &&
            String.eqb (correctedName name) k
         then Some iqamah24 else getProp (snd rows) k).
Proof.
  intros K. destruct (processPrayer_keys rows (name, times) K) as (rows' & E & K').
  destruct (hasOwnProperty_rowKeys rows (correctedName name) K) as [Ha Hi].
  destruct rows as [athanRow iqamaRow]. cbn [fst snd] in Ha, Hi.
  destruct (convertTo24Hour_returns (start times) name) as [start24 Es].
  destruct (convertTo24Hour_returns (iqamah times) name) as [iqamah24 Ei].
  exists rows', start24, iqamah24.
  split; [exact E |]. split; [exact K' |]. split; [exact Es |]. split; [exact Ei |].
  unfold processPrayer in E. rewrite result_bind, Es, result_bind, Ei in E.
  fold (correctedName name) in E. rewrite Ha, Hi in E.
  cbn [result snd ret] in E. apply (inj inr) in E. subst rows'. cbn [fst snd].
  intros k. split.
  - destruct (hasOwnProperty athanRow0 (correctedName name)); [| reflexivity].
    apply getProp_setProp_other.
  - destruct (hasOwnProperty iqamaRow0 (correctedName name) &&
              negb (String.eqb (correctedName name) "Sunrise")); [| reflexivity].
    apply getProp_setProp_other.
Qed.

Lemma forEach_app_result {A S} (f : S -> A -> M S) l1 l2 : forall s,
  result (forEach f s (l1 ++ l2)%list) =
  match result (forEach f s l1) with
  | inl e => inl e
  | inr s' => result (forEach f s' l2)
  end.
Proof.
  induction l1 as [| x l1 IH]; intros s; [reflexivity |].
  cbn [app]. rewrite !forEach_cons, !result_bind.
  destruct (result (f s x)); [reflexivity | apply IH].
Qed.

(** Entries stored under other keys leave the value of a key. *)
Lemma processPrayers_other entries k : forall rows,
  rowKeys rows ->
  (forall e, In e entries -> correctedName (fst e) <> k) ->
  exists rows',
    result (forEach processPrayer rows entries) = inr rows' /\ rowKeys rows' /\
    getProp (fst rows') k = getProp (fst rows) k /\
    getProp (snd rows') k = getProp (snd rows) k.
Proof.
  induction entries as [| [name times] entries IH]; intros rows K Hno.
  - exists rows. repeat split; apply K.
  - destruct (processPrayer_lookup rows name times K)
      as (rows1 & s24 & i24 & E1 & K1 & _ & _ & L).
    destruct (IH rows1 K1) as (rows' & E' & K' & La & Li).
    { intros e He. apply Hno. now right. }
    exists rows'. rewrite forEach_cons, result_bind, E1.
    split; [exact E' |]. split; [exact K' |].
    assert (N : String.eqb (correctedName name) k = false).
    { apply String.eqb_neq. apply (Hno (name, times)). now left. }
    destruct (L k) as [L1 L2]. rewrite N, !andb_false_r in L1, L2.
    split; congruence.
Qed.

Lemma recordOf_rows day r :
  recordOf day r ->
  exists rows,
    result (forEach processPrayer (athanRow0, iqamaRow0) (prayers day)) = inr rows /\
    athan r = fst rows /\ iqama r = snd rows.
Proof.
  intros H. destruct (recordOf_valid day r H) as (Hpos & _).
  unfold recordOf, processDay in H.
  destruct (Z.leb_spec (dayNumber day) 0); [lia |].
  destruct (processPrayers_keys (prayers day)) as ([athanRow iqamaRow] & E & _).
  rewrite result_bind, E in H. cbn in H. apply (inj inr) in H.
  injection H as <-. exists (athanRow, iqamaRow). now split.
Qed.

(** X4: the last entry of a row that is stored under a key of the athan
    row decides the value of that key: the record holds its normalised
    start time, and, unless the key is Sunrise, its normalised iqamah time;
    the times are normalised under the name as scraped. *)
Theorem last_prayer_entry_wins day r before name times after :
  recordOf day r ->
  prayers day = (before ++ (name, times) :: after)%list ->
  hasOwnProperty athanRow0 (correctedName name) = true ->
  (forall e, In e after -> correctedName (fst e) <> correctedName name) ->
  exists start24 iqamah24,
    result (convertTo24Hour (start times) name) = inr start24 /\
    result (convertTo24Hour (iqamah times) name) = inr iqamah24 /\
    getProp (athan r) (correctedName name) = Some start24 /\
    (correctedName name <> "Sunrise" ->
     getProp (iqama r) (correctedName name) = Some iqamah24).
Proof.
  intros Hr Hp Hk Hafter.
  destruct (recordOf_rows day r Hr) as (rows & E & -> & ->).
  rewrite Hp, forEach_app_result in E.
  destruct (forEach_returns processPrayer rowKeys before) with (s := (athanRow0, iqamaRow0))
    as (rows0 & E0 & K0); [intros; now apply processPrayer_keys | exact rowKeys_initial |].
  rewrite E0, forEach_cons, result_bind in E.
  destruct (processPrayer_lookup rows0 name times K0)
    as (rows1 & start24 & iqamah24 & E1 & K1 & Es & Ei & L).
  rewrite E1 in E.
  destruct (processPrayers_other after (correctedName name) rows1 K1 Hafter)
    as (rows' & E' & _ & La & Li).
  rewrite E' in E. apply (inj inr) in E. subst rows'.
  exists start24, iqamah24. split; [exact Es |]. split; [exact Ei |].
  destruct (L (correctedName name)) as [L1 L2].
  rewrite Hk, String.eqb_refl in L1. cbn [andb] in L1.
  split; [congruence |].
  intros Hs. rewrite Li, L2.
  pose proof (athan_key_of_iqama _ Hk Hs) as Hi.
  rewrite Hi, String.eqb_refl.
  apply String.eqb_neq in Hs. now rewrite Hs.
Qed.

Lemma last_prayer_entry_wins_witness :
  exists start24 iqamah24,
    result (convertTo24Hour "5:11" "Maghrib") = inr start24 /\
    result (convertTo24Hour "5:16" "Maghrib") = inr iqamah24 /\
    getProp
      (athan {| pDayNumber := 3; pDayOfWeek := 2; pIsToday := false;
                athan := setProp athanRow0 "Maghrib" "05:11";
                iqama := setProp iqamaRow0 "Maghrib" "05:16" |})
      (correctedName "Maghrib") = Some start24 /\
    (correctedName "Maghrib" <> "Sunrise" ->
     getProp
       (iqama {| pDayNumber := 3; pDayOfWeek := 2; pIsToday := false;
                 athan := setProp athanRow0 "Maghrib" "05:11";
                 iqama := setProp iqamaRow0 "Maghrib" "05:16" |})
       (correctedName "Maghrib") = Some iqamah24).
Proof.
  apply (last_prayer_entry_wins
           {| date := "3 Tue"; dayNumber := 3; dayOfWeek := 2; isToday := false;
              prayers := [("Magrib", {| start := "5:10"; iqamah := "5:15" |});
                          ("Maghrib", {| start := "5:11"; iqamah := "5:16" |})] |}
           _ [("Magrib", {| start := "5:10"; iqamah := "5:15" |})]
           "Maghrib" {| start := "5:11"; iqamah := "5:16" |} []).
  - reflexivity.
  - reflexivity.
  - reflexivity.
  - intros e [].
Defined.

(** X5: a key under which no entry of the row is stored keeps the value of
    the initial rows: the empty string for the prayers of the table, and
    no other key is ever added. *)
Theorem missing_prayer_stays_empty day r k :
  recordOf day r ->
  (forall e, In e (prayers day) -> correctedName (fst e) <> k) ->
  getProp (athan r) k = getProp athanRow0 k /\
  getProp (iqama r) k = getProp iqamaRow0 k.
Proof.
  intros Hr Hno. destruct (recordOf_rows day r Hr) as (rows & E & -> & ->).
  destruct (processPrayers_other (prayers day) k _ rowKeys_initial Hno)
    as (rows' & E' & _ & La & Li).
  rewrite E' in E. apply (inj inr) in E. now subst rows'.
Qed.

Lemma missing_prayer_stays_empty_witness :
  getProp
    (athan {| pDayNumber := 1; pDayOfWeek := 1; pIsToday := false;
              athan := setProp athanRow0 "Fajr" "05:30";
              iqama := setProp iqamaRow0 "Fajr" "05:45" |}) "Isha" = Some "" /\
  getProp
    (iqama {| pDayNumber := 1; pDayOfWeek := 1; pIsToday := false;
              athan := setProp athanRow0 "Fajr" "05:30";
              iqama := setProp iqamaRow0 "Fajr" "05:45" |}) "Isha" = Some "".
Proof.
  apply (missing_prayer_stays_empty
           {| date := "1 Mon"; dayNumber := 1; dayOfWeek := 1; isToday := false;
              prayers := [("Fajr", {| start := "5:30"; iqamah := "5:45" |})] |}).
  - reflexivity.
  - intros e [<- | []]. discriminate.
Defined.

(** X6: a prayer entry whose name, once corrected, is no key of the athan
    row (a Friday prayer, say) changes neither row. *)
Theorem unknown_prayer_ignored rows name times :
  rowKeys rows ->
  hasOwnProperty athanRow0 (correctedName name) = false ->
  result (processPrayer rows (name, times)) = inr rows.
Proof.
  intros K Hk.
  destruct (hasOwnProperty_rowKeys rows (correctedName name) K) as [Ha Hi].
  pose proof (no_athan_key_no_iqama _ Hk) as Hi0.
  destruct rows as [athanRow iqamaRow]. cbn [fst snd] in Ha, Hi.
  destruct (convertTo24Hour_returns (start times) name) as [start24 Es].
  destruct (convertTo24Hour_returns (iqamah times) name) as [iqamah24 Ei].
  unfold processPrayer. rewrite result_bind, Es, result_bind, Ei.
  fold (correctedName name). now rewrite Ha, Hi, Hk, Hi0.
Qed.

Lemma unknown_prayer_ignored_witness :
  result (processPrayer (athanRow0, iqamaRow0)
            ("Jumuah", {| start := "1:00,2:30"; iqamah := "" |})) =
  inr (athanRow0, iqamaRow0).
Proof.
  apply (unknown_prayer_ignored (athanRow0, iqamaRow0) "Jumuah");
    [exact rowKeys_initial | reflexivity].
Defined.

End PrayersMore.

(** ** The sorted week and the day-of-week map *)

Section SortMore.

Lemma filter_insertByDayNumber n d l :
  List.filter (fun r => pDayNumber r =? n) (insertByDayNumber d l) =
  if pDayNumber d =? n
  then d :: List.filter (fun r => pDayNumber r =? n) l
  else List.filter (fun r => pDayNumber r =? n) l.
Proof.
  induction l as [| x l IH]; cbn [insertByDayNumber List.filter].
  - destruct (pDayNumber d =? n); reflexivity.
  - destruct (Z.ltb_spec (pDayNumber x - pDayNumber d) 0) as [L | G];
      cbn [List.filter].
    + rewrite IH.
      destruct (Z.eqb_spec (pDayNumber d) n) as [Ed | Nd]; [| reflexivity].
      destruct (Z.eqb_spec (pDayNumber x) n); [lia | reflexivity].
    + destruct (pDayNumber d =? n); reflexivity.
Qed.

(** X7: the sort puts the week in ascending order of day number, keeps
    every record, and keeps the scraped order of the records that have the
    same day number. *)
Theorem sortByDayNumber_stable l :
  Sorted byDayNumber (sortByDayNumber l) /\
  Permutation (sortByDayNumber l) l /\
  forall n,
    List.filter (fun r => pDayNumber r =? n) (sortByDayNumber l) =
    List.filter (fun r => pDayNumber r =? n) l.
Proof.
  split; [apply sortByDayNumber_sorted |]. split; [apply sortByDayNumber_perm |].
  intros n. induction l as [| x l IH]; [reflexivity |].
  cbn [sortByDayNumber foldr]. fold (sortByDayNumber l).
  rewrite filter_insertByDayNumber, IH. reflexivity.
Qed.

(** X8: the first record after the sort, which the expansion falls back
    to, has the smallest day number of the week. *)
Theorem first_sorted_is_minimal records r0 rest :
  sortByDayNumber records = r0 :: rest ->
  Forall (fun r => pDayNumber r0 <= pDayNumber r) records.
Proof.
  intros Hs. pose proof (sortByDayNumber_sorted records) as S. rewrite Hs in S.
  apply Sorted_StronglySorted in S.
  2:{ intros a b c. unfold byDayNumber. lia. }
  apply StronglySorted_inv in S as [_ F].
  apply List.Forall_forall. intros r Hr.
  apply (proj2 (sortByDayNumber_In _ _)) in Hr. rewrite Hs in Hr.
  destruct Hr as [<- | Hr]; [lia |].
  exact (proj1 (List.Forall_forall _ _) F r Hr).
Qed.

Lemma first_sorted_is_minimal_witness :
  Forall (fun r => pDayNumber sunday1 <= pDayNumber r) [tuesday3; sunday1].
Proof.
  apply (first_sorted_is_minimal [tuesday3; sunday1] sunday1 [tuesday3]).
  reflexivity.
Defined.

Lemma fold_dayOfWeekMap_other records k : forall m : gmap Z Pattern,
  (forall r, In r records -> pDayOfWeek r <> k) ->
  fold_left
    (fun dayOfWeekMap day =>
       if 0 <=? pDayOfWeek day
       then <[pDayOfWeek day := {| patAthan := athan day; patIqama := iqama day |}]> dayOfWeekMap
       else dayOfWeekMap) records m !! k = m !! k.
Proof.
  induction records as [| x records IH]; intros m Hno; [reflexivity |].
  cbn [fold_left]. rewrite IH by (intros r Hr; apply Hno; now right).
  destruct (0 <=? pDayOfWeek x); [| reflexivity].
  apply lookup_insert_ne. apply Hno. now left.
Qed.

Lemma fold_dayOfWeekMap_is_Some records k : forall m : gmap Z Pattern,
  is_Some (m !! k) \/ (0 <= k /\ exists r, In r records /\ pDayOfWeek r = k) ->
  is_Some (fold_left
    (fun dayOfWeekMap day =>
       if 0 <=? pDayOfWeek day
       then <[pDayOfWeek day := {| patAthan := athan day; patIqama := iqama day |}]> dayOfWeekMap
       else dayOfWeekMap) records m !! k).
Proof.
  induction records as [| x records IH]; intros m H.
  - destruct H as [H | (_ & r & [] & _)]. exact H.
  - cbn [fold_left]. apply IH.
    destruct H as [H | (Hk & r & [<- | Hr] & E)].
    + left. destruct (0 <=? pDayOfWeek x); [| exact H].
      destruct (Z.eq_dec (pDayOfWeek x) k) as [<- | N].
      * rewrite lookup_insert_eq. now eexists.
      * now rewrite lookup_insert_ne.
    + left. subst k. destruct (Z.leb_spec 0 (pDayOfWeek x)); [| lia].
      rewrite lookup_insert_eq. now eexists.
    + right. split; [exact Hk |]. now exists r.
Qed.

(** X9: the pattern of a weekday is that of the last record of the week
    with that weekday; in the sorted week, the one with the largest day
    number. *)
Theorem dayOfWeekMap_last_wins before r after :
  0 <= pDayOfWeek r ->
  (forall x, In x after -> pDayOfWeek x <> pDayOfWeek r) ->
  buildDayOfWeekMap (before ++ r :: after) !! pDayOfWeek r = Some (patternOf r).
Proof.
  intros Hk Hno. unfold buildDayOfWeekMap.
  rewrite fold_left_app. cbn [fold_left].
  rewrite fold_dayOfWeekMap_other by exact Hno.
  destruct (Z.leb_spec 0 (pDayOfWeek r)); [| lia].
  apply lookup_insert_eq.
Qed.

Lemma dayOfWeekMap_last_wins_witness :
  buildDayOfWeekMap ([sunday1] ++ weekOf 0 :: [tuesday3]) !! pDayOfWeek (weekOf 0) =
  Some (patternOf (weekOf 0)).
Proof.
  apply (dayOfWeekMap_last_wins [sunday1] (weekOf 0) [tuesday3]).
  - cbn. lia.
  - intros x [<- | []]. discriminate.
Defined.

(** X10: a weekday has a pattern exactly when it is not negative and
    some record of the week has it: a record whose day name did not parse
    (weekday -1) adds no pattern. *)
Theorem dayOfWeekMap_domain records k :
  is_Some (buildDayOfWeekMap records !! k) <->
  0 <= k /\ exists r, In r records /\ pDayOfWeek r = k.
Proof.
  split.
  - intros [pattern H].
    apply buildDayOfWeekMap_lookup in H as (r & Hr & Hk & H0 & _).
    split; [exact H0 |]. now exists r.
  - intros H. apply fold_dayOfWeekMap_is_Some. now right.
Qed.

End SortMore.

(** ** The month tables *)

Section MonthMore.
Context {zone : TimeZone}.

Lemma getDay_range t : 0 <= getDay t <= 6.
Proof. unfold getDay. pose proof (Z.mod_pos_bound (localDay t + 4) 7). lia. Qed.

Lemma calendarDay_week year month d :
  calendarDay year month (d + 7) = calendarDay year month d + 7.
Proof.
  unfold calendarDay. set (base := daysFromCivil _ _ _). clearbody base. lia.
Qed.

Lemma getDay_week year month d :
  onCalendarDay year month d -> onCalendarDay year month (d + 7) ->
  getDay (newDate year month (d + 7)) = getDay (newDate year month d).
Proof.
  unfold onCalendarDay, getDay. intros -> ->. rewrite calendarDay_week.
  generalize (calendarDay year month d). intros c.
  replace (c + 7 + 4) with (c + 4 + 1 * 7) by lia.
  apply Z_mod_plus_full.
Qed.


(** X11: when every weekday has a pattern, neither expansion reads the
    first record: both return, even on an empty week, and the first one
    logs no warning of a missing pattern. *)
Theorem covered_week_never_falls_back records dayOfWeekMap year month :
  coversWeek dayOfWeekMap ->
  returns (expandCurrentMonth records dayOfWeekMap year month) /\
  returns (expandNextMonth records dayOfWeekMap year month) /\
  Forall (fun ev => isNoPattern ev = false)
    (trace (expandCurrentMonth records dayOfWeekMap year month)).
Proof.
  intros Hc.
  assert (Hd : forall d, exists pattern,
             dayOfWeekMap !! getDay (newDate year month d) = Some pattern).
  { intros d. apply Hc, getDay_range. }
  split; [| split].
  - destruct (forEach_returns
                (currentMonthDay records dayOfWeekMap year month) (fun _ => True)
                (days (daysIn year month))) with (s := ([] : list row, [] : list row))
      as (s & E & _); [| exact I | now exists s].
    intros [athanMonth iqamaMonth] d _ _. unfold currentMonthDay.
    destruct (List.find _ records); [eexists; split; [reflexivity | exact I] |].
    destruct (Hd d) as [pattern ->]. eexists. split; [reflexivity | exact I].
  - destruct (forEach_returns
                (nextMonthDay records dayOfWeekMap year month) (fun _ => True)
                (days (daysIn year month))) with (s := ([] : list row, [] : list row))
      as (s & E & _); [| exact I | now exists s].
    intros [athanMonth iqamaMonth] d _ _. unfold nextMonthDay.
    destruct (Hd d) as [pattern ->]. eexists. split; [reflexivity | exact I].
  - apply forEach_trace. intros [athanMonth iqamaMonth] d _. unfold currentMonthDay.
    destruct (List.find _ records); [repeat constructor |].
    destruct (Hd d) as [pattern ->]. repeat constructor.
Qed.

Lemma fullWeek_covers : coversWeek (buildDayOfWeekMap fullWeek).
Proof.
  intros k Hk.
  assert (C : k = 0 \/ k = 1 \/ k = 2 \/ k = 3 \/ k = 4 \/ k = 5 \/ k = 6) by lia.
  destruct C as [-> | [-> | [-> | [-> | [-> | [-> | ->]]]]]];
    vm_compute; eexists; reflexivity.
Defined.

(** X12: where the dates of the days d and d + 7 of the month fall on
    their calendar days, the table of the next month repeats after seven
    days: the rows of d and d + 7 hold the same times. *)
Theorem next_month_repeats_weekly r0 rest dayOfWeekMap year month d :
  onCalendarDay year month d -> onCalendarDay year month (d + 7) ->
  1 <= d -> d + 7 <= daysIn year month ->
  exists athanNext iqamaNext pattern,
    result (expandNextMonth (r0 :: rest) dayOfWeekMap year month) =
      inr (athanNext, iqamaNext) /\
    athanNext !! Z.to_nat (d - 1) = Some (dayRow d (patAthan pattern)) /\
    athanNext !! Z.to_nat (d + 6) = Some (dayRow (d + 7) (patAthan pattern)) /\
    iqamaNext !! Z.to_nat (d - 1) = Some (dayRow d (patIqama pattern)) /\
    iqamaNext !! Z.to_nat (d + 6) = Some (dayRow (d + 7) (patIqama pattern)).
Proof.
  intros Hd Hd7 H1 H7.
  exists (fst (tablesFrom (patternSource r0 dayOfWeekMap year month) year month)),
    (snd (tablesFrom (patternSource r0 dayOfWeekMap year month) year month)),
    (patternSource r0 dayOfWeekMap year month d).
  split; [rewrite expandNextMonth_result; now destruct (tablesFrom _ _ _) |].
  destruct (tablesFrom_rows year month (patternSource r0 dayOfWeekMap year month))
    as (_ & _ & R).
  destruct (R d) as [Ra Ri]; [lia |].
  destruct (R (d + 7)) as [Ra' Ri']; [lia |].
  replace (d + 7 - 1) with (d + 6) in Ra', Ri' by lia.
  assert (E : patternSource r0 dayOfWeekMap year month (d + 7) =
              patternSource r0 dayOfWeekMap year month d).
  { unfold patternSource. now rewrite (getDay_week year month d Hd Hd7). }
  rewrite E in Ra', Ri'.
  split; [exact Ra |]. split; [exact Ra' |]. split; [exact Ri | exact Ri'].
Qed.

Lemma allMonths_In year month :
  1970 <= year <= 2199 -> 0 <= month <= 11 -> In (year, month) allMonths.
Proof.
  intros Hy Hm. unfold allMonths. apply in_flat_map. exists year. split.
  - apply list_elem_of_In, elem_of_seqZ. lia.
  - apply in_map. apply list_elem_of_In, elem_of_seqZ. lia.
Qed.

(** X13: for the years 1970 to 2199, where the date of the last day of
    the month falls on its calendar day, the number of days that
    [new Date(year, month + 1, 0).getDate()] gives, which is the number of
    rows of a table, is the length of the month in the calendar, leap years
    included. *)
Theorem daysIn_is_month_length year month :
  onCalendarDay year (month + 1) 0 ->
  1970 <= year <= 2199 -> 0 <= month <= 11 ->
  daysIn year month = monthLength year month /\ 28 <= daysIn year month <= 31.
Proof.
  intros Hz Hy Hm.
  pose proof (proj1 (forallb_forall _ _) calendar_month_lengths (year, month)
                (allMonths_In year month Hy Hm)) as E.
  cbn [fst snd] in E. apply Z.eqb_eq in E.
  assert (D : daysIn year month = monthLength year month).
  { unfold daysIn, getDate. unfold onCalendarDay in Hz. now rewrite Hz. }
  split; [exact D |].
  rewrite D. unfold monthLength.
  repeat match goal with
         | |- context [if ?b then _ else _] => destruct b
         end; lia.
Qed.

Lemma nextMonth_checked :
  forallb (fun ym =>
             let next := civilFromDays (calendarDay (fst ym) (snd ym + 1) 1) in
             (snd (fst next) - 1 =? (snd ym + 1) mod 12) &&
             (fst (fst next) =? fst ym + (snd ym + 1) / 12) &&
             (snd next =? 1))
    allMonths = true.
Proof. vm_compute. reflexivity. Qed.

(** X14: for a run in the years 1970 to 2199, where the date of the
    first day of the next month falls on its calendar day, the next month
    is the month after the current one, and January of the next year after
    December; [nextMonthDate] is its first day. *)
Theorem nextMonthDate_rolls_over today :
  onCalendarDay (getFullYear today) (getMonth today + 1) 1 ->
  1970 <= getFullYear today <= 2199 -> 0 <= getMonth today <= 11 ->
  getMonth (nextMonthDate today) = (getMonth today + 1) mod 12 /\
  getFullYear (nextMonthDate today) =
    (if getMonth today =? 11 then getFullYear today + 1 else getFullYear today) /\
  getDate (nextMonthDate today) = 1.
Proof.
  unfold nextMonthDate.
  generalize (getFullYear today) (getMonth today). intros year month Hz Hy Hm.
  pose proof (proj1 (forallb_forall _ _) nextMonth_checked (year, month)
                (allMonths_In _ _ Hy Hm)) as E.
  cbn [fst snd] in E. cbv zeta in E.
  apply andb_prop in E as [E Ed]. apply andb_prop in E as [Em Ey].
  apply Z.eqb_eq in Em, Ey, Ed.
  unfold getMonth, getFullYear, getDate. unfold onCalendarDay in Hz. rewrite Hz.
  split; [exact Em |]. split; [| exact Ed].
  rewrite Ey. destruct (Z.eqb_spec month 11) as [-> | N]; [reflexivity |].
  rewrite Z.div_small by lia. lia.
Qed.

End MonthMore.

(** In UTC. *)
Section MonthMoreExamples.
#[local] Existing Instance utc.


Lemma covered_week_never_falls_back_witness :
  returns (expandCurrentMonth [] (buildDayOfWeekMap fullWeek) 2026 11) /\
  returns (expandNextMonth [] (buildDayOfWeekMap fullWeek) 2026 11) /\
  Forall (fun ev => isNoPattern ev = false)
    (trace (expandCurrentMonth [] (buildDayOfWeekMap fullWeek) 2026 11)).
Proof.
  apply (covered_week_never_falls_back [] (buildDayOfWeekMap fullWeek) 2026 11).
  exact fullWeek_covers.
Defined.

Lemma next_month_repeats_weekly_witness :
  exists athanNext iqamaNext pattern,
    result (expandNextMonth (sunday1 :: [tuesday3]) (buildDayOfWeekMap sampleRecords)
              2026 11) = inr (athanNext, iqamaNext) /\
    athanNext !! Z.to_nat (1 - 1) = Some (dayRow 1 (patAthan pattern)) /\
    athanNext !! Z.to_nat (1 + 6) = Some (dayRow (1 + 7) (patAthan pattern)) /\
    iqamaNext !! Z.to_nat (1 - 1) = Some (dayRow 1 (patIqama pattern)) /\
    iqamaNext !! Z.to_nat (1 + 6) = Some (dayRow (1 + 7) (patIqama pattern)).
Proof.
  apply (next_month_repeats_weekly sunday1 [tuesday3]
           (buildDayOfWeekMap sampleRecords) 2026 11 1).
  - reflexivity.
  - reflexivity.
  - lia.
  - apply Z.leb_le. reflexivity.
Defined.

Lemma daysIn_is_month_length_witness :
  daysIn 2028 1 = monthLength 2028 1 /\ 28 <= daysIn 2028 1 <= 31.
Proof. apply (daysIn_is_month_length 2028 1); [reflexivity | lia | lia]. Defined.

Lemma nextMonthDate_rolls_over_witness :
  getMonth (nextMonthDate december1) = (getMonth december1 + 1) mod 12 /\
  getFullYear (nextMonthDate december1) =
    (if getMonth december1 =? 11
     then getFullYear december1 + 1 else getFullYear december1) /\
  getDate (nextMonthDate december1) = 1.
Proof.
  apply (nextMonthDate_rolls_over december1);
    [reflexivity | split; apply Z.leb_le; reflexivity ..].
Defined.

End MonthMoreExamples.

(** ** The run, from its first event to its exit *)

Section RunMore.
Context {zone : TimeZone}.

Lemma logs_are_body_events t :
  Forall isLog t -> Forall (fun ev => isBodyEvent ev = true) t.
Proof.
  apply List.Forall_impl. intros ev H. destruct ev; try contradiction. reflexivity.
Qed.

(** The body of the run performs log entries and file writes only. *)
Lemma extractBody_events today extractedData :
  Forall (fun ev => isBodyEvent ev = true) (trace (extractBody today extractedData)).
Proof.
  unfold extractBody.
  repeat first
    [ apply trace_bind_Forall;
        [ first
            [ now repeat constructor
            | apply logs_are_body_events, processWeek_logs
            | apply logs_are_body_events, expandCurrentMonth_logs
            | apply logs_are_body_events, expandNextMonth_logs
            | destruct extractedData; now repeat constructor
            | unfold first; destruct (_ !! 0%nat); now repeat constructor ]
        | intros ? _ ]
    | match goal with
      | x : monthState |- _ => destruct x
      end ].
  constructor.
Qed.

Lemma extractBody_starts today extractedData :
  exists rest,
    trace (extractBody today extractedData) =
    Log info (ExtractedDays (length extractedData)) :: WriteRawData extractedData :: rest.
Proof.
  unfold extractBody. rewrite trace_bind. cbn [trace result log emit fst snd].
  rewrite trace_bind. cbn [trace result log emit fst snd app].
  eexists. reflexivity.
Qed.

Lemma await_events outcome : Forall (fun ev => isBodyEvent ev = true) (trace (await outcome)).
Proof. destruct outcome; constructor. Qed.

Lemma scrape_events browser :
  Forall (fun ev => isBodyEvent ev = true) (trace (scrape browser)).
Proof.
  unfold scrape.
  repeat (apply trace_bind_Forall;
          [first [apply await_events | now repeat constructor] | intros ? _]).
  destruct (evaluate browser); constructor.
Qed.

Lemma scrape_no_data browser :
  Forall (fun ev => isDataWrite ev = false) (trace (scrape browser)).
Proof.
  unfold scrape.
  repeat (apply trace_bind_Forall;
          [first [destruct (_ : option exn); now repeat constructor
                 | now repeat constructor] | intros ? _]).
  destruct (evaluate browser); constructor.
Qed.

Lemma scrape_resolving rows :
  scrape (resolving rows) =
  ([LaunchBrowser; Log info Navigating; Log info TimetableFound; WriteScreenshot],
   inr (pageEvaluate rows)).
Proof. reflexivity. Qed.

Lemma run_events today browser :
  Forall (fun ev => isBodyEvent ev = true)
    (trace (do extractedData <- scrape browser; extractBody today extractedData)).
Proof.
  apply trace_bind_Forall; [apply scrape_events |].
  intros extractedData _. apply extractBody_events.
Qed.

Lemma finallyClose_events browser :
  Forall (fun ev => isDataWrite ev = false) (closing browser).
Proof.
  unfold closing, finallyClose.
  destruct (launch browser); [constructor |].
  destruct (close browser); now repeat constructor.
Qed.

(** X15: every run of the script, whatever the browser does, starts with
    the same events and ends with a log entry and the exit of the process:
    with 0 when [extractPrayerTimes] returned and with 1 when it threw.
    In between it performs log entries, the launch and file writes only,
    and then what [finally] does: nothing when the launch rejected, else
    the close of the browser and its log entry, or nothing when the close
    rejects. *)
Theorem script_envelope today outputDirExists browser :
  exists middle lvl msg code,
    main today outputDirExists browser =
      (starting outputDirExists ++ middle ++ closing browser ++
       [Log lvl msg; Exit code])%list /\
    Forall (fun ev => isBodyEvent ev = true) middle /\
    (closing browser = [] \/ closing browser = [CloseBrowser; Log info BrowserClosed]) /\
    (launch browser = None -> close browser = None ->
     closing browser = [CloseBrowser; Log info BrowserClosed]) /\
    (returns (run today browser) /\ code = 0 \/
     throws (run today browser) /\ code = 1).
Proof.
  pose proof (run_events today browser) as F.
  assert (C : (closing browser = [] \/
               closing browser = [CloseBrowser; Log info BrowserClosed]) /\
              (launch browser = None -> close browser = None ->
               closing browser = [CloseBrowser; Log info BrowserClosed])).
  { unfold closing, finallyClose.
    destruct (launch browser); [split; [now left | discriminate] |].
    destruct (close browser); [split; [now left | discriminate] |].
    split; [now right | reflexivity]. }
  revert C. unfold main, run, returns, throws, starting, closing.
  destruct (do extractedData <- scrape browser; extractBody today extractedData)
    as [t [e | v]]; cbn [trace fst] in F;
    destruct (finallyClose browser) as [tc [e' | []]]; cbn [trace fst]; intros C.
  - exists (t ++ [Log error (ErrorDuringExtraction e); Log error (StackTrace e)])%list,
      error, (ScriptFailed e'), 1.
    split; [| split; [| split; [exact (proj1 C) | split; [exact (proj2 C) |]]]].
    + destruct outputDirExists; cbn [app]; now rewrite <- !app_assoc.
    + apply Forall_app. split; [exact F | now repeat constructor].
    + right. split; [now exists e' | reflexivity].
  - exists (t ++ [Log error (ErrorDuringExtraction e); Log error (StackTrace e)])%list,
      error, (ScriptFailed e), 1.
    split; [| split; [| split; [exact (proj1 C) | split; [exact (proj2 C) |]]]].
    + destruct outputDirExists; cbn [app]; now rewrite <- !app_assoc.
    + apply Forall_app. split; [exact F | now repeat constructor].
    + right. split; [now exists e | reflexivity].
  - exists t, error, (ScriptFailed e'), 1.
    split; [| split; [| split; [exact (proj1 C) | split; [exact (proj2 C) |]]]].
    + destruct outputDirExists; cbn [app]; now rewrite <- !app_assoc.
    + exact F.
    + right. split; [now exists e' | reflexivity].
  - exists t, info, ScriptCompleted, 0.
    split; [| split; [| split; [exact (proj1 C) | split; [exact (proj2 C) |]]]].
    + destruct outputDirExists; cbn [app]; now rewrite <- !app_assoc.
    + exact F.
    + left. split; [now exists v | reflexivity].
Qed.

(** X24: when a call of the browser before the rows are read rejects,
    [extractPrayerTimes] throws: that error, unless the close of the
    browser rejects with another; the script logs the error, does what
    [finally] does, and exits with 1 without having written the raw data
    or a CSV file. *)
Theorem browser_failure_writes_no_data today outputDirExists browser e :
  result (scrape browser) = inl e ->
  exists e',
    result (run today browser) = inl e' /\
    (returns (finallyClose browser) -> e' = e) /\
    main today outputDirExists browser =
      (starting outputDirExists ++ trace (scrape browser) ++
       [Log error (ErrorDuringExtraction e); Log error (StackTrace e)] ++
       closing browser ++ [Log error (ScriptFailed e'); Exit 1])%list /\
    Forall (fun ev => isDataWrite ev = false) (main today outputDirExists browser).
Proof.
  intros H. pose proof (scrape_no_data browser) as N.
  pose proof (finallyClose_events browser) as Nc.
  unfold main, run, starting, closing, returns in *.
  destruct (scrape browser) as [t r]. cbn [result snd trace fst] in H, N |- *.
  subst r. cbn [bind]. cbv beta iota zeta.
  destruct (finallyClose browser) as [tc [e' | []]]; cbn [trace fst result snd] in Nc |- *.
  - exists e'. split; [reflexivity |]. split; [intros [v Hv]; discriminate Hv |]. split.
    + destruct outputDirExists; cbn [app]; now rewrite <- ?app_assoc.
    + destruct outputDirExists; cbn [app];
        repeat first
          [ exact N | exact Nc
          | apply Forall_app; split
          | apply List.Forall_cons; [reflexivity |]
          | apply List.Forall_nil ].
  - exists e. split; [reflexivity |]. split; [reflexivity |]. split.
    + destruct outputDirExists; cbn [app]; now rewrite <- ?app_assoc.
    + destruct outputDirExists; cbn [app];
        repeat first
          [ exact N | exact Nc
          | apply Forall_app; split
          | apply List.Forall_cons; [reflexivity |]
          | apply List.Forall_nil ].
Qed.

(** X25: when every call of the browser resolves, the script is the four
    events of the scrape followed by the run on the rows that
    [page.evaluate] returns, and [extractPrayerTimes] returns or throws as
    that run does. *)
Theorem main_of_resolving_browser today outputDirExists rows :
  main today outputDirExists (resolving rows) =
    (starting outputDirExists ++
     [LaunchBrowser; Log info Navigating; Log info TimetableFound; WriteScreenshot] ++
     script today (pageEvaluate rows))%list /\
  result (run today (resolving rows)) =
    result (extractPrayerTimes today (pageEvaluate rows)).
Proof.
  unfold main, run, script, extractPrayerTimes, starting.
  rewrite scrape_resolving.
  change (finallyClose (resolving rows))
    with ([CloseBrowser; Log info BrowserClosed], inr tt : exn + unit).
  cbn [bind]. cbv beta iota zeta.
  destruct (extractBody today (pageEvaluate rows)) as [t [e | v]];
    (split; [| reflexivity]);
    destruct outputDirExists; cbn [app]; now rewrite <- ?app_assoc.
Qed.

Lemma valid_row_week extractedData :
  Exists (fun day => 0 < dayNumber day) extractedData ->
  exists records r0 rest,
    result (processWeek extractedData) = inr records /\
    sortByDayNumber records = r0 :: rest /\
    Forall recordKeys (r0 :: rest).
Proof.
  intros Hex. destruct (processWeek_records extractedData) as (records & E & F).
  assert (Hne : records <> []).
  { intros ->. inversion F as [Hnil |].
    apply List.Exists_exists in Hex as (day & Hday & Hpos).
    apply (in_nil (a := day)). rewrite Hnil. apply filter_In.
    split; [exact Hday | now apply Z.ltb_lt]. }
  destruct (sortByDayNumber records) as [| r0 rest] eqn:Hs.
  { now apply sortByDayNumber_nonempty in Hs. }
  exists records, r0, rest. split; [exact E |]. split; [exact Hs |].
  rewrite <- Hs. apply List.Forall_forall. intros r Hr.
  apply (proj1 (sortByDayNumber_In _ _)) in Hr.
  exact (proj1 (List.Forall_forall _ _) (processWeek_keys _ _ E) r Hr).
Qed.

(** X16: a run on rows of which one has a valid day number writes four
    CSV files, in this order: the athan and the iqama table of the current
    month, then those of the next month; both expansions take the sorted
    week and the map built from it; the run returns the two tables of the
    current month and not those of the next. *)
Theorem run_writes_four_tables today extractedData :
  Exists (fun day => 0 < dayNumber day) extractedData ->
  exists records r0 rest,
    result (processWeek extractedData) = inr records /\
    sortByDayNumber records = r0 :: rest /\
    result (extractPrayerTimes today extractedData) = inr (currentTables today r0 rest) /\
    csvWrites (script today extractedData) =
    [WriteCsv athan_times (getMonth today) (fst (currentTables today r0 rest));
     WriteCsv iqama_times (getMonth today) (snd (currentTables today r0 rest));
     WriteCsv athan_times (getMonth (nextMonthDate today)) (fst (nextTables today r0 rest));
     WriteCsv iqama_times (getMonth (nextMonthDate today)) (snd (nextTables today r0 rest))].
Proof.
  intros Hex. destruct (valid_row_week extractedData Hex) as (records & r0 & rest & E & Hs & _).
  exists records, r0, rest. split; [exact E |]. split; [exact Hs |]. split.
  - rewrite result_extractPrayerTimes.
    now apply (extractBody_result today extractedData r0 rest records).
  - now apply (script_csvWrites today extractedData records).
Qed.

Lemma getProp_day_athan d fields :
  keys fields = keys athanRow0 -> getProp (dayRow d fields) "day" = Some (VNum d).
Proof.
  destruct fields as [| [k1 v1] [| [k2 v2] [| [k3 v3] [| [k4 v4] [| [k5 v5]
    [| [k6 v6] [| ? ?]]]]]]]; try discriminate.
  intros H. injection H as -> -> -> -> -> ->. reflexivity.
Qed.

Lemma getProp_day_iqama d fields :
  keys fields = keys iqamaRow0 -> getProp (dayRow d fields) "day" = Some (VNum d).
Proof.
  destruct fields as [| [k1 v1] [| [k2 v2] [| [k3 v3] [| [k4 v4] [| [k5 v5]
    [| ? ?]]]]]]; try discriminate.
  intros H. injection H as -> -> -> -> ->. reflexivity.
Qed.

(** X17: in the tables that a run returns, the row at index i exists for
    every day of the current month and its column [day] is i + 1, in both
    tables. *)
Theorem day_column_counts_days today extractedData i :
  Exists (fun day => 0 < dayNumber day) extractedData ->
  (i < Z.to_nat (daysIn (getFullYear today) (getMonth today)))%nat ->
  exists athanMonth iqamaMonth athanRow iqamaRow,
    result (extractPrayerTimes today extractedData) = inr (athanMonth, iqamaMonth) /\
    athanMonth !! i = Some athanRow /\ iqamaMonth !! i = Some iqamaRow /\
    getProp athanRow "day" = Some (VNum (Z.of_nat i + 1)) /\
    getProp iqamaRow "day" = Some (VNum (Z.of_nat i + 1)).
Proof.
  intros Hex Hi.
  destruct (valid_row_week extractedData Hex) as (records & r0 & rest & E & Hs & K).
  set (year := getFullYear today) in *. set (month := getMonth today) in *.
  set (source := specSource r0 (r0 :: rest) (buildDayOfWeekMap (r0 :: rest)) year month).
  assert (Hk : patternKeys (source (Z.of_nat i + 1))).
  { apply specSource_keys; [exact (Forall_inv K) | exact K | exact K]. }
  destruct (tablesFrom_rows year month source) as (_ & _ & R).
  destruct (R (Z.of_nat i + 1)) as [Ra Ri]; [lia |].
  replace (Z.to_nat (Z.of_nat i + 1 - 1)) with i in Ra, Ri by lia.
  exists (fst (tablesFrom source year month)), (snd (tablesFrom source year month)).
  eexists _, _. split; [| split; [exact Ra | split; [exact Ri |]]].
  - rewrite result_extractPrayerTimes.
    rewrite (extractBody_result today extractedData r0 rest records E Hs).
    unfold currentTables. fold year month source. now destruct (tablesFrom _ _ _).
  - split; [apply getProp_day_athan, Hk | apply getProp_day_iqama, Hk].
Qed.

End RunMore.

(** In UTC. *)
Section RunMoreExamples.
#[local] Existing Instance utc.

Lemma browser_failure_writes_no_data_witness :
  exists e',
    result (run november2 timingOut) = inl e' /\
    (returns (finallyClose timingOut) ->
     e' = Error "Navigation timeout of 60000 ms exceeded") /\
    main november2 true timingOut =
      (starting true ++ trace (scrape timingOut) ++
       [Log error (ErrorDuringExtraction (Error "Navigation timeout of 60000 ms exceeded"));
        Log error (StackTrace (Error "Navigation timeout of 60000 ms exceeded"))] ++
       closing timingOut ++ [Log error (ScriptFailed e'); Exit 1])%list /\
    Forall (fun ev => isDataWrite ev = false) (main november2 true timingOut).
Proof.
  apply (browser_failure_writes_no_data november2 true timingOut
           (Error "Navigation timeout of 60000 ms exceeded")).
  reflexivity.
Defined.

(** The navigation times out: the events of the script. *)
Example navigation_timeout :
  main november2 true timingOut =
    [ClearLog; Log info StartedDebug; Log info StartingExtraction;
     LaunchBrowser; Log info Navigating;
     Log error (ErrorDuringExtraction (Error "Navigation timeout of 60000 ms exceeded"));
     Log error (StackTrace (Error "Navigation timeout of 60000 ms exceeded"));
     CloseBrowser; Log info BrowserClosed;
     Log error (ScriptFailed (Error "Navigation timeout of 60000 ms exceeded")); Exit 1].
Proof. reflexivity. Qed.

(** A launch that rejects: nothing is closed. *)
Example launch_rejected :
  main november2 false
    {| launch := Some (Error "Failed to launch the browser process"); newPage := None;
       goto := None; waitForSelector := None; screenshot := None; evaluate := inr [];
       close := None |} =
    [MakeOutputDir; ClearLog; Log info StartedDebug; Log info StartingExtraction;
     Log error (ErrorDuringExtraction (Error "Failed to launch the browser process"));
     Log error (StackTrace (Error "Failed to launch the browser process"));
     Log error (ScriptFailed (Error "Failed to launch the browser process")); Exit 1].
Proof. reflexivity. Qed.

(** A close that rejects after a run that returned: the script fails. *)
Example close_rejected :
  last (main november2 true
          {| launch := None; newPage := None; goto := None; waitForSelector := None;
             screenshot := None; evaluate := inr [samplePageRow];
             close := Some (Error "Protocol error: Target closed") |}) = Some (Exit 1).
Proof. vm_compute. reflexivity. Qed.

Lemma run_writes_four_tables_witness :
  exists records r0 rest,
    result (processWeek sampleWeek) = inr records /\
    sortByDayNumber records = r0 :: rest /\
    result (extractPrayerTimes november2 sampleWeek) =
      inr (currentTables november2 r0 rest) /\
    csvWrites (script november2 sampleWeek) =
    [WriteCsv athan_times (getMonth november2) (fst (currentTables november2 r0 rest));
     WriteCsv iqama_times (getMonth november2) (snd (currentTables november2 r0 rest));
     WriteCsv athan_times (getMonth (nextMonthDate november2))
       (fst (nextTables november2 r0 rest));
     WriteCsv iqama_times (getMonth (nextMonthDate november2))
       (snd (nextTables november2 r0 rest))].
Proof.
  apply (run_writes_four_tables november2 sampleWeek).
  apply Exists_cons_hd. cbn. lia.
Defined.

Lemma day_column_counts_days_witness :
  exists athanMonth iqamaMonth athanRow iqamaRow,
    result (extractPrayerTimes november2 sampleWeek) = inr (athanMonth, iqamaMonth) /\
    athanMonth !! 29%nat = Some athanRow /\ iqamaMonth !! 29%nat = Some iqamaRow /\
    getProp athanRow "day" = Some (VNum (Z.of_nat 29 + 1)) /\
    getProp iqamaRow "day" = Some (VNum (Z.of_nat 29 + 1)).
Proof.
  apply (day_column_counts_days november2 sampleWeek 29).
  - apply Exists_cons_hd. cbn. lia.
  - apply Nat.ltb_lt. reflexivity.
Defined.

End RunMoreExamples.

(** ** The key Maghrib, from the scraped row to the tables *)

Section Maghrib.
Context {zone : TimeZone}.

Lemma Forall2_In_l {X Y} (R : X -> Y -> Prop) xs ys x :
  Forall2 R xs ys -> In x xs -> exists y, In y ys /\ R x y.
Proof.
  induction 1 as [| x0 y0 xs ys H0 _ IH]; intros Hx; [contradiction |].
  destruct Hx as [-> | Hx].
  - exists y0. split; [now left | exact H0].
  - destruct (IH Hx) as (y & Hy & Hr). exists y. split; [now right | exact Hr].
Qed.

Lemma getProp_None {V} (o : obj V) k : ~ In k (keys o) -> getProp o k = None.
Proof.
  induction o as [| [k' v'] o IH]; [reflexivity |]. cbn. intros H.
  destruct (String.eqb_spec k' k) as [-> | N]; [tauto |]. apply IH. tauto.
Qed.

Lemma recordOf_functional day r r' : recordOf day r -> recordOf day r' -> r = r'.
Proof.
  unfold recordOf. intros H H'. rewrite H in H'. apply (inj inr) in H'.
  now apply (inj2 cons) in H' as [-> _].
Qed.

Lemma recordKeys_no_Magrib r :
  recordKeys r -> getProp (athan r) "Magrib" = None /\ getProp (iqama r) "Magrib" = None.
Proof.
  intros [Ka Ki]. split; apply getProp_None.
  - rewrite Ka. cbn. intuition discriminate.
  - rewrite Ki. cbn. intuition discriminate.
Qed.

(** The record of a row holds the times of its last "Magrib" entry under
    "Maghrib". *)
Lemma Magrib_in_record day r before times after :
  recordOf day r ->
  prayers day = (before ++ ("Magrib", times) :: after)%list ->
  (forall e, In e after -> correctedName (fst e) <> "Maghrib") ->
  exists start24 iqamah24,
    result (convertTo24Hour (start times) "Magrib") = inr start24 /\
    result (convertTo24Hour (iqamah times) "Magrib") = inr iqamah24 /\
    getProp (athan r) "Maghrib" = Some start24 /\
    getProp (iqama r) "Maghrib" = Some iqamah24 /\
    getProp (athan r) "Magrib" = None /\ getProp (iqama r) "Magrib" = None.
Proof.
  intros Hr Hp Hafter.
  destruct (recordOf_valid day r Hr) as (_ & _ & _ & Hk).
  destruct (recordKeys_no_Magrib r Hk) as [Na Ni].
  destruct (recordOf_rows day r Hr) as (rows & E & Ea & Ei).
  rewrite Hp, forEach_app_result in E.
  destruct (forEach_returns processPrayer rowKeys before) with (s := (athanRow0, iqamaRow0))
    as (rows0 & E0 & K0); [intros; now apply processPrayer_keys | exact rowKeys_initial |].
  rewrite E0, forEach_cons, result_bind in E.
  destruct (processPrayer_lookup rows0 "Magrib" times K0)
    as (rows1 & start24 & iqamah24 & E1 & K1 & Es & Ei' & L).
  rewrite E1 in E.
  destruct (processPrayers_other after "Maghrib" rows1 K1 Hafter)
    as (rows' & E' & _ & La & Li).
  rewrite E' in E. apply (inj inr) in E. subst rows'.
  exists start24, iqamah24. split; [exact Es |]. split; [exact Ei' |].
  destruct (L "Maghrib") as [L1 L2].
  change (correctedName "Magrib") with "Maghrib" in L1, L2. cbn in L1, L2.
  rewrite Ea, Ei in *. repeat split; congruence.
Qed.

Lemma dayRow_Maghrib d fields columns :
  keys fields = keys columns -> columns = athanRow0 \/ columns = iqamaRow0 ->
  getProp (dayRow d fields) "Maghrib" = VStr <$> getProp fields "Maghrib" /\
  getProp (dayRow d fields) "Magrib" = None.
Proof.
  intros H [-> | ->].
  - destruct fields as [| [k1 v1] [| [k2 v2] [| [k3 v3] [| [k4 v4] [| [k5 v5]
      [| [k6 v6] [| ? ?]]]]]]]; try discriminate.
    injection H as -> -> -> -> -> ->. split; reflexivity.
  - destruct fields as [| [k1 v1] [| [k2 v2] [| [k3 v3] [| [k4 v4] [| [k5 v5]
      [| ? ?]]]]]]; try discriminate.
    injection H as -> -> -> -> ->. split; reflexivity.
Qed.

(** The row of the day of a scraped row, in the tables that the run
    returns, is made from the record of that row. *)
Lemma scraped_day_row today extractedData day r :
  In day extractedData -> recordOf day r ->
  dayNumber day <= daysIn (getFullYear today) (getMonth today) ->
  (forall day', In day' extractedData -> dayNumber day' = dayNumber day -> day' = day) ->
  exists athanMonth iqamaMonth,
    result (extractPrayerTimes today extractedData) = inr (athanMonth, iqamaMonth) /\
    athanMonth !! Z.to_nat (dayNumber day - 1) = Some (dayRow (dayNumber day) (athan r)) /\
    iqamaMonth !! Z.to_nat (dayNumber day - 1) = Some (dayRow (dayNumber day) (iqama r)).
Proof.
  intros Hday Hr Hmonth Honly.
  destruct (recordOf_valid day r Hr) as (Hpos & Hn & _ & _).
  destruct (processWeek_records extractedData) as (records & E & F).
  assert (Hin : In r records).
  { destruct (Forall2_In_l _ _ _ day F) as (r' & Hr' & Hrec).
    - apply filter_In. split; [exact Hday | now apply Z.ltb_lt].
    - now rewrite (recordOf_functional day r r' Hr Hrec). }
  destruct (script_week today extractedData records E) as (r0 & rest & Hs & R & _).
  { intros ->. contradiction. }
  assert (Hfind : List.find (fun x => pDayNumber x =? dayNumber day) (r0 :: rest) = Some r).
  { destruct (List.find _ (r0 :: rest)) as [r' |] eqn:Ef.
    - apply find_some in Ef as [Hr' Hd]. apply Z.eqb_eq in Hd.
      rewrite <- Hs in Hr'. apply (proj1 (sortByDayNumber_In _ _)) in Hr'.
      destruct (Forall2_In_r _ _ _ _ F Hr') as (day' & Hday' & Hrec).
      apply filter_In in Hday' as [Hday' _].
      destruct (recordOf_valid day' r' Hrec) as (_ & Hn' & _ & _).
      assert (day' = day) as -> by (apply Honly; [exact Hday' | congruence]).
      now rewrite (recordOf_functional day r r' Hr Hrec).
    - assert (In r (r0 :: rest)) as Hr0
        by (rewrite <- Hs; now apply sortByDayNumber_In).
      pose proof (find_none _ _ Ef r Hr0) as N. cbv beta in N.
      rewrite Hn, Z.eqb_refl in N. discriminate N. }
  revert R Hmonth. unfold currentTables.
  generalize (getFullYear today) (getMonth today). intros year month R Hmonth.
  set (source := specSource r0 (r0 :: rest) (buildDayOfWeekMap (r0 :: rest)) year month) in *.
  destruct (tablesFrom_rows year month source) as (_ & _ & Hrows).
  destruct (Hrows (dayNumber day)) as [Ra Ri]; [lia |].
  assert (Hsource : source (dayNumber day) = patternOf r).
  { unfold source, specSource. now rewrite Hfind. }
  rewrite Hsource in Ra, Ri.
  exists (fst (tablesFrom source year month)), (snd (tablesFrom source year month)).
  split; [rewrite R; now destruct (tablesFrom _ _ _) |]. now split.
Qed.

(** The times of a "Magrib" entry in the returned tables. *)
Lemma Magrib_in_row today extractedData day before times after :
  In day extractedData ->
  0 < dayNumber day <= daysIn (getFullYear today) (getMonth today) ->
  (forall day', In day' extractedData -> dayNumber day' = dayNumber day -> day' = day) ->
  prayers day = (before ++ ("Magrib", times) :: after)%list ->
  (forall e, In e after -> correctedName (fst e) <> "Maghrib") ->
  exists start24 iqamah24 athanMonth iqamaMonth athanRow iqamaRow,
    result (convertTo24Hour (start times) "Magrib") = inr start24 /\
    result (convertTo24Hour (iqamah times) "Magrib") = inr iqamah24 /\
    result (extractPrayerTimes today extractedData) = inr (athanMonth, iqamaMonth) /\
    athanMonth !! Z.to_nat (dayNumber day - 1) = Some athanRow /\
    iqamaMonth !! Z.to_nat (dayNumber day - 1) = Some iqamaRow /\
    getProp athanRow "Maghrib" = Some (VStr start24) /\
    getProp iqamaRow "Maghrib" = Some (VStr iqamah24) /\
    getProp athanRow "Magrib" = None /\ getProp iqamaRow "Magrib" = None.
Proof.
  intros Hday [Hpos Hmonth] Honly Hp Hafter.
  destruct (processDay_keep [] day Hpos) as (r & _ & Hr & _ & _ & Ka & Ki).
  destruct (Magrib_in_record day r before times after Hr Hp Hafter)
    as (start24 & iqamah24 & Es & Ei & Ma & Mi & _).
  destruct (scraped_day_row today extractedData day r Hday Hr Hmonth Honly)
    as (athanMonth & iqamaMonth & R & Ra & Ri).
  destruct (dayRow_Maghrib (dayNumber day) (athan r) athanRow0 Ka (or_introl eq_refl))
    as [Da Na].
  destruct (dayRow_Maghrib (dayNumber day) (iqama r) iqamaRow0 Ki (or_intror eq_refl))
    as [Di Ni].
  rewrite Ma in Da. rewrite Mi in Di.
  exists start24, iqamah24, athanMonth, iqamaMonth. eexists _, _.
  split; [exact Es |]. split; [exact Ei |]. split; [exact R |].
  split; [exact Ra |]. split; [exact Ri |]. now repeat split.
Qed.

(** C4: a prayer entry named "Magrib" is stored under the key "Maghrib"
    of both rows; the rows of every processed record keep the keys of the
    initial rows; every CSV file written by the script and both returned
    tables have exactly the columns of their table, with the key "Maghrib"
    and without the key "Magrib".  The times of the last entry of a row
    that is stored under "Maghrib", when its name is "Magrib", are in the
    record of the row under "Maghrib", normalised under the name "Magrib",
    and the record has no key "Magrib"; when the row is the only one with
    its day number and the day is one of the current month, they are in
    the row of that day of both returned tables, under "Maghrib". *)
Theorem Magrib_stored_as_Maghrib today extractedData :
  (forall athanRow iqamaRow times,
     rowKeys (athanRow, iqamaRow) ->
     exists start24 iqamah24 athanRow' iqamaRow',
       result (convertTo24Hour (start times) "Magrib") = inr start24 /\
       result (convertTo24Hour (iqamah times) "Magrib") = inr iqamah24 /\
       result (processPrayer (athanRow, iqamaRow) ("Magrib", times)) =
         inr (athanRow', iqamaRow') /\
       getProp athanRow' "Maghrib" = Some start24 /\
       getProp iqamaRow' "Maghrib" = Some iqamah24 /\
       rowKeys (athanRow', iqamaRow')) /\
  (forall records,
     result (processWeek extractedData) = inr records -> Forall recordKeys records) /\
  Forall wellKeyed (script today extractedData) /\
  (forall athanMonth iqamaMonth,
     result (extractPrayerTimes today extractedData) = inr (athanMonth, iqamaMonth) ->
     Forall (fun r => keys r = athanColumns) athanMonth /\
     Forall (fun r => keys r = iqamaColumns) iqamaMonth) /\
  (In "Maghrib" athanColumns /\ In "Maghrib" iqamaColumns) /\
  (existsb (String.eqb "Magrib") athanColumns = false /\
   existsb (String.eqb "Magrib") iqamaColumns = false) /\
  (forall day r before times after,
     recordOf day r ->
     prayers day = (before ++ ("Magrib", times) :: after)%list ->
     (forall e, In e after -> correctedName (fst e) <> "Maghrib") ->
     exists start24 iqamah24,
       result (convertTo24Hour (start times) "Magrib") = inr start24 /\
       result (convertTo24Hour (iqamah times) "Magrib") = inr iqamah24 /\
       getProp (athan r) "Maghrib" = Some start24 /\
       getProp (iqama r) "Maghrib" = Some iqamah24 /\
       getProp (athan r) "Magrib" = None /\ getProp (iqama r) "Magrib" = None) /\
  (forall day before times after,
     In day extractedData ->
     0 < dayNumber day <= daysIn (getFullYear today) (getMonth today) ->
     (forall day', In day' extractedData -> dayNumber day' = dayNumber day -> day' = day) ->
     prayers day = (before ++ ("Magrib", times) :: after)%list ->
     (forall e, In e after -> correctedName (fst e) <> "Maghrib") ->
     exists start24 iqamah24 athanMonth iqamaMonth athanRow iqamaRow,
       result (convertTo24Hour (start times) "Magrib") = inr start24 /\
       result (convertTo24Hour (iqamah times) "Magrib") = inr iqamah24 /\
       result (extractPrayerTimes today extractedData) = inr (athanMonth, iqamaMonth) /\
       athanMonth !! Z.to_nat (dayNumber day - 1) = Some athanRow /\
       iqamaMonth !! Z.to_nat (dayNumber day - 1) = Some iqamaRow /\
       getProp athanRow "Maghrib" = Some (VStr start24) /\
       getProp iqamaRow "Maghrib" = Some (VStr iqamah24) /\
       getProp athanRow "Magrib" = None /\ getProp iqamaRow "Magrib" = None).
Proof.
  assert (Hrun : forall records r0 rest,
             result (processWeek extractedData) = inr records ->
             sortByDayNumber records = r0 :: rest ->
             forall year month,
               (forall d, patternKeys (specSource r0 (r0 :: rest)
                                         (buildDayOfWeekMap (r0 :: rest)) year month d)) /\
               (forall d, patternKeys (patternSource r0
                                         (buildDayOfWeekMap (r0 :: rest)) year month d))).
  { intros records r0 rest E Hsorted year month.
    assert (K : Forall recordKeys (r0 :: rest)).
    { rewrite <- Hsorted. apply List.Forall_forall. intros r Hr.
      apply (proj1 (sortByDayNumber_In _ _)) in Hr.
      now apply (proj1 (List.Forall_forall _ _) (processWeek_keys _ _ E)). }
    pose proof (Forall_inv K) as K0.
    split; intros d; [now apply specSource_keys | now apply patternSource_keys]. }
  split; [| split; [| split; [| split; [| split; [| split; [| split]]]]]].
  - intros athanRow iqamaRow times [Ka Ki]. cbn [fst snd] in Ka, Ki.
    destruct (convertTo24Hour_returns (start times) "Magrib") as [start24 Es].
    destruct (convertTo24Hour_returns (iqamah times) "Magrib") as [iqamah24 Ei].
    exists start24, iqamah24.
    assert (Ha : hasOwnProperty athanRow "Maghrib" = true)
      by now rewrite hasOwnProperty_keys, Ka.
    assert (Hi : hasOwnProperty iqamaRow "Maghrib" = true)
      by now rewrite hasOwnProperty_keys, Ki.
    unfold processPrayer. rewrite result_bind, Es, result_bind, Ei.
    cbv zeta. change (String.eqb "Magrib" "Magrib") with true. cbv iota.
    rewrite Ha, Hi.
    change (negb (String.eqb "Maghrib" "Sunrise")) with true.
    cbn [andb result snd ret].
    eexists _, _. split; [reflexivity |]. split; [reflexivity |].
    split; [reflexivity |].
    split; [apply getProp_setProp |]. split; [apply getProp_setProp |].
    split; cbn [fst snd]; rewrite keys_setProp; assumption.
  - intros records. apply processWeek_keys.
  - apply wellKeyed_csvWrites. rewrite csvWrites_script.
    destruct (processWeek_records extractedData) as (records & E & _).
    destruct (sortByDayNumber records) as [| r0 rest] eqn:Hsorted.
    + assert (records = []) as ->.
      { destruct records; [reflexivity |].
        now apply sortByDayNumber_nonempty in Hsorted. }
      rewrite <- csvWrites_script.
      rewrite (empty_week_run_writes_nothing today extractedData E).
      constructor.
    + rewrite (extractBody_csvWrites today extractedData r0 rest records E Hsorted).
      destruct (Hrun records r0 rest E Hsorted (getFullYear today) (getMonth today))
        as [Hc _].
      destruct (Hrun records r0 rest E Hsorted
                  (getFullYear (nextMonthDate today)) (getMonth (nextMonthDate today)))
        as [_ Hn].
      unfold currentTables, nextTables.
      constructor; [exact (proj1 (tablesFrom_keys _ _ _ Hc)) |].
      constructor; [exact (proj2 (tablesFrom_keys _ _ _ Hc)) |].
      constructor; [exact (proj1 (tablesFrom_keys _ _ _ Hn)) |].
      constructor; [exact (proj2 (tablesFrom_keys _ _ _ Hn)) |].
      constructor.
  - intros athanMonth iqamaMonth R.
    destruct (processWeek_records extractedData) as (records & E & _).
    destruct records as [| r rs].
    + destruct (script_empty_week today extractedData E) as (e & He & _).
      rewrite He in R. discriminate.
    + destruct (script_week today extractedData (r :: rs) E) as (r0 & rest & Hs & R' & _);
        [discriminate |].
      rewrite R' in R. apply (inj inr) in R. unfold currentTables in R.
      destruct (Hrun _ r0 rest E Hs (getFullYear today) (getMonth today)) as [Hc _].
      pose proof (tablesFrom_keys _ (getFullYear today) (getMonth today) Hc) as [Ta Ti].
      rewrite R in Ta, Ti. now split.
  - split; cbn; tauto.
  - split; reflexivity.
  - intros day r before times after. apply Magrib_in_record.
  - intros day before times after. apply Magrib_in_row.
Qed.

End Maghrib.

(** In UTC: the "Magrib" entry of the sample week, 5:10 and 5:15 on day 3,
    in the tables of November 2026. *)
Section MaghribExamples.
#[local] Existing Instance utc.

Example sampleWeek_Maghrib :
  exists athanMonth iqamaMonth athanRow iqamaRow,
    result (extractPrayerTimes november2 sampleWeek) = inr (athanMonth, iqamaMonth) /\
    athanMonth !! 2%nat = Some athanRow /\ iqamaMonth !! 2%nat = Some iqamaRow /\
    getProp athanRow "Maghrib" = Some (VStr "17:10") /\
    getProp iqamaRow "Maghrib" = Some (VStr "17:15") /\
    getProp athanRow "Magrib" = None.
Proof.
  destruct (result (extractPrayerTimes november2 sampleWeek)) as [e | [a i]] eqn:E;
    vm_compute in E; [discriminate E |].
  injection E as <- <-. eexists _, _, _, _. repeat split.
Qed.

(** The same through [Magrib_in_row]: its conditions hold for the first
    row of the sample week. *)
Example sampleWeek_Magrib_in_row :
  exists start24 iqamah24 athanMonth iqamaMonth athanRow iqamaRow,
    result (convertTo24Hour "5:10" "Magrib") = inr start24 /\
    result (convertTo24Hour "5:15" "Magrib") = inr iqamah24 /\
    result (extractPrayerTimes november2 sampleWeek) = inr (athanMonth, iqamaMonth) /\
    athanMonth !! Z.to_nat (3 - 1) = Some athanRow /\
    iqamaMonth !! Z.to_nat (3 - 1) = Some iqamaRow /\
    getProp athanRow "Maghrib" = Some (VStr start24) /\
    getProp iqamaRow "Maghrib" = Some (VStr iqamah24) /\
    getProp athanRow "Magrib" = None /\ getProp iqamaRow "Magrib" = None.
Proof.
  apply (Magrib_in_row november2 sampleWeek
           {| date := "November 2026 3 Tue"; dayNumber := 3; dayOfWeek := 2;
              isToday := true;
              prayers := [("Fajr", {| start := "5:02"; iqamah := "5:22" |});
                          ("Magrib", {| start := "5:10"; iqamah := "5:15" |})] |}
           [("Fajr", {| start := "5:02"; iqamah := "5:22" |})]
           {| start := "5:10"; iqamah := "5:15" |} []).
  - now left.
  - split; [reflexivity | apply Z.leb_le; reflexivity].
  - intros day' [<- | [<- | [<- | []]]]; [reflexivity | discriminate | discriminate].
  - reflexivity.
  - intros e [].
Qed.

End MaghribExamples.

(** ** The rows of the page *)

Section PageMore.

Lemma span_app class a b :
  allOf class a = true -> startsWith class b = false ->
  span class (a ++ b) = (a, b).
Proof.
  intros Ha Hb. induction a as [| c a IH].
  - change ("" ++ b) with b.
    destruct b as [| c b]; [reflexivity |]. cbn in Hb |- *. now rewrite Hb.
  - cbn [allOf] in Ha. apply andb_prop in Ha as [Hc Ha].
    rewrite append_String. cbn [span]. now rewrite Hc, IH.
Qed.

Lemma span_prefix class s : allOf class (fst (span class s)) = true.
Proof.
  induction s as [| c s IH]; [reflexivity |]. cbn [span].
  destruct (class c) eqn:Hc; [| reflexivity].
  destruct (span class s) as [prefix rest]. cbn [fst allOf] in *. now rewrite Hc.
Qed.

Lemma allOf_isDigit s : allOf isDigit s = allDigits s.
Proof. induction s as [| c s IH]; [reflexivity |]. cbn. now rewrite IH. Qed.

Lemma class_facts c :
  (isWhiteSpace c = true -> isDigit c = false /\ isWordChar c = false) /\
  (isDigit c = true -> isWordChar c = true).
Proof.
  destruct c as [[] [] [] [] [] [] [] []]; vm_compute; repeat split; try discriminate.
Qed.

Lemma startsWith_other (class other : ascii -> bool) s :
  (forall c, class c = true -> other c = false) ->
  someOf class s = true -> startsWith other s = false.
Proof.
  intros H Hs. destruct s as [| c s]; [reflexivity |].
  cbn in Hs |- *. apply andb_prop in Hs as [Hc _]. now apply H.
Qed.

Lemma someOf_not_empty class s : someOf class s = true -> String.eqb s "" = false.
Proof. destruct s; [discriminate | reflexivity]. Qed.

Lemma someOf_allOf class s : someOf class s = true -> allOf class s = true.
Proof. destruct s; [discriminate | trivial]. Qed.

Lemma dateMatchAt_groups s digits word :
  dateMatchAt s = Some (digits, word) ->
  numeral digits = true /\ someOf isWordChar word = true.
Proof.
  unfold dateMatchAt.
  pose proof (span_prefix isDigit s) as Hd.
  destruct (span isDigit s) as [ds rest]. cbn [fst] in Hd.
  destruct ds as [| c ds]; [discriminate |]. cbn [String.eqb].
  pose proof (span_prefix isWhiteSpace rest) as Hw.
  destruct (span isWhiteSpace rest) as [ws rest']. cbn [fst] in Hw.
  destruct ws as [| w ws]; [discriminate |]. cbn [String.eqb].
  pose proof (span_prefix isWordChar rest') as Hx.
  destruct (span isWordChar rest') as [word' rest'']. cbn [fst] in Hx.
  destruct word' as [| x word']; [discriminate |]. cbn [String.eqb].
  intros H. injection H as <- <-.
  split; [| exact Hx]. unfold numeral. now rewrite <- allOf_isDigit.
Qed.

Lemma dateMatch_groups dateday digits word :
  dateMatch dateday = Some (digits, word) ->
  numeral digits = true /\ someOf isWordChar word = true.
Proof.
  induction dateday as [| c rest IH]; [discriminate |]. cbn [dateMatch].
  destruct (dateMatchAt (String c rest)) as [[ds w] |] eqn:E.
  - intros H. injection H as <- <-. now apply (dateMatchAt_groups _ _ _ E).
  - exact IH.
Qed.


Lemma dayOfWeekOf_range dayName : -1 <= dayOfWeekOf dayName <= 6.
Proof.
  unfold dayOfWeekOf.
  repeat match goal with
         | |- context [if ?b then _ else _] => destruct b
         end; lia.
Qed.

(** X18: a date text made of a numeral, white space and a word gives the
    value of the numeral as day number, as long as it is at most 2^53, and
    the weekday of the word: 0 to 6 for Sun to Sat, and -1 for any other
    word. *)
Theorem extractRow_dateday row text digits spaces word :
  datedayText row = Some text ->
  trim text = digits ++ spaces ++ word ->
  numeral digits = true ->
  decimalValue 0 digits <= 2 ^ 53 ->
  someOf isWhiteSpace spaces = true ->
  someOf isWordChar word = true ->
  dayNumber (extractRow row) = decimalValue 0 digits /\
  dayOfWeek (extractRow row) = dayOfWeekOf word /\
  0 <= dayNumber (extractRow row).
Proof.
  intros Ht Hs Hd Hb Hw Hx.
  assert (E : dateMatch (digits ++ spaces ++ word) = Some (digits, word)).
  { assert (A : dateMatchAt (digits ++ spaces ++ word) = Some (digits, word)).
    { unfold dateMatchAt.
      rewrite (span_app isDigit digits (spaces ++ word)).
      2:{ rewrite allOf_isDigit. now apply numeral_allDigits. }
      2:{ destruct spaces as [| c spaces]; [discriminate |].
          rewrite append_String. cbn in Hw |- *. apply andb_prop in Hw as [Hc _].
          now apply (proj1 (class_facts c)). }
      assert (Nd : String.eqb digits "" = false) by (now destruct digits).
      rewrite Nd, (span_app isWhiteSpace spaces word).
      2:{ now apply someOf_allOf. }
      2:{ apply (startsWith_other isWordChar); [| exact Hx].
          intros c Hc. destruct (isWhiteSpace c) eqn:W; [| reflexivity].
          apply (proj1 (class_facts c)) in W as [_ W]. congruence. }
      rewrite (someOf_not_empty _ _ Hw).
      replace word with (word ++ "") at 1.
      2:{ clear. induction word as [| c w IH]; [reflexivity |].
          now rewrite append_String, IH. }
      rewrite (span_app isWordChar word "") by (now apply someOf_allOf || reflexivity).
      now rewrite (someOf_not_empty _ _ Hx). }
    destruct digits as [| c ds]; [discriminate |].
    rewrite append_String in A |- *. cbn [dateMatch]. now rewrite A. }
  unfold extractRow. cbn [dayNumber dayOfWeek].
  rewrite Ht. cbn [textOrEmpty]. rewrite Hs, E. cbn [fst snd].
  rewrite (parseInt_numeral _ Hd Hb). cbn [integerOf].
  split; [reflexivity |]. split; [reflexivity |].
  apply decimalValue_nonneg; [lia | now apply numeral_allDigits].
Qed.

Lemma extractRow_dateday_witness :
  dayNumber (extractRow samplePageRow) = decimalValue 0 "13" /\
  dayOfWeek (extractRow samplePageRow) = dayOfWeekOf "Fri" /\
  0 <= dayNumber (extractRow samplePageRow).
Proof.
  apply (extractRow_dateday samplePageRow " 13  Fri " "13" "  " "Fri");
    try reflexivity.
  apply Z.leb_le. reflexivity.
Defined.

(** X19: every row of the page gets a day number that is not negative and
    a weekday between -1 and 6; a row whose date text has no match of the
    pattern gets the day number 0 and the weekday -1, and a row with a day
    number 0 is skipped by the processing of the week. *)
Theorem extractRow_ranges row :
  0 <= dayNumber (extractRow row) /\
  -1 <= dayOfWeek (extractRow row) <= 6 /\
  (dateMatch (textOrEmpty (datedayText row)) = None ->
   dayNumber (extractRow row) = 0 /\ dayOfWeek (extractRow row) = -1) /\
  (dayNumber (extractRow row) = 0 ->
   forall processedWeekData,
     processDay processedWeekData (extractRow row) =
     ([skipped (extractRow row)], inr processedWeekData)).
Proof.
  split; [| split; [| split]].
  - unfold extractRow. cbn [dayNumber].
    destruct (dateMatch _) as [[digits word] |] eqn:E; [| lia].
    destruct (dateMatch_groups _ _ _ E) as [Hd _]. cbn [fst].
    rewrite (parseInt_number _ Hd). apply toDouble_nonneg.
    apply decimalValue_nonneg; [lia | now apply numeral_allDigits].
  - unfold extractRow. cbn [dayOfWeek]. apply dayOfWeekOf_range.
  - intros E. unfold extractRow. cbn [dayNumber dayOfWeek]. now rewrite E.
  - intros E acc. apply processDay_skip. lia.
Qed.

Lemma keys_setProp_cases {V} (o : obj V) k v :
  keys (setProp o k v) = if hasOwnProperty o k then keys o else (keys o ++ [k])%list.
Proof.
  unfold keys, hasOwnProperty.
  induction o as [| [k' v'] o IH]; cbn [setProp map existsb fst]; [reflexivity |].
  destruct (String.eqb k' k); cbn [orb map fst]; [reflexivity |].
  rewrite IH. now destruct (existsb _ o).
Qed.

Lemma hasOwnProperty_In {V} (o : obj V) k : hasOwnProperty o k = true <-> In k (keys o).
Proof.
  rewrite hasOwnProperty_keys. rewrite existsb_exists. split.
  - intros (x & Hx & E). apply String.eqb_eq in E. now subst.
  - intros H. exists k. split; [exact H | apply String.eqb_refl].
Qed.

(** The prayers object while the cells are added. *)
Lemma addTimeCells cells : forall prayers : obj Times,
  List.NoDup (keys prayers) -> ~ In "" (keys prayers) -> ~ In "__proto__" (keys prayers) ->
  List.NoDup (keys (fold_left addTimeCell cells prayers)) /\
  ~ In "" (keys (fold_left addTimeCell cells prayers)) /\
  ~ In "__proto__" (keys (fold_left addTimeCell cells prayers)) /\
  forall name,
    (forall cell, In cell cells -> textOrEmpty (timeName cell) <> name) ->
    getProp (fold_left addTimeCell cells prayers) name = getProp prayers name.
Proof.
  induction cells as [| cell cells IH]; intros prayers Hn He Hp.
  - repeat split; auto.
  - cbn [fold_left].
    assert (K : List.NoDup (keys (addTimeCell prayers cell)) /\
                ~ In "" (keys (addTimeCell prayers cell)) /\
                ~ In "__proto__" (keys (addTimeCell prayers cell))).
    { unfold addTimeCell.
      destruct (String.eqb_spec (textOrEmpty (timeName cell)) "") as [E | N];
        cbn [negb]; [now repeat split |].
      destruct (String.eqb_spec (textOrEmpty (timeName cell)) "__proto__") as [E' | N'];
        [now repeat split |].
      rewrite keys_setProp_cases.
      destruct (hasOwnProperty prayers _) eqn:Hh; [now repeat split |].
      split; [| split].
      - apply (Permutation_NoDup (Permutation_cons_append _ _)).
        apply List.NoDup_cons_iff. split; [| exact Hn].
        intros Hk. apply (proj2 (hasOwnProperty_In _ _)) in Hk. congruence.
      - intros Hin. apply in_app_or in Hin as [Hin | [Hin | []]]; auto.
      - intros Hin. apply in_app_or in Hin as [Hin | [Hin | []]]; auto. }
    destruct K as (Kn & Ke & Kp). destruct (IH _ Kn Ke Kp) as (A & B & B' & C).
    split; [exact A |]. split; [exact B |]. split; [exact B' |].
    intros name Hno. rewrite C by (intros c Hc; apply Hno; now right).
    unfold addTimeCell.
    destruct (String.eqb (textOrEmpty (timeName cell)) ""); cbn [negb]; [reflexivity |].
    destruct (String.eqb (textOrEmpty (timeName cell)) "__proto__"); [reflexivity |].
    rewrite getProp_setProp_other.
    destruct (String.eqb_spec (textOrEmpty (timeName cell)) name) as [E | N];
      [| reflexivity].
    exfalso. apply (Hno cell); [now left | exact E].
Qed.

Lemma getProp_app {V} (a b : obj V) k :
  getProp (a ++ b)%list k =
  match getProp a k with
  | Some v => Some v
  | None => getProp b k
  end.
Proof.
  induction a as [| [k' v'] a IH]; [reflexivity |]. cbn.
  destruct (String.eqb k' k); [reflexivity | exact IH].
Qed.

Lemma getProp_filter {V} (f : string -> bool) (o : obj V) k :
  getProp (List.filter (fun p => f (fst p)) o) k = if f k then getProp o k else None.
Proof.
  induction o as [| [k' v'] o IH]; cbn [List.filter getProp fst].
  - now destruct (f k).
  - destruct (f k') eqn:F; cbn [getProp].
    + destruct (String.eqb_spec k' k) as [-> | N]; [now rewrite F | exact IH].
    + destruct (String.eqb_spec k' k) as [-> | N]; [now rewrite IH, F | exact IH].
Qed.

Lemma keys_filter_In {V} (f : string * V -> bool) (o : obj V) k :
  In k (keys (List.filter f o)) -> In k (keys o).
Proof.
  unfold keys. rewrite !in_map_iff. intros (p & E & Hp).
  apply filter_In in Hp as [Hp _]. now exists p.
Qed.

Lemma NoDup_keys_filter {V} (f : string * V -> bool) (o : obj V) :
  List.NoDup (keys o) -> List.NoDup (keys (List.filter f o)).
Proof.
  induction o as [| p o IH]; [constructor |]. cbn [keys map List.filter].
  intros H. apply List.NoDup_cons_iff in H as [Hp Ho].
  destruct (f p); [| now apply IH].
  cbn [map]. apply List.NoDup_cons_iff. split; [| now apply IH].
  intros Hin. apply Hp. now apply (keys_filter_In f).
Qed.

Lemma keys_insertIndex {V} (p : string * V) l :
  Permutation (keys (insertIndex p l)) (fst p :: keys l).
Proof.
  induction l as [| q l IH]; cbn [insertIndex]; [reflexivity |].
  destruct (_ <? _); [| reflexivity].
  cbn [keys map] in *. rewrite IH. apply perm_swap.
Qed.

Lemma keys_sortIndex {V} (l : obj V) :
  Permutation (keys (foldr insertIndex [] l)) (keys l).
Proof.
  induction l as [| p l IH]; [reflexivity |]. cbn [foldr].
  rewrite keys_insertIndex. cbn [keys map]. now constructor.
Qed.

Lemma getProp_insertIndex {V} (p : string * V) l k :
  ~ In (fst p) (keys l) ->
  getProp (insertIndex p l) k =
  if String.eqb (fst p) k then Some (snd p) else getProp l k.
Proof.
  destruct p as [kp vp]. cbn [fst snd].
  induction l as [| [kq vq] l IH]; cbn [insertIndex keys map In fst]; intros H.
  - reflexivity.
  - destruct (_ <? _); cbn [getProp]; [| reflexivity].
    rewrite IH by tauto.
    destruct (String.eqb_spec kq k) as [-> | N]; [| reflexivity].
    destruct (String.eqb_spec kp k) as [-> | N']; [tauto | reflexivity].
Qed.

Lemma getProp_sortIndex {V} (l : obj V) k :
  List.NoDup (keys l) -> getProp (foldr insertIndex [] l) k = getProp l k.
Proof.
  induction l as [| [kp vp] l IH]; [reflexivity |]. cbn [keys map foldr fst].
  intros H. apply List.NoDup_cons_iff in H as [Hp Hl].
  rewrite getProp_insertIndex.
  - cbn [fst snd getProp]. now rewrite IH.
  - cbn [fst]. intros Hin. apply Hp.
    now apply (Permutation_in _ (keys_sortIndex l)).
Qed.

(** Listing the properties of an object keeps what each key holds. *)
Lemma getProp_ownEntries {V} (o : obj V) k :
  List.NoDup (keys o) -> getProp (ownEntries o) k = getProp o k.
Proof.
  intros H. unfold ownEntries. rewrite getProp_app.
  rewrite getProp_sortIndex by now apply NoDup_keys_filter.
  rewrite (getProp_filter isArrayIndex), (getProp_filter (fun k => negb (isArrayIndex k))).
  destruct (isArrayIndex k); cbn [negb]; [now destruct (getProp o k) | reflexivity].
Qed.

Lemma keys_ownEntries {V} (o : obj V) : Permutation (keys (ownEntries o)) (keys o).
Proof.
  unfold ownEntries, keys. rewrite map_app. fold (@keys V).
  change (map fst) with (@keys V).
  rewrite keys_sortIndex.
  induction o as [| [k v] o IH]; [reflexivity |]. cbn [List.filter fst].
  destruct (isArrayIndex k); cbn [negb keys map app fst].
  - now constructor.
  - rewrite <- IH. symmetry. apply Permutation_middle.
Qed.

(** X20: the prayers of a row have distinct names, none of them empty
    and none of them [__proto__], and each name other than [__proto__]
    holds the trimmed times of the last cell with that name: a cell without
    a name is dropped and an earlier cell with the same name is
    overwritten. *)
Theorem extractRow_prayers row before cell after :
  timeCells row = (before ++ cell :: after)%list ->
  textOrEmpty (timeName cell) <> "" ->
  textOrEmpty (timeName cell) <> "__proto__" ->
  (forall c, In c after -> textOrEmpty (timeName c) <> textOrEmpty (timeName cell)) ->
  List.NoDup (keys (prayers (extractRow row))) /\
  ~ In "" (keys (prayers (extractRow row))) /\
  ~ In "__proto__" (keys (prayers (extractRow row))) /\
  getProp (prayers (extractRow row)) (textOrEmpty (timeName cell)) = Some (timesOf cell).
Proof.
  intros Hc Hn Hp Hafter. unfold extractRow. cbn [prayers].
  assert (P0 : ~ In "__proto__" (keys ([] : obj Times))) by (intros []).
  destruct (addTimeCells (timeCells row) [] (List.NoDup_nil _) (@in_nil _ _) P0)
    as (Nd & Ne & Np & _).
  split; [| split; [| split]].
  - apply (Permutation_NoDup (l := keys (fold_left addTimeCell (timeCells row) []))).
    + symmetry. apply keys_ownEntries.
    + exact Nd.
  - intros Hin. apply Ne. now apply (Permutation_in _ (keys_ownEntries _)).
  - intros Hin. apply Np. now apply (Permutation_in _ (keys_ownEntries _)).
  - rewrite getProp_ownEntries by exact Nd.
    rewrite Hc, fold_left_app. cbn [fold_left].
    destruct (addTimeCells before [] (List.NoDup_nil _) (@in_nil _ _) P0)
      as (Nb & Eb & Pb & _).
    set (prayers0 := fold_left addTimeCell before []) in *.
    assert (K : List.NoDup (keys (addTimeCell prayers0 cell)) /\
                ~ In "" (keys (addTimeCell prayers0 cell)) /\
                ~ In "__proto__" (keys (addTimeCell prayers0 cell))).
    { destruct (addTimeCells [cell] prayers0 Nb Eb Pb) as (A & B & B' & _).
      now repeat split. }
    destruct K as (Kn & Ke & Kp).
    destruct (addTimeCells after _ Kn Ke Kp) as (_ & _ & _ & L).
    rewrite L by exact Hafter.
    unfold addTimeCell. apply String.eqb_neq in Hn, Hp. rewrite Hn, Hp. cbn [negb].
    apply getProp_setProp.
Qed.

Lemma extractRow_prayers_witness :
  List.NoDup (keys (prayers (extractRow samplePageRow))) /\
  ~ In "" (keys (prayers (extractRow samplePageRow))) /\
  ~ In "__proto__" (keys (prayers (extractRow samplePageRow))) /\
  getProp (prayers (extractRow samplePageRow)) "Fajr" =
    Some {| start := "5:41"; iqamah := "6:01" |}.
Proof.
  apply (extractRow_prayers samplePageRow
           [{| timeName := Some "Fajr"; timeStart := Some " 5:40 ";
               timeIqamah := Some "6:00" |};
            {| timeName := Some " "; timeStart := Some "1:00"; timeIqamah := None |}]
           {| timeName := Some "Fajr"; timeStart := Some "5:41";
              timeIqamah := Some "6:01" |} []).
  - reflexivity.
  - discriminate.
  - discriminate.
  - intros c [].
Defined.

(** A cell named [__proto__] leaves no entry. *)
Example proto_cell_dropped :
  prayers (extractRow
             {| monthyearText := None; datedayText := Some "13 Fri"; rowMarkText := None;
                timeCells := [{| timeName := Some "__proto__"; timeStart := Some "5:40";
                                 timeIqamah := Some "6:00" |}] |}) = [].
Proof. reflexivity. Qed.

End PageMore.

(** ** From the page to the exit code *)

Section PageRun.
Context {zone : TimeZone}.

(** X21: when the date text of no row of the page matches the pattern,
    every row is skipped, the run throws, no CSV file is written and the
    script exits with 1. *)
Theorem unparsed_page_aborts today rows :
  Forall (fun row => dateMatch (textOrEmpty (datedayText row)) = None) rows ->
  throws (extractPrayerTimes today (pageEvaluate rows)) /\
  csvWrites (script today (pageEvaluate rows)) = [] /\
  last (script today (pageEvaluate rows)) = Some (Exit 1).
Proof.
  intros H.
  assert (Hskip : Forall (fun day => dayNumber day <= 0) (pageEvaluate rows)).
  { unfold pageEvaluate. induction H as [| row rows Hrow _ IH]; [constructor |].
    cbn [List.map]. constructor; [| exact IH].
    unfold extractRow. cbn [dayNumber]. rewrite Hrow. lia. }
  apply processWeek_all_skipped in Hskip.
  destruct (script_empty_week today _ Hskip) as (e & He & Hs).
  split; [now exists e |]. split; [now apply empty_week_run_writes_nothing |].
  rewrite Hs, !last_app. reflexivity.
Qed.

End PageRun.

(** In UTC. *)
Section PageRunExamples.
#[local] Existing Instance utc.

Lemma unparsed_page_aborts_witness :
  throws (extractPrayerTimes november2
            (pageEvaluate [{| monthyearText := None; datedayText := Some "Nov 5";
                              rowMarkText := None; timeCells := [] |}])) /\
  csvWrites (script november2
               (pageEvaluate [{| monthyearText := None; datedayText := Some "Nov 5";
                                 rowMarkText := None; timeCells := [] |}])) = [] /\
  last (script november2
          (pageEvaluate [{| monthyearText := None; datedayText := Some "Nov 5";
                            rowMarkText := None; timeCells := [] |}])) = Some (Exit 1).
Proof.
  apply (unparsed_page_aborts november2).
  constructor; [reflexivity | constructor].
Defined.

End PageRunExamples.

(** ** Text after the minutes *)

Section SuffixMore.

Lemma nondigit_facts c : isDigit c = false -> digitValue 10 c = None.
Proof.
  destruct c as [[] [] [] [] [] [] [] []]; intros H; try discriminate H; reflexivity.
Qed.

Lemma whitespace_facts c :
  isWhiteSpace c = true ->
  isDigit c = false /\ Ascii.eqb c "x" = false /\ Ascii.eqb c "X" = false /\
  Ascii.eqb c ":" = false.
Proof.
  destruct c as [[] [] [] [] [] [] [] []]; intros H; try discriminate H;
    repeat split.
Qed.

Lemma parseDigits_prefix a t : forall acc,
  allDigits a = true -> startsWith isDigit t = false ->
  parseDigits 10 (Some acc) (a ++ t) = Some (decimalValue acc a).
Proof.
  induction a as [| c a IH]; intros acc Ha Ht.
  - change ("" ++ t) with t. destruct t as [| c t]; [reflexivity |].
    cbn in Ht |- *. now rewrite (nondigit_facts c Ht).
  - cbn [allDigits] in Ha. apply andb_prop in Ha as [Hc Ha].
    rewrite append_String. cbn [parseDigits decimalValue].
    destruct (digit_facts c Hc) as (_ & _ & _ & _ & _ & _ & _ & ->).
    cbn [default]. now apply IH.
Qed.

(** [parseInt] stops at the white space after a numeral. *)
Lemma parseInt_numeral_suffix a t :
  numeral a = true -> startsWith isWhiteSpace t = true ->
  parseInt (a ++ t) = toDouble (decimalValue 0 a).
Proof.
  destruct a as [| c a]; [discriminate |]. destruct t as [| w t]; [discriminate |].
  unfold numeral. cbn [startsWith]. intros Ha Hw.
  pose proof Ha as [Hc Hs]%andb_prop.
  destruct (digit_facts c Hc) as (Hcw & Hm & Hp & _ & _ & _ & _ & Hv).
  destruct (whitespace_facts w Hw) as (Hwd & Hwx & HwX & _).
  rewrite append_String. unfold parseInt. cbn [trimStart]. rewrite Hcw, Hm, Hp.
  assert (E : (match String c (a ++ String w t) with
               | String c0 (String x r) =>
                   if Ascii.eqb c0 "0" && (Ascii.eqb x "x" || Ascii.eqb x "X")
                   then (16, r) else (10, String c (a ++ String w t))
               | _ => (10, String c (a ++ String w t))
               end) = (10, String c (a ++ String w t))).
  { destruct a as [| x a].
    - change ("" ++ String w t) with (String w t). cbv beta iota.
      now rewrite Hwx, HwX, andb_false_r.
    - rewrite append_String. cbv beta iota.
      cbn [allDigits] in Hs. apply andb_prop in Hs as [Hx _].
      destruct (digit_facts x Hx) as (_ & _ & _ & -> & -> & _).
      now rewrite andb_false_r. }
  rewrite E. cbn [parseDigits]. rewrite Hv. cbn [default].
  rewrite parseDigits_prefix; [| exact Hs | exact Hwd].
  f_equal. cbn [decimalValue]. generalize (Z.of_N (N_of_ascii c) - 48). intros d.
  replace (10 * 0 + d) with d by lia. generalize (decimalValue d a). intros v. lia.
Qed.

Lemma split_head sep a b :
  includes sep a = false ->
  split sep (a ++ b) =
  match split sep b with
  | piece :: pieces => (a ++ piece) :: pieces
  | [] => [a]
  end.
Proof.
  induction a as [| x a IH]; intros H.
  - change ("" ++ b) with b. destruct (split sep b) eqn:E; [| reflexivity].
    now apply split_nonempty in E.
  - cbn [includes] in H. rewrite append_String. cbn [split].
    destruct (Ascii.eqb x sep); [discriminate |].
    rewrite (IH H). now destruct (split sep b).
Qed.

Lemma split_first_whitespace t :
  startsWith isWhiteSpace t = true ->
  exists piece pieces,
    split ":" t = piece :: pieces /\ startsWith isWhiteSpace piece = true.
Proof.
  destruct t as [| w t]; [discriminate |]. cbn [startsWith split]. intros Hw.
  destruct (whitespace_facts w Hw) as (_ & _ & _ & ->).
  destruct (split ":" t) as [| piece pieces]; eexists _, _; split; reflexivity || exact Hw.
Qed.

(** X22: text that follows the minutes after white space, such as an
    AM or PM marker, does not change the result: the prayer name alone
    decides the half of the day. *)
Theorem marker_after_minutes_ignored H MM suffix prayerName :
  numeral H = true -> numeral MM = true ->
  startsWith isWhiteSpace suffix = true -> includes "," suffix = false ->
  result (convertTo24Hour (H ++ ":" ++ MM ++ suffix) prayerName) =
  result (convertTo24Hour (H ++ ":" ++ MM) prayerName).
Proof.
  intros HH HM Hw Hc.
  destruct (HMM_shape H MM HH HM) as (Ht & Hh & Hm).
  pose proof (numeral_allDigits _ HH) as DH.
  pose proof (numeral_allDigits _ HM) as DM.
  assert (Hcomma : includes "," (H ++ ":" ++ MM ++ suffix) = false).
  { rewrite !includes_app, Hc.
    rewrite (allDigits_includes "," H), (allDigits_includes "," MM) by easy.
    reflexivity. }
  destruct (split_first_whitespace suffix Hw) as (piece & pieces & Es & Hp).
  assert (Hsplit : split ":" (H ++ ":" ++ MM ++ suffix) = H :: (MM ++ piece) :: pieces).
  { change (H ++ ":" ++ MM ++ suffix) with (H ++ String ":" (MM ++ suffix)).
    rewrite split_app by now apply allDigits_includes.
    rewrite split_head by now apply allDigits_includes.
    now rewrite Es. }
  assert (Ht' : trim (H ++ ":" ++ MM ++ suffix) <> "").
  { destruct H as [| c h]; [discriminate |].
    apply andb_prop in DH as [Hd _]. destruct (digit_facts c Hd) as (Hcw & _).
    rewrite append_String. unfold trim. cbn [trimStart]. rewrite Hcw.
    destruct (trimEnd_cons c (h ++ ":" ++ MM ++ suffix) Hcw) as [r ->]. discriminate. }
  rewrite (convertTo24Hour_nonblank _ _ Ht'), (convertTo24Hour_nonblank _ _ Ht).
  rewrite Hh, Hm. unfold parsedHours, parsedMinutes, firstListed.
  rewrite Hcomma, Hsplit. cbn [lookup list_lookup toStringOrUndefined].
  rewrite (parseInt_number _ HH), (parseInt_numeral_suffix _ _ HM Hp).
  reflexivity.
Qed.

Lemma marker_after_minutes_ignored_witness :
  result (convertTo24Hour ("5" ++ ":" ++ "30" ++ " AM") "Isha") =
  result (convertTo24Hour ("5" ++ ":" ++ "30") "Isha").
Proof.
  apply (marker_after_minutes_ignored "5" "30" " AM" "Isha"); reflexivity.
Defined.

End SuffixMore.

(** ** What the tables do not depend on *)

Section LabelsMore.
Context {zone : TimeZone}.

Lemma processDay_timesOnly processedWeekData day records :
  result (processDay processedWeekData day) = inr records ->
  result (processDay (withoutToday <$> processedWeekData) (timesOnly day)) =
  inr (withoutToday <$> records).
Proof.
  unfold processDay. cbn [timesOnly dayNumber dayOfWeek prayers date isToday].
  destruct (dayNumber day <=? 0).
  - cbn. intros H. apply (inj inr) in H. now subst.
  - destruct (processPrayers_keys (prayers day)) as ([athanRow iqamaRow] & E & _).
    rewrite !result_bind, E. cbn. intros H. apply (inj inr) in H. subst.
    now rewrite fmap_app.
Qed.

Lemma forEach_processDay_timesOnly extractedData : forall processedWeekData records,
  result (forEach processDay processedWeekData extractedData) = inr records ->
  result (forEach processDay (withoutToday <$> processedWeekData)
            (timesOnly <$> extractedData)) =
  inr (withoutToday <$> records).
Proof.
  induction extractedData as [| day data IH]; intros acc records.
  - cbn. intros H. apply (inj inr) in H. now subst.
  - cbn [fmap list_fmap]. rewrite !forEach_cons, !result_bind.
    destruct (processDay_returns acc day) as [v Ev].
    rewrite Ev, (processDay_timesOnly _ _ _ Ev). apply IH.
Qed.

Lemma insertByDayNumber_withoutToday d l :
  insertByDayNumber (withoutToday d) (withoutToday <$> l) =
  withoutToday <$> insertByDayNumber d l.
Proof.
  induction l as [| x l IH]; [reflexivity |].
  cbn [fmap list_fmap insertByDayNumber withoutToday pDayNumber].
  destruct (pDayNumber x - pDayNumber d <? 0); [| reflexivity].
  cbn [fmap list_fmap]. f_equal. exact IH.
Qed.

Lemma sortByDayNumber_withoutToday l :
  sortByDayNumber (withoutToday <$> l) = withoutToday <$> sortByDayNumber l.
Proof.
  unfold sortByDayNumber. induction l as [| x l IH]; [reflexivity |].
  cbn [fmap list_fmap foldr]. now rewrite IH, insertByDayNumber_withoutToday.
Qed.

Lemma buildDayOfWeekMap_withoutToday l :
  buildDayOfWeekMap (withoutToday <$> l) = buildDayOfWeekMap l.
Proof.
  unfold buildDayOfWeekMap. generalize (∅ : gmap Z Pattern).
  induction l as [| x l IH]; intros m; [reflexivity |].
  cbn [fmap list_fmap fold_left withoutToday pDayOfWeek athan iqama]. apply IH.
Qed.

Lemma find_withoutToday d l :
  List.find (fun r => pDayNumber r =? d) (withoutToday <$> l) =
  withoutToday <$> List.find (fun r => pDayNumber r =? d) l.
Proof.
  induction l as [| x l IH]; [reflexivity |].
  cbn [fmap list_fmap List.find withoutToday pDayNumber].
  destruct (pDayNumber x =? d); [reflexivity | exact IH].
Qed.

Lemma specSource_withoutToday r0 l dayOfWeekMap year month d :
  specSource (withoutToday r0) (withoutToday <$> l) dayOfWeekMap year month d =
  specSource r0 l dayOfWeekMap year month d.
Proof.
  unfold specSource. rewrite find_withoutToday.
  now destruct (List.find (fun r => pDayNumber r =? d) l).
Qed.

Lemma tablesFrom_ext source1 source2 year month :
  (forall d, source1 d = source2 d) ->
  tablesFrom source1 year month = tablesFrom source2 year month.
Proof.
  intros H. unfold tablesFrom.
  f_equal; apply list_fmap_ext; intros _ d _; now rewrite H.
Qed.

Lemma currentTables_withoutToday today r0 rest :
  currentTables today (withoutToday r0) (withoutToday <$> rest) =
  currentTables today r0 rest.
Proof.
  unfold currentTables. apply tablesFrom_ext. intros d.
  change (withoutToday r0 :: (withoutToday <$> rest))
    with (withoutToday <$> r0 :: rest).
  rewrite buildDayOfWeekMap_withoutToday. apply specSource_withoutToday.
Qed.

Lemma nextTables_withoutToday today r0 rest :
  nextTables today (withoutToday r0) (withoutToday <$> rest) =
  nextTables today r0 rest.
Proof.
  unfold nextTables. apply tablesFrom_ext. intros d.
  change (withoutToday r0 :: (withoutToday <$> rest))
    with (withoutToday <$> r0 :: rest).
  rewrite buildDayOfWeekMap_withoutToday. reflexivity.
Qed.

(** The tables and the CSV files of a run are those of the run on the
    rows without their labels. *)
Lemma run_timesOnly today extractedData :
  result (extractPrayerTimes today extractedData) =
    result (extractPrayerTimes today (timesOnly <$> extractedData)) /\
  csvWrites (script today extractedData) =
    csvWrites (script today (timesOnly <$> extractedData)).
Proof.
  destruct (processWeek_records extractedData) as (records & E & _).
  pose proof (forEach_processDay_timesOnly extractedData [] records E) as E'.
  change (result (processWeek (timesOnly <$> extractedData)) =
          inr (withoutToday <$> records)) in E'.
  destruct records as [| r records].
  - split.
    + rewrite !result_extractPrayerTimes.
      destruct extractedData as [| day data]; [reflexivity |].
      apply processWeek_all_skipped in E, E'.
      change (timesOnly <$> day :: data)
        with (timesOnly day :: (timesOnly <$> data)) in E' |- *.
      now rewrite (extractBody_all_skipped _ _ _ E), (extractBody_all_skipped _ _ _ E').
    + now rewrite !empty_week_run_writes_nothing.
  - destruct (script_week today extractedData _ E) as (r0 & rest & Hs & Hr & _);
      [discriminate |].
    assert (Hs' : sortByDayNumber (withoutToday <$> r :: records) =
                  withoutToday r0 :: (withoutToday <$> rest)).
    { now rewrite sortByDayNumber_withoutToday, Hs. }
    destruct (script_week today (timesOnly <$> extractedData) _ E')
      as (r0' & rest' & Hs'' & Hr' & _); [discriminate |].
    rewrite Hs' in Hs''. apply (inj2 cons) in Hs'' as [<- <-].
    split.
    + now rewrite Hr, Hr', currentTables_withoutToday.
    + rewrite (script_csvWrites today extractedData _ _ _ E Hs).
      rewrite (script_csvWrites today (timesOnly <$> extractedData) _ _ _ E' Hs').
      now rewrite currentTables_withoutToday, nextTables_withoutToday.
Qed.

(** X23: the date label and the [isToday] flag of a scraped row reach
    only the raw-data file and the log: two weeks that differ in nothing
    else give the same result, tables or error, and the same CSV files. *)
Theorem labels_do_not_reach_tables today week1 week2 :
  timesOnly <$> week1 = timesOnly <$> week2 ->
  result (extractPrayerTimes today week1) = result (extractPrayerTimes today week2) /\
  csvWrites (script today week1) = csvWrites (script today week2).
Proof.
  intros H.
  destruct (run_timesOnly today week1) as [-> ->].
  destruct (run_timesOnly today week2) as [-> ->].
  now rewrite H.
Qed.

End LabelsMore.

(** In UTC. *)
Section LabelsMoreExamples.
#[local] Existing Instance utc.

Lemma labels_do_not_reach_tables_witness :
  result (extractPrayerTimes november2 sampleWeek) =
    result (extractPrayerTimes november2 (timesOnly <$> sampleWeek)) /\
  csvWrites (script november2 sampleWeek) =
    csvWrites (script november2 (timesOnly <$> sampleWeek)).
Proof.
  apply (labels_do_not_reach_tables november2 sampleWeek (timesOnly <$> sampleWeek)).
  reflexivity.
Defined.

End LabelsMoreExamples.
